(** * MCP protocol engine of mcp-go-template: message model, dispatcher,
      registries and schema validator, embedded from the Go sources
      [pkg/mcp/types.go], [pkg/mcp/handler.go], [pkg/mcp/validation.go],
      [internal/tools/registry.go] and [internal/prompts/registry.go]. *)

From Stdlib Require Import ZArith Bool Lia.
From Stdlib Require Import Floats.SpecFloat.
From stdpp Require Import gmap strings list fin_maps.

Set Warnings "-register-all".

Local Open Scope string_scope.
Local Open Scope Z_scope.

(** ** Dynamic values

    A Go [interface{}] that carries decoded JSON.  [encoding/json] decodes
    numbers to [float64]; schemas and arguments built by Go code may also
    hold an [int].  A [map[string]interface{}] is kept as an association
    list: the order of the list is the order in which a [range] loop visits
    the map, which the Go runtime leaves unspecified, so a statement about
    every list is a statement about every iteration order. *)

Definition float64 : Type := spec_float.

Inductive Value : Type :=
| VNil
| VBool (b : bool)
| VFloat (f : float64)
| VInt (n : Z)
| VString (s : string)
| VArray (l : list Value)
| VObject (m : list (string * Value)).

(** A value of static type [map[string]interface{}]; [None] is the nil map. *)
Definition JMap : Type := option (list (string * Value)).

(** Go's [error]: [None] is nil, otherwise the text of [Error()]. *)
Definition error : Type := option string.

Definition isNil (v : Value) : bool :=
  match v with VNil => true | _ => false end.

Definition nonEmpty (s : string) : bool :=
  match s with EmptyString => false | _ => true end.

(** ** Types of types.go *)

Definition MCPVersion : string := "2024-11-05".

Definition RequestID : Type := Value.

Record ErrorInfo := {
  Code : Z;
  ErrMessage : string;
  Data : Value
}.

Definition ParseError : Z := -32700.
Definition InvalidRequest : Z := -32600.
Definition MethodNotFound : Z := -32601.
Definition InvalidParams : Z := -32602.
Definition InternalError : Z := -32603.
Definition InvalidMCPVersion : Z := -32000.
Definition UnknownCapability : Z := -32001.
Definition ResourceNotFound : Z := -32002.
Definition ToolNotFound : Z := -32003.
Definition PromptNotFound : Z := -32004.

Record ClientInfo := { ClientName : string; ClientVersion : string }.
Record ServerInfo := { ServerName : string; ServerVersion : string }.

Record ClientCapabilities := {
  ClientExperimental : JMap;
  Sampling : JMap
}.

Record PromptsCapability := { PromptsListChanged : bool }.
Record ResourcesCapability := { Subscribe : bool; ResourcesListChanged : bool }.
Record ToolsCapability := { ToolsListChanged : bool }.

Record ServerCapabilities := {
  Logging : option unit;
  Prompts : option PromptsCapability;
  Resources : option ResourcesCapability;
  Tools : option ToolsCapability;
  Experimental : JMap
}.

Record InitializeParams := {
  ProtocolVersion : string;
  Capabilities : ClientCapabilities;
  InitClientInfo : ClientInfo;
  Meta : JMap
}.

Record InitializeResult := {
  ResProtocolVersion : string;
  ResCapabilities : ServerCapabilities;
  ResServerInfo : ServerInfo;
  Instructions : string
}.

Record ToolSchema := {
  Type_ : string;
  Properties : JMap;
  Required : list string
}.

Record Tool := {
  Name : string;
  Description : string;
  InputSchema : ToolSchema
}.

Record CallToolParams := {
  CallName : string;
  Arguments : JMap
}.

Record Content := {
  ContentType : string;
  Text : string;
  ContentData : string;
  MimeType : string;
  Blob : Value
}.

Record CallToolResult := {
  ResultContent : list Content;
  IsError : bool
}.

Record Resource := {
  URI : string;
  ResourceName : string;
  ResourceDescription : string;
  ResourceMimeType : string
}.

Record ReadResourceParams := { ReadURI : string }.

Record ResourceContents := {
  ContentsURI : string;
  ContentsMimeType : string;
  ContentsText : string;
  ContentsBlob : string
}.

Record ReadResourceResult := { Contents : list ResourceContents }.

Record PromptArgument := {
  ArgName : string;
  ArgDescription : string;
  ArgRequired : bool
}.

Record Prompt := {
  PromptName : string;
  PromptDescription : string;
  PromptArguments : list PromptArgument
}.

Record GetPromptParams := {
  GetName : string;
  GetArguments : JMap
}.

Record PromptMessage := { Role : string; MessageContent : list Content }.

Record GetPromptResult := {
  GetDescription : string;
  Messages : list PromptMessage
}.

(** What the dispatcher stores in the [Result] field, an [interface{}]:
    a pointer to one of the result structs (the pointer may be nil, the
    interface holding it is not), or the one-key map built for a listing. *)
Inductive Payload : Type :=
| PNone
| PJSON (v : Value)
| PInitialize (r : option InitializeResult)
| PCallTool (r : option CallToolResult)
| PReadResource (r : option ReadResourceResult)
| PGetPrompt (r : option GetPromptResult)
| PToolList (l : list (option Tool))
| PResourceList (l : list (option Resource))
| PPromptList (l : list (option Prompt)).

Record Message := {
  JSONRPC : string;
  ID : RequestID;
  Method : string;
  Params : Value;
  Result : Payload;
  Error : option ErrorInfo
}.

Definition NewErrorResponse (id : RequestID) (code : Z) (message : string)
    (data : Value) : Message :=
  {| JSONRPC := "2.0"; ID := id; Method := ""; Params := VNil; Result := PNone;
     Error := Some {| Code := code; ErrMessage := message; Data := data |} |}.

Definition NewSuccessResponse (id : RequestID) (result : Payload) : Message :=
  {| JSONRPC := "2.0"; ID := id; Method := ""; Params := VNil;
     Result := result; Error := None |}.

Definition NewRequest (id : RequestID) (method : string) (params : Value)
    : Message :=
  {| JSONRPC := "2.0"; ID := id; Method := method; Params := params;
     Result := PNone; Error := None |}.

Definition NewNotification (method : string) (params : Value) : Message :=
  {| JSONRPC := "2.0"; ID := VNil; Method := method; Params := params;
     Result := PNone; Error := None |}.

Definition IsRequest (m : Message) : bool :=
  nonEmpty (Method m) && negb (isNil (ID m)).

Definition IsNotification (m : Message) : bool :=
  nonEmpty (Method m) && isNil (ID m).

Definition IsResponse (m : Message) : bool :=
  negb (nonEmpty (Method m)) && negb (isNil (ID m)).

Definition HasError (m : Message) : bool :=
  match Error m with Some _ => true | None => false end.

(** The fourth class of the specification: none of the three shapes. *)
Definition IsInvalid (m : Message) : bool :=
  negb (IsRequest m) && negb (IsNotification m) && negb (IsResponse m).

(** [json.Marshal] followed by [json.Unmarshal] into a struct of type [T]
    belongs to the Go standard library; it is a parameter of
    [UnmarshalParams], which adds the nil check of the source. *)
Definition UnmarshalParams {T : Type} (decode : Value -> string + T)
    (m : Message) : string + T :=
  if isNil (Params m) then inl "no params to unmarshal"
  else decode (Params m).

(** ** The dispatcher of handler.go *)

(** The four [json.Marshal]/[json.Unmarshal] round trips the dispatcher
    performs, one per parameter struct.  [inl] carries the text of the
    decoding error. *)
Record JSONCodec := {
  decodeInitializeParams : Value -> string + InitializeParams;
  decodeCallToolParams : Value -> string + CallToolParams;
  decodeReadResourceParams : Value -> string + ReadResourceParams;
  decodeGetPromptParams : Value -> string + GetPromptParams
}.

(** The collaborator interfaces.  [Definition()] returns a pointer, [None]
    when it is nil; the execute operations return Go's pair of a result
    pointer and an error. *)
Record ToolHandler := {
  ToolDefinition : option Tool;
  Execute : JMap -> option CallToolResult * error
}.

Record ResourceHandler := {
  ResourceDefinition : option Resource;
  Read : string -> option ReadResourceResult * error
}.

Record PromptHandler := {
  PromptDefinition : option Prompt;
  Generate : JMap -> option GetPromptResult * error
}.

Record BaseHandler := {
  serverInfo : ServerInfo;
  capabilities : ServerCapabilities;
  tools : gmap string ToolHandler;
  resources : gmap string ResourceHandler;
  prompts : gmap string PromptHandler;
  initialized : bool
}.

Definition NewBaseHandler (info : ServerInfo) (caps : ServerCapabilities)
    : BaseHandler :=
  {| serverInfo := info; capabilities := caps; tools := ∅; resources := ∅;
     prompts := ∅; initialized := false |}.

Definition set_tools (h : BaseHandler) (t : gmap string ToolHandler)
    : BaseHandler :=
  {| serverInfo := serverInfo h; capabilities := capabilities h; tools := t;
     resources := resources h; prompts := prompts h;
     initialized := initialized h |}.

Definition set_resources (h : BaseHandler) (r : gmap string ResourceHandler)
    : BaseHandler :=
  {| serverInfo := serverInfo h; capabilities := capabilities h;
     tools := tools h; resources := r; prompts := prompts h;
     initialized := initialized h |}.

Definition set_prompts (h : BaseHandler) (p : gmap string PromptHandler)
    : BaseHandler :=
  {| serverInfo := serverInfo h; capabilities := capabilities h;
     tools := tools h; resources := resources h; prompts := p;
     initialized := initialized h |}.

Definition set_initialized (h : BaseHandler) (b : bool) : BaseHandler :=
  {| serverInfo := serverInfo h; capabilities := capabilities h;
     tools := tools h; resources := resources h; prompts := prompts h;
     initialized := b |}.

Definition RegisterTool (h : BaseHandler) (handler : ToolHandler)
    : BaseHandler * error :=
  match ToolDefinition handler with
  | None => (h, Some "tool definition cannot be nil")
  | Some tool =>
      if nonEmpty (Name tool)
      then (set_tools h (<[Name tool := handler]> (tools h)), None)
      else (h, Some "tool name cannot be empty")
  end.

Definition RegisterResource (h : BaseHandler) (handler : ResourceHandler)
    : BaseHandler * error :=
  match ResourceDefinition handler with
  | None => (h, Some "resource definition cannot be nil")
  | Some resource =>
      if nonEmpty (URI resource)
      then (set_resources h (<[URI resource := handler]> (resources h)), None)
      else (h, Some "resource URI cannot be empty")
  end.

Definition RegisterPrompt (h : BaseHandler) (handler : PromptHandler)
    : BaseHandler * error :=
  match PromptDefinition handler with
  | None => (h, Some "prompt definition cannot be nil")
  | Some prompt =>
      if nonEmpty (PromptName prompt)
      then (set_prompts h (<[PromptName prompt := handler]> (prompts h)), None)
      else (h, Some "prompt name cannot be empty")
  end.

Definition Initialize (h : BaseHandler) (params : InitializeParams)
    : option InitializeResult * error :=
  if String.eqb (ProtocolVersion params) MCPVersion
  then (Some {| ResProtocolVersion := MCPVersion;
                ResCapabilities := capabilities h;
                ResServerInfo := serverInfo h;
                Instructions := "" |}, None)
  else (None, Some ("unsupported protocol version: " +:+ ProtocolVersion params)).

(** The listings range over a Go map; [map_to_list] fixes one order. *)
Definition ListTools (h : BaseHandler) : list (option Tool) * error :=
  ((λ kv, ToolDefinition kv.2) <$> map_to_list (tools h), None).

Definition ListResources (h : BaseHandler) : list (option Resource) * error :=
  ((λ kv, ResourceDefinition kv.2) <$> map_to_list (resources h), None).

Definition ListPrompts (h : BaseHandler) : list (option Prompt) * error :=
  ((λ kv, PromptDefinition kv.2) <$> map_to_list (prompts h), None).

Definition CallTool (h : BaseHandler) (params : CallToolParams)
    : option CallToolResult * error :=
  if negb (initialized h) then (None, Some "handler not initialized")
  else
    match tools h !! CallName params with
    | None => (None, Some ("tool '" +:+ CallName params +:+ "' not found"))
    | Some handler =>
        match Execute handler (Arguments params) with
        | (_, Some err) =>
            (Some {| ResultContent :=
                       [ {| ContentType := "text";
                            Text := "Tool execution failed: " +:+ err;
                            ContentData := ""; MimeType := "";
                            Blob := VNil |} ];
                     IsError := true |}, None)
        | (result, None) => (result, None)
        end
    end.

Definition ReadResource (h : BaseHandler) (params : ReadResourceParams)
    : option ReadResourceResult * error :=
  if negb (initialized h) then (None, Some "handler not initialized")
  else
    match resources h !! ReadURI params with
    | None => (None, Some ("resource '" +:+ ReadURI params +:+ "' not found"))
    | Some handler => Read handler (ReadURI params)
    end.

Definition GetPrompt (h : BaseHandler) (params : GetPromptParams)
    : option GetPromptResult * error :=
  if negb (initialized h) then (None, Some "handler not initialized")
  else
    match prompts h !! GetName params with
    | None => (None, Some ("prompt '" +:+ GetName params +:+ "' not found"))
    | Some handler => Generate handler (GetArguments params)
    end.

Definition IsInitialized (h : BaseHandler) : bool := initialized h.

Section Dispatcher.
Context (codec : JSONCodec).

(** Every branch returns a nil Go error next to the response. *)
Definition handleRequest (h : BaseHandler) (message : Message)
    : option Message * error :=
  let id := ID message in
  if String.eqb (Method message) "initialize" then
    match UnmarshalParams (decodeInitializeParams codec) message with
    | inl err =>
        (Some (NewErrorResponse id InvalidParams "invalid initialize params"
                 (VString err)), None)
    | inr params =>
        match Initialize h params with
        | (_, Some err) =>
            (Some (NewErrorResponse id InternalError "initialization failed"
                     (VString err)), None)
        | (result, None) =>
            (Some (NewSuccessResponse id (PInitialize result)), None)
        end
    end
  else if String.eqb (Method message) "tools/list" then
    match ListTools h with
    | (_, Some err) =>
        (Some (NewErrorResponse id InternalError "failed to list tools"
                 (VString err)), None)
    | (l, None) => (Some (NewSuccessResponse id (PToolList l)), None)
    end
  else if String.eqb (Method message) "tools/call" then
    match UnmarshalParams (decodeCallToolParams codec) message with
    | inl err =>
        (Some (NewErrorResponse id InvalidParams "invalid tool call params"
                 (VString err)), None)
    | inr params =>
        match CallTool h params with
        | (_, Some err) =>
            (Some (NewErrorResponse id InternalError "tool call failed"
                     (VString err)), None)
        | (result, None) =>
            (Some (NewSuccessResponse id (PCallTool result)), None)
        end
    end
  else if String.eqb (Method message) "resources/list" then
    match ListResources h with
    | (_, Some err) =>
        (Some (NewErrorResponse id InternalError "failed to list resources"
                 (VString err)), None)
    | (l, None) => (Some (NewSuccessResponse id (PResourceList l)), None)
    end
  else if String.eqb (Method message) "resources/read" then
    match UnmarshalParams (decodeReadResourceParams codec) message with
    | inl err =>
        (Some (NewErrorResponse id InvalidParams
                 "invalid resource read params" (VString err)), None)
    | inr params =>
        match ReadResource h params with
        | (_, Some err) =>
            (Some (NewErrorResponse id InternalError "resource read failed"
                     (VString err)), None)
        | (result, None) =>
            (Some (NewSuccessResponse id (PReadResource result)), None)
        end
    end
  else if String.eqb (Method message) "prompts/list" then
    match ListPrompts h with
    | (_, Some err) =>
        (Some (NewErrorResponse id InternalError "failed to list prompts"
                 (VString err)), None)
    | (l, None) => (Some (NewSuccessResponse id (PPromptList l)), None)
    end
  else if String.eqb (Method message) "prompts/get" then
    match UnmarshalParams (decodeGetPromptParams codec) message with
    | inl err =>
        (Some (NewErrorResponse id InvalidParams "invalid prompt get params"
                 (VString err)), None)
    | inr params =>
        match GetPrompt h params with
        | (_, Some err) =>
            (Some (NewErrorResponse id InternalError "prompt get failed"
                     (VString err)), None)
        | (result, None) =>
            (Some (NewSuccessResponse id (PGetPrompt result)), None)
        end
    end
  else
    (Some (NewErrorResponse id MethodNotFound
             ("method '" +:+ Method message +:+ "' not found") VNil), None).

(** The only place the session flag is written. *)
Definition handleNotification (h : BaseHandler) (message : Message)
    : BaseHandler * (option Message * error) :=
  if String.eqb (Method message) "initialized" then
    (set_initialized h true, (None, None))
  else if String.eqb (Method message) "notifications/cancelled" then
    (h, (None, None))
  else
    (h, (None, None)).

(** [message] is a pointer; [None] is the nil message. *)
Definition HandleMessage (h : BaseHandler) (message : option Message)
    : BaseHandler * (option Message * error) :=
  match message with
  | None =>
      (h, (Some (NewErrorResponse VNil InvalidRequest "message cannot be nil"
                   VNil), None))
  | Some m =>
      if IsRequest m then (h, handleRequest h m)
      else if IsNotification m then handleNotification h m
      else (h, (Some (NewErrorResponse (ID m) InvalidRequest
                        "invalid message format" VNil), None))
  end.

(** The read loop of a connection hands the decoded messages to the
    dispatcher one at a time; this is the session after a list of them,
    with the responses that were produced. *)
Fixpoint handleAll (h : BaseHandler) (ms : list Message)
    : BaseHandler * list Message :=
  match ms with
  | [] => (h, [])
  | m :: rest =>
      let '(h1, (resp, _)) := HandleMessage h (Some m) in
      let '(h2, out) := handleAll h1 rest in
      (h2, match resp with Some r => r :: out | None => out end)
  end.
End Dispatcher.

(** ** The registries of internal/tools and internal/prompts

    The two files differ only in the handler type and in the word used in
    their messages, so one definition serves both.  The lock serialises the
    operations; each is modelled as the atomic step it is under the lock.
    The log lines do not touch the table and are left out. *)

Record Registry (H : Type) := { entries : gmap string H }.
Arguments entries {H} _.

Section Registry.
Context {H : Type}.
(** [kind] is "tool" or "prompt"; [declaredName] is the name found
    through [handler.Definition()], [None] when the definition is nil. *)
Context (kind : string) (declaredName : H -> option string).

Definition NewRegistry : Registry H := {| entries := ∅ |}.

Definition Register (r : Registry H) (handler : H) : Registry H * error :=
  match declaredName handler with
  | None => (r, Some (kind +:+ " definition cannot be nil"))
  | Some name =>
      if negb (nonEmpty name)
      then (r, Some (kind +:+ " name cannot be empty"))
      else
        match entries r !! name with
        | Some _ =>
            (r, Some (kind +:+ " '" +:+ name +:+ "' is already registered"))
        | None => ({| entries := <[name := handler]> (entries r) |}, None)
        end
  end.

Definition Unregister (r : Registry H) (name : string)
    : Registry H * error :=
  match entries r !! name with
  | None => (r, Some (kind +:+ " '" +:+ name +:+ "' is not registered"))
  | Some _ => ({| entries := delete name (entries r) |}, None)
  end.

Definition Get (r : Registry H) (name : string) : option H * error :=
  match entries r !! name with
  | None => (None, Some (kind +:+ " '" +:+ name +:+ "' not found"))
  | Some handler => (Some handler, None)
  end.

Definition Count (r : Registry H) : nat := size (entries r).

Definition GetNames (r : Registry H) : list string :=
  (map_to_list (entries r)).*1.

Definition Has (r : Registry H) (name : string) : bool :=
  bool_decide (is_Some (entries r !! name)).

Definition Clear (r : Registry H) : Registry H := {| entries := ∅ |}.
End Registry.

Definition toolName (h : ToolHandler) : option string :=
  Name <$> ToolDefinition h.

Definition promptName (h : PromptHandler) : option string :=
  PromptName <$> PromptDefinition h.

(** [tools.Registry.Register] and [prompts.Registry.Register]. *)
Definition RegisterToolHandler := Register "tool" toolName.
Definition RegisterPromptHandler := Register "prompt" promptName.

(** [List] of either registry. *)
Definition ListToolDefinitions (r : Registry ToolHandler) : list (option Tool) :=
  (λ kv, ToolDefinition kv.2) <$> map_to_list (entries r).

Definition ListPromptDefinitions (r : Registry PromptHandler)
    : list (option Prompt) :=
  (λ kv, PromptDefinition kv.2) <$> map_to_list (entries r).

(** ** The schema validator of validation.go *)

(** An error built by [fmt.Errorf]: the format string, its operands in
    order (a [%T] operand is the value whose type is printed) and the error
    wrapped by [%w], if any.  Rendering the text is left to [fmt]. *)
Inductive GoError : Type :=
| Errorf (format : string) (args : list Value) (wrapped : option GoError).

(** What a call does: return nil, return an error, or panic (a failed
    unchecked type assertion, or an unhashable map key). *)
Inductive Outcome : Type :=
| Accept
| Reject (e : GoError)
| Panic (reason : string).

Definition andAlso (c1 c2 : option GoError) : option GoError :=
  match c1 with Some e => Some e | None => c2 end.

Definition andThen (o1 o2 : Outcome) : Outcome :=
  match o1 with Accept => o2 | _ => o1 end.

Fixpoint jget (k : string) (m : list (string * Value)) : option Value :=
  match m with
  | [] => None
  | (k', v) :: rest => if String.eqb k' k then Some v else jget k rest
  end.

(** Indexing a map-typed field; a nil map has no keys. *)
Definition mapGet (k : string) (m : JMap) : option Value :=
  match m with None => None | Some l => jget k l end.

(** *** float64 *)

Definition float64_of_int (n : Z) : float64 := binary_normalize 53 1024 n 0 false.

Definition fzero : float64 := S754_zero false.

Definition flt (a b : float64) : bool := SFltb a b.

Definition fgt (a b : float64) : bool :=
  match SFcompare a b with Some Gt => true | _ => false end.

Definition fne (a b : float64) : bool := negb (SFeqb a b).

(** The integer part of a finite float, rounded toward zero. *)
Definition truncate (f : float64) : option Z :=
  match f with
  | S754_zero _ => Some 0
  | S754_finite s m e => Some (cond_Zopp s (Z.shiftl (Zpos m) e))
  | _ => None
  end.

Definition min_int64 : Z := - 2 ^ 63.
Definition max_int64 : Z := 2 ^ 63 - 1.

(** *** Well-formedness of a schema *)

Fixpoint firstNonString (i : Z) (l : list Value) : option GoError :=
  match l with
  | [] => None
  | VString _ :: rest => firstNonString (i + 1) rest
  | _ :: _ =>
      Some (Errorf "enum value at index %d must be a string" [VInt i] None)
  end.

(** The test repeated for minLength, maxLength, minItems, maxItems,
    minProperties and maxProperties. *)
Definition checkNonNegative (key : string) (prop : list (string * Value))
    : option GoError :=
  match jget key prop with
  | None => None
  | Some (VFloat x) =>
      if flt x fzero then Some (Errorf (key +:+ " cannot be negative") [] None)
      else None
  | Some _ => Some (Errorf (key +:+ " must be a number") [] None)
  end.

Definition validateStringProperty (prop : list (string * Value))
    : option GoError :=
  andAlso
    match jget "enum" prop with
    | None => None
    | Some (VArray enumSlice) =>
        match enumSlice with
        | [] => Some (Errorf "enum cannot be empty" [] None)
        | _ => firstNonString 0 enumSlice
        end
    | Some _ => Some (Errorf "enum must be an array" [] None)
    end
  (andAlso (checkNonNegative "minLength" prop)
  (andAlso (checkNonNegative "maxLength" prop)
    match jget "pattern" prop with
    | None | Some (VString _) => None
    | Some _ => Some (Errorf "pattern must be a string" [] None)
    end)).

(** [minimum]/[maximum]: absent, a float64, or an error. *)
Definition numberField (key : string) (prop : list (string * Value))
    : GoError + option float64 :=
  match jget key prop with
  | None => inr None
  | Some (VFloat x) => inr (Some x)
  | Some _ => inl (Errorf (key +:+ " must be a number") [] None)
  end.

Definition checkExclusive (key : string) (prop : list (string * Value))
    : option GoError :=
  match jget key prop with
  | None | Some (VBool _) | Some (VFloat _) => None
  | Some _ => Some (Errorf (key +:+ " must be a boolean or number") [] None)
  end.

Definition validateNumericProperty (prop : list (string * Value))
    : option GoError :=
  match numberField "minimum" prop with
  | inl e => Some e
  | inr minimum =>
      match numberField "maximum" prop with
      | inl e => Some e
      | inr maximum =>
          andAlso
            match minimum, maximum with
            | Some lo, Some hi =>
                if fgt lo hi
                then Some (Errorf
                       "minimum (%f) cannot be greater than maximum (%f)"
                       [VFloat lo; VFloat hi] None)
                else None
            | _, _ => None
            end
          (andAlso (checkExclusive "exclusiveMinimum" prop)
                   (checkExclusive "exclusiveMaximum" prop))
      end
  end.

Definition validateArrayProperty (prop : list (string * Value))
    : option GoError :=
  andAlso (checkNonNegative "minItems" prop)
  (andAlso (checkNonNegative "maxItems" prop)
    match jget "uniqueItems" prop with
    | None | Some (VBool _) => None
    | Some _ => Some (Errorf "uniqueItems must be a boolean" [] None)
    end).

Definition validateObjectProperty (prop : list (string * Value))
    : option GoError :=
  andAlso (checkNonNegative "minProperties" prop)
          (checkNonNegative "maxProperties" prop).

Definition validTypes (t : string) : bool :=
  existsb (String.eqb t)
    ["string"; "number"; "integer"; "boolean"; "array"; "object"].

Definition validateProperty (name : string) (property : Value)
    : option GoError :=
  match property with
  | VNil => Some (Errorf "property definition cannot be nil" [] None)
  | VObject propMap =>
      match jget "type" propMap with
      | None => Some (Errorf "property type is required" [] None)
      | Some (VString typeStr) =>
          if negb (validTypes typeStr)
          then Some (Errorf "invalid property type '%s'" [VString typeStr] None)
          else if String.eqb typeStr "string" then validateStringProperty propMap
          else if String.eqb typeStr "number" || String.eqb typeStr "integer"
          then validateNumericProperty propMap
          else if String.eqb typeStr "array" then validateArrayProperty propMap
          else if String.eqb typeStr "object" then validateObjectProperty propMap
          else None
      | Some _ => Some (Errorf "property type must be a string" [] None)
      end
  | _ => Some (Errorf "property must be a map[string]interface{}" [] None)
  end.

Fixpoint requiredDeclared (props : JMap) (required : list string)
    : option GoError :=
  match required with
  | [] => None
  | r :: rest =>
      match mapGet r props with
      | None =>
          Some (Errorf "required property '%s' not found in schema properties"
                  [VString r] None)
      | Some _ => requiredDeclared props rest
      end
  end.

Fixpoint propertiesValid (props : list (string * Value)) : option GoError :=
  match props with
  | [] => None
  | (propName, propDef) :: rest =>
      match validateProperty propName propDef with
      | Some err =>
          Some (Errorf "invalid property '%s': %w" [VString propName] (Some err))
      | None => propertiesValid rest
      end
  end.

Definition ValidateToolSchema (schema : ToolSchema) : option GoError :=
  if negb (nonEmpty (Type_ schema))
  then Some (Errorf "schema type is required" [] None)
  else if negb (String.eqb (Type_ schema) "object")
  then Some (Errorf "schema type must be 'object', got '%s'"
               [VString (Type_ schema)] None)
  else
    match Properties schema with
    | None => Some (Errorf "schema properties cannot be nil" [] None)
    | Some [] => Some (Errorf "schema must have at least one property" [] None)
    | Some props =>
        andAlso (requiredDeclared (Properties schema) (Required schema))
                (propertiesValid props)
    end.

(** *** Validation of argument values *)

(** [float64(len(x))] for a string or a slice. *)
Definition float64_of_len (n : nat) : float64 := float64_of_int (Z.of_nat n).

(** [enumVal.(string)] for every member, unchecked. *)
Fixpoint assertStrings (l : list Value) : option (list string) :=
  match l with
  | [] => Some []
  | VString s :: rest => cons s <$> assertStrings rest
  | _ :: _ => None
  end.

Definition enumContains (value : string) (enumSlice : list Value) : bool :=
  existsb (λ enumVal,
    match enumVal with VString enumStr => String.eqb enumStr value | _ => false end)
    enumSlice.

(** A length bound: [float64(len) < bound] for the lower one,
    [float64(len) > bound] for the upper one; the bound is read with an
    unchecked assertion to float64. *)
Definition checkLength (upper : bool) (key format : string) (name : string)
    (len : nat) (prop : list (string * Value)) : Outcome :=
  match jget key prop with
  | None => Accept
  | Some (VFloat bound) =>
      if (if upper then fgt (float64_of_len len) bound
          else flt (float64_of_len len) bound)
      then Reject (Errorf format
                     [VString name; VFloat bound; VInt (Z.of_nat len)] None)
      else Accept
  | Some _ => Panic "interface conversion: interface {} is not float64"
  end.

Definition validateStringValue (name value : string)
    (prop : list (string * Value)) : Outcome :=
  andThen
    match jget "enum" prop with
    | None => Accept
    | Some (VArray enumSlice) =>
        if enumContains value enumSlice then Accept
        else
          match assertStrings enumSlice with
          | Some enumStrs =>
              Reject (Errorf "parameter '%s' must be one of [%s], got '%s'"
                        [VString name; VString (String.concat ", " enumStrs);
                         VString value] None)
          | None => Panic "interface conversion: interface {} is not string"
          end
    | Some _ => Panic "interface conversion: interface {} is not []interface {}"
    end
  (andThen
    (checkLength false "minLength"
       "parameter '%s' must be at least %g characters long, got %d"
       name (String.length value) prop)
    (checkLength true "maxLength"
       "parameter '%s' must be at most %g characters long, got %d"
       name (String.length value) prop)).

Definition validateNumberValue (name : string) (value : float64)
    (prop : list (string * Value)) : Outcome :=
  andThen
    match jget "minimum" prop with
    | None => Accept
    | Some (VFloat minNum) =>
        if flt value minNum
        then Reject (Errorf "parameter '%s' must be >= %g, got %g"
                       [VString name; VFloat minNum; VFloat value] None)
        else Accept
    | Some _ => Panic "interface conversion: interface {} is not float64"
    end
    match jget "maximum" prop with
    | None => Accept
    | Some (VFloat maxNum) =>
        if fgt value maxNum
        then Reject (Errorf "parameter '%s' must be <= %g, got %g"
                       [VString name; VFloat maxNum; VFloat value] None)
        else Accept
    | Some _ => Panic "interface conversion: interface {} is not float64"
    end.

(** Keys of [map[interface{}]bool]: slices and maps cannot be hashed. *)
Definition hashable (v : Value) : bool :=
  match v with VArray _ | VObject _ => false | _ => true end.

(** The dynamic type of an interface value, as the runtime prints it. *)
Definition dynamicType (v : Value) : string :=
  match v with
  | VNil => "nil"
  | VBool _ => "bool"
  | VFloat _ => "float64"
  | VInt _ => "int"
  | VString _ => "string"
  | VArray _ => "[]interface {}"
  | VObject _ => "map[string]interface {}"
  end.

(** The runtime panic of a map access whose key cannot be hashed. *)
Definition unhashablePanic (item : Value) : string :=
  "runtime error: hash of unhashable type " +:+ dynamicType item.

(** Equality of two hashable interface values: same dynamic type and equal
    contents; floats compare as IEEE numbers. *)
Definition keyEq (a b : Value) : bool :=
  match a, b with
  | VNil, VNil => true
  | VBool x, VBool y => Bool.eqb x y
  | VFloat x, VFloat y => SFeqb x y
  | VInt x, VInt y => Z.eqb x y
  | VString x, VString y => String.eqb x y
  | _, _ => false
  end.

Fixpoint uniqueScan (name : string) (seen : list Value) (i : Z)
    (items : list Value) : Outcome :=
  match items with
  | [] => Accept
  | item :: rest =>
      if negb (hashable item)
      then Panic (unhashablePanic item)
      else if existsb (keyEq item) seen
      then Reject (Errorf
             "parameter '%s' must have unique items, duplicate found at index %d"
             [VString name; VInt i] None)
      else uniqueScan name (item :: seen) (i + 1) rest
  end.

Definition validateArrayValue (name : string) (value : list Value)
    (prop : list (string * Value)) : Outcome :=
  andThen
    (checkLength false "minItems"
       "parameter '%s' must have at least %g items, got %d"
       name (length value) prop)
  (andThen
    (checkLength true "maxItems"
       "parameter '%s' must have at most %g items, got %d"
       name (length value) prop)
    match jget "uniqueItems" prop with
    | None => Accept
    | Some (VBool shouldBeUnique) =>
        if shouldBeUnique then uniqueScan name [] 0 value else Accept
    | Some _ => Panic "interface conversion: interface {} is not bool"
    end).

Section Validation.
(** The Go specification leaves the result of converting a float that
    int64 cannot represent (too large, infinite, NaN) to the
    implementation; [overflowInt64] is that result. *)
Context (overflowInt64 : float64 -> Z).

Definition int64_of_float (f : float64) : Z :=
  match truncate f with
  | Some z =>
      if ((min_int64 <=? z) && (z <=? max_int64))%Z then z
      else overflowInt64 f
  | None => overflowInt64 f
  end.

Definition validateParameterValue (name : string) (value : Value)
    (property : Value) : Outcome :=
  match property with
  | VObject propMap =>
      match jget "type" propMap with
      | None => Reject (Errorf "property type not defined for '%s'"
                          [VString name] None)
      | Some (VString typeStr) =>
          if String.eqb typeStr "string" then
            match value with
            | VString s => validateStringValue name s propMap
            | _ => Reject (Errorf "parameter '%s' must be a string, got %T"
                             [VString name; value] None)
            end
          else if String.eqb typeStr "number" then
            match value with
            | VFloat f => validateNumberValue name f propMap
            | _ => Reject (Errorf "parameter '%s' must be a number, got %T"
                             [VString name; value] None)
            end
          else if String.eqb typeStr "integer" then
            match value with
            | VFloat floatVal =>
                if fne floatVal (float64_of_int (int64_of_float floatVal))
                then Reject (Errorf
                       "parameter '%s' must be an integer, got %f"
                       [VString name; VFloat floatVal] None)
                else validateNumberValue name floatVal propMap
            | VInt intVal =>
                validateNumberValue name (float64_of_int intVal) propMap
            | _ => Reject (Errorf "parameter '%s' must be an integer, got %T"
                             [VString name; value] None)
            end
          else if String.eqb typeStr "boolean" then
            match value with
            | VBool _ => Accept
            | _ => Reject (Errorf "parameter '%s' must be a boolean, got %T"
                             [VString name; value] None)
            end
          else if String.eqb typeStr "array" then
            match value with
            | VArray l => validateArrayValue name l propMap
            | _ => Reject (Errorf "parameter '%s' must be an array, got %T"
                             [VString name; value] None)
            end
          else if String.eqb typeStr "object" then
            match value with
            | VObject _ => Accept
            | _ => Reject (Errorf "parameter '%s' must be an object, got %T"
                             [VString name; value] None)
            end
          else Reject (Errorf "unsupported type '%s' for parameter '%s'"
                         [VString typeStr; VString name] None)
      | Some _ => Reject (Errorf "invalid type definition for '%s'"
                            [VString name] None)
      end
  | _ => Reject (Errorf "invalid property definition for '%s'"
                   [VString name] None)
  end.

Fixpoint requiredPresent (params : list (string * Value))
    (required : list string) : Outcome :=
  match required with
  | [] => Accept
  | r :: rest =>
      match jget r params with
      | None => Reject (Errorf "required parameter '%s' is missing"
                          [VString r] None)
      | Some _ => requiredPresent params rest
      end
  end.

Fixpoint parametersValid (props : JMap) (params : list (string * Value))
    : Outcome :=
  match params with
  | [] => Accept
  | (paramName, paramValue) :: rest =>
      match mapGet paramName props with
      | None => Reject (Errorf "unknown parameter '%s'"
                          [VString paramName] None)
      | Some propDef =>
          andThen (validateParameterValue paramName paramValue propDef)
                  (parametersValid props rest)
      end
  end.

Definition ValidateToolParameters (params : JMap) (schema : ToolSchema)
    : Outcome :=
  match ValidateToolSchema schema with
  | Some err => Reject (Errorf "invalid schema: %w" [] (Some err))
  | None =>
      let params := match params with None => [] | Some l => l end in
      andThen (requiredPresent params (Required schema))
              (parametersValid (Properties schema) params)
  end.
End Validation.

(** ** Sample collaborators

    A codec that reads the fields under the spelling of their JSON tags (as
    [encoding/json] does for objects whose keys are spelled that way and
    occur once), and three tool handlers.  They instantiate the general
    statements below on concrete sessions. *)

Definition asMap (v : option Value) : string + JMap :=
  match v with
  | None | Some VNil => inr None
  | Some (VObject m) => inr (Some m)
  | Some _ => inl "json: cannot unmarshal into Go value of type map[string]interface {}"
  end.

Definition asString (v : option Value) : string + string :=
  match v with
  | None | Some VNil => inr ""
  | Some (VString s) => inr s
  | Some _ => inl "json: cannot unmarshal into Go value of type string"
  end.

Definition sampleDecodeCallTool (v : Value) : string + CallToolParams :=
  match v with
  | VObject m =>
      match asString (jget "name" m), asMap (jget "arguments" m) with
      | inr n, inr a => inr {| CallName := n; Arguments := a |}
      | inl e, _ | _, inl e => inl e
      end
  | _ => inl "json: cannot unmarshal into Go value of type mcp.CallToolParams"
  end.

Definition sampleDecodeInitialize (v : Value) : string + InitializeParams :=
  match v with
  | VObject m =>
      match asString (jget "protocolVersion" m) with
      | inr pv =>
          inr {| ProtocolVersion := pv;
                 Capabilities := {| ClientExperimental := None; Sampling := None |};
                 InitClientInfo := {| ClientName := ""; ClientVersion := "" |};
                 Meta := None |}
      | inl e => inl e
      end
  | _ => inl "json: cannot unmarshal into Go value of type mcp.InitializeParams"
  end.

Definition sampleDecodeReadResource (v : Value) : string + ReadResourceParams :=
  match v with
  | VObject m =>
      match asString (jget "uri" m) with
      | inr u => inr {| ReadURI := u |}
      | inl e => inl e
      end
  | _ => inl "json: cannot unmarshal into Go value of type mcp.ReadResourceParams"
  end.

Definition sampleDecodeGetPrompt (v : Value) : string + GetPromptParams :=
  match v with
  | VObject m =>
      match asString (jget "name" m), asMap (jget "arguments" m) with
      | inr n, inr a => inr {| GetName := n; GetArguments := a |}
      | inl e, _ | _, inl e => inl e
      end
  | _ => inl "json: cannot unmarshal into Go value of type mcp.GetPromptParams"
  end.

Definition sampleCodec : JSONCodec :=
  {| decodeInitializeParams := sampleDecodeInitialize;
     decodeCallToolParams := sampleDecodeCallTool;
     decodeReadResourceParams := sampleDecodeReadResource;
     decodeGetPromptParams := sampleDecodeGetPrompt |}.

Definition textContent (s : string) : Content :=
  {| ContentType := "text"; Text := s; ContentData := ""; MimeType := "";
     Blob := VNil |}.

Definition sampleSchema : ToolSchema :=
  {| Type_ := "object";
     Properties := Some [("query", VObject [("type", VString "string")])];
     Required := ["query"] |}.

Definition sampleTool (name : string) : Tool :=
  {| Name := name; Description := ""; InputSchema := sampleSchema |}.

(** Answers every call with the given text. *)
Definition constTool (name answer : string) : ToolHandler :=
  {| ToolDefinition := Some (sampleTool name);
     Execute := λ _, (Some {| ResultContent := [textContent answer];
                              IsError := false |}, None) |}.

(** Faults on every call. *)
Definition faultyTool (name fault : string) : ToolHandler :=
  {| ToolDefinition := Some (sampleTool name);
     Execute := λ _, (None, Some fault) |}.

Definition sampleInfo : ServerInfo :=
  {| ServerName := "mcp-go-template"; ServerVersion := "1.0.0" |}.

Definition sampleCaps : ServerCapabilities :=
  {| Logging := None; Prompts := None; Resources := None;
     Tools := Some {| ToolsListChanged := false |}; Experimental := None |}.

(** A session with one tool, before the handshake. *)
Definition sampleSession : BaseHandler :=
  (RegisterTool (NewBaseHandler sampleInfo sampleCaps)
     (constTool "echo" "first")).1.

Definition callRequest (id tool : string) : Message :=
  NewRequest (VString id) "tools/call"
    (VObject [("name", VString tool); ("arguments", VObject [])]).

Definition samplePrompt (name : string) : PromptHandler :=
  {| PromptDefinition :=
       Some {| PromptName := name; PromptDescription := "";
               PromptArguments := [] |};
     Generate := λ _, (Some {| GetDescription := ""; Messages := [] |}, None) |}.

(** How many of the listed tests hold. *)
Definition holding (tests : list bool) : nat := length (filter (λ b, b = true) tests).

(** The same session after the [initialized] notification. *)
Definition sampleReady : BaseHandler :=
  (HandleMessage sampleCodec sampleSession
     (Some (NewNotification "initialized" VNil))).1.

Definition callParams (tool : string) : CallToolParams :=
  {| CallName := tool; Arguments := Some [] |}.

(** The error code of a response, if it has an error object. *)
Definition responseCode (r : option Message) : option Z :=
  match r with
  | Some m => Code <$> Error m
  | None => None
  end.

(** Every handler of a registry sits under the name it declares. *)
Definition keyedByName {H : Type} (declaredName : H → option string)
    (r : Registry H) : Prop :=
  ∀ k handler, entries r !! k = Some handler →
    declaredName handler = Some k ∧ k ≠ "".

(** Registering a list of handlers in order, dropping the failures, as the
    start-up code does handler by handler. *)
Definition registerAll {H : Type} (kind : string)
    (declaredName : H → option string) (r : Registry H) (hs : list H)
    : Registry H :=
  foldl (λ acc handler, (Register kind declaredName acc handler).1) r hs.

Definition sampleRegistry : Registry PromptHandler :=
  (RegisterPromptHandler NewRegistry (samplePrompt "research")).1.

(** The six kinds a property may declare. *)
Definition propertyKinds : list string :=
  ["string"; "number"; "integer"; "boolean"; "array"; "object"].

(** A property definition that declares one of the six kinds. *)
Definition declaresKind (def : Value) : Prop :=
  ∃ pm kind, def = VObject pm ∧ jget "type" pm = Some (VString kind)
             ∧ kind ∈ propertyKinds.

Definition f64 (n : Z) : Value := VFloat (float64_of_int n).

Definition stringProperty : Value := VObject [("type", VString "string")].

Definition schemaBadType : ToolSchema :=
  {| Type_ := "array"; Properties := Some [("query", stringProperty)];
     Required := [] |}.

Definition schemaNoProperties : ToolSchema :=
  {| Type_ := "object"; Properties := Some []; Required := [] |}.

Definition schemaUndeclaredRequired : ToolSchema :=
  {| Type_ := "object"; Properties := Some [("query", stringProperty)];
     Required := ["query"; "limit"] |}.

Definition schemaUnknownKind : ToolSchema :=
  {| Type_ := "object";
     Properties := Some [("query", VObject [("type", VString "text")])];
     Required := [] |}.

Definition schemaMinAboveMax : ToolSchema :=
  {| Type_ := "object";
     Properties := Some [("query", stringProperty);
                         ("limit", VObject [("type", VString "integer");
                                            ("minimum", f64 5);
                                            ("maximum", f64 3)])];
     Required := [] |}.

Definition noPanic (o : Outcome) : Prop :=
  match o with Panic _ => False | _ => True end.

(** The only panic a well-formed schema leaves possible: the uniqueItems
    scan meeting an element that is itself an array or an object. *)
Definition benign (o : Outcome) : Prop :=
  match o with
  | Panic reason => ∃ item, hashable item = false ∧ reason = unhashablePanic item
  | _ => True
  end.

(** The argument list a nil map stands for. *)
Definition arguments (params : JMap) : list (string * Value) :=
  match params with None => [] | Some l => l end.

(** On amd64 the conversion instruction answers every float that int64
    cannot hold with the smallest int64. *)
Definition amd64Overflow (f : float64) : Z := min_int64.

Definition schemaTags : ToolSchema :=
  {| Type_ := "object";
     Properties := Some [("tags", VObject [("type", VString "array");
                                           ("uniqueItems", VBool true)])];
     Required := [] |}.

(** *** Reading binary64 values *)

(** [p * 2^k] on positives. *)
Definition doubled (k : nat) (p : positive) : positive := Nat.iter k xO p.

(** The number of bits of a mantissa. *)
Definition bitlen (p : positive) : Z := Zpos (digits2_pos p).

(** The floats of the binary64 format. *)
Definition valid64 (f : float64) : Prop := valid_binary 53 1024 f = true.

(** A float with no fractional part: a zero, or [m * 2^e] with [e >= 0] or
    with [2^-e] dividing [m]. *)
Definition integral (f : float64) : bool :=
  match f with
  | S754_zero _ => true
  | S754_finite _ m e => ((0 <=? e) || (Zpos m mod 2 ^ (- e) =? 0))%Z
  | _ => false
  end.

(** Finite, and with an integer part that int64 holds. *)
Definition inInt64Range (f : float64) : bool :=
  match truncate f with
  | Some z => ((min_int64 <=? z) && (z <=? max_int64))%Z
  | None => false
  end.

(** [2^63], the first float above the int64 range. *)
Definition two63 : float64 := S754_finite false (2 ^ 52) 11.

(** [2^64]. *)
Definition two64 : float64 := S754_finite false (2 ^ 52) 12.

Definition isNaN (f : float64) : bool :=
  match f with S754_nan => true | _ => false end.

(** On arm64 the conversion saturates, and gives 0 for NaN. *)
Definition arm64Overflow (f : float64) : Z :=
  match f with
  | S754_nan => 0
  | S754_infinity s | S754_finite s _ _ => if s then min_int64 else max_int64
  | S754_zero _ => 0
  end.

Definition integerProperty : list (string * Value) :=
  [("type", VString "integer"); ("minimum", f64 1); ("maximum", f64 50)].

(** ** Vocabulary of the further properties *)

(** A reply to [m]: same id, no method, and either an error object or a
    result, not both and not neither. *)
Definition replyTo (m r : Message) : Prop :=
  ID r = ID m ∧ Method r = "" ∧ JSONRPC r = "2.0"
  ∧ (Error r = None ↔ Result r ≠ PNone).

(** The request methods [handleRequest] has a case for. *)
Definition requestMethods : list string :=
  ["initialize"; "tools/list"; "tools/call"; "resources/list";
   "resources/read"; "prompts/list"; "prompts/get"].

(** The notification that completes the handshake. *)
Definition isInitializedNote (m : Message) : bool :=
  IsNotification m && String.eqb (Method m) "initialized".

Definition sampleResource (uri : string) (fault : error) : ResourceHandler :=
  {| ResourceDefinition :=
       Some {| URI := uri; ResourceName := "notes"; ResourceDescription := "";
               ResourceMimeType := "text/plain" |};
     Read := λ u,
       match fault with
       | Some e => (None, Some e)
       | None => (Some {| Contents := [ {| ContentsURI := u;
                                            ContentsMimeType := "text/plain";
                                            ContentsText := "hello";
                                            ContentsBlob := "" |} ] |}, None)
       end |}.

(** ** Start-up code: the default tools, main.go and config.go *)

(** The four handlers built by the constructors of the examples package;
    their execute operations are outside this development. *)
Record ExampleTools := {
  calculator : ToolHandler;
  webSearch : ToolHandler;
  documentAnalyzer : ToolHandler;
  knowledgeGraph : ToolHandler
}.

(** The names their definitions declare in the sources. *)
Definition declaresExampleNames (ts : ExampleTools) : Prop :=
  toolName (calculator ts) = Some "calculator"
  ∧ toolName (webSearch ts) = Some "web_search"
  ∧ toolName (documentAnalyzer ts) = Some "document_analyzer"
  ∧ toolName (knowledgeGraph ts) = Some "knowledge_graph".

Definition exampleNames : list string :=
  ["calculator"; "web_search"; "document_analyzer"; "knowledge_graph"].

(** [tools.Registry.RegisterDefaultTools]: the registry is updated in
    place, so what was registered before a failure stays registered. *)
Definition RegisterDefaultTools (ts : ExampleTools) (r : Registry ToolHandler)
    : Registry ToolHandler * error :=
  match RegisterToolHandler r (calculator ts) with
  | (r1, Some err) =>
      (r1, Some ("failed to register calculator tool: " +:+ err))
  | (r1, None) =>
  match RegisterToolHandler r1 (webSearch ts) with
  | (r2, Some err) =>
      (r2, Some ("failed to register web search tool: " +:+ err))
  | (r2, None) =>
  match RegisterToolHandler r2 (documentAnalyzer ts) with
  | (r3, Some err) =>
      (r3, Some ("failed to register document analyzer tool: " +:+ err))
  | (r3, None) =>
  match RegisterToolHandler r3 (knowledgeGraph ts) with
  | (r4, Some err) =>
      (r4, Some ("failed to register knowledge graph tool: " +:+ err))
  | (r4, None) => (r4, None)
  end end end end.

(** [registerTools] of main.go, on the dispatcher's own table. *)
Definition registerTools (ts : ExampleTools) (h : BaseHandler)
    : BaseHandler * error :=
  match RegisterTool h (calculator ts) with
  | (h1, Some err) => (h1, Some err)
  | (h1, None) =>
  match RegisterTool h1 (webSearch ts) with
  | (h2, Some err) => (h2, Some err)
  | (h2, None) =>
  match RegisterTool h2 (documentAnalyzer ts) with
  | (h3, Some err) => (h3, Some err)
  | (h3, None) =>
  match RegisterTool h3 (knowledgeGraph ts) with
  | (h4, Some err) => (h4, Some err)
  | (h4, None) => (h4, None)
  end end end end.

Record ToolsConfig := { ToolsEnabled : bool; ToolsConfigListChanged : bool }.
Record ResourcesConfig := {
  ResourcesEnabled : bool;
  ResourcesConfigSubscribe : bool;
  ResourcesConfigListChanged : bool
}.
Record PromptsConfig := { PromptsEnabled : bool; PromptsConfigListChanged : bool }.

Record CapabilityConfig := {
  CfgTools : ToolsConfig;
  CfgResources : ResourcesConfig;
  CfgPrompts : PromptsConfig;
  CfgLogging : bool
}.

Record MCPConfig := {
  MCPName : string;
  MCPVersionString : string;
  MCPDescription : string;
  MCPInstructions : string;
  MCPCapabilities : CapabilityConfig;
  Metadata : list (string * string)
}.

Record ServerConfig := { Host : string; Port : Z; Timeout : Z }.
Record LoggingConfig := { Level : string; Format : string }.
Record SecurityConfig := {
  EnableTLS : bool;
  CertFile : string;
  KeyFile : string;
  AllowedIPs : list string
}.

Record Config := {
  Server : ServerConfig;
  LoggingCfg : LoggingConfig;
  MCP : MCPConfig;
  Security : SecurityConfig
}.

Definition IsToolsEnabled (c : Config) : bool :=
  ToolsEnabled (CfgTools (MCPCapabilities (MCP c))).
Definition IsResourcesEnabled (c : Config) : bool :=
  ResourcesEnabled (CfgResources (MCPCapabilities (MCP c))).
Definition IsPromptsEnabled (c : Config) : bool :=
  PromptsEnabled (CfgPrompts (MCPCapabilities (MCP c))).
Definition IsLoggingEnabled (c : Config) : bool :=
  CfgLogging (MCPCapabilities (MCP c)).

Definition createServerCapabilities (cfg : Config) : ServerCapabilities :=
  {| Logging := if IsLoggingEnabled cfg then Some tt else None;
     Prompts :=
       if IsPromptsEnabled cfg
       then Some {| PromptsListChanged :=
                      PromptsConfigListChanged
                        (CfgPrompts (MCPCapabilities (MCP cfg))) |}
       else None;
     Resources :=
       if IsResourcesEnabled cfg
       then Some {| Subscribe :=
                      ResourcesConfigSubscribe
                        (CfgResources (MCPCapabilities (MCP cfg)));
                    ResourcesListChanged :=
                      ResourcesConfigListChanged
                        (CfgResources (MCPCapabilities (MCP cfg))) |}
       else None;
     Tools :=
       if IsToolsEnabled cfg
       then Some {| ToolsListChanged :=
                      ToolsConfigListChanged
                        (CfgTools (MCPCapabilities (MCP cfg))) |}
       else None;
     Experimental := None |}.

(** The handler [main] hands to the server, or the error on which it
    exits. *)
Definition startupHandler (cfg : Config) (ts : ExampleTools)
    : BaseHandler * error :=
  let handler :=
    NewBaseHandler {| ServerName := MCPName (MCP cfg);
                      ServerVersion := MCPVersionString (MCP cfg) |}
                   (createServerCapabilities cfg) in
  if IsToolsEnabled cfg then registerTools ts handler else (handler, None).

Definition DefaultConfig : Config :=
  {| Server := {| Host := "localhost"; Port := 8030; Timeout := 30 |};
     LoggingCfg := {| Level := "info"; Format := "json" |};
     MCP := {| MCPName := "mcp-go-template"; MCPVersionString := "1.0.0";
               MCPDescription := "A Go-based MCP server template";
               MCPInstructions := "";
               MCPCapabilities :=
                 {| CfgTools := {| ToolsEnabled := true;
                                   ToolsConfigListChanged := false |};
                    CfgResources := {| ResourcesEnabled := true;
                                       ResourcesConfigSubscribe := false;
                                       ResourcesConfigListChanged := false |};
                    CfgPrompts := {| PromptsEnabled := true;
                                     PromptsConfigListChanged := false |};
                    CfgLogging := true |};
               Metadata := [] |};
     Security := {| EnableTLS := false; CertFile := ""; KeyFile := "";
                    AllowedIPs := [] |} |}.

(** ** Sequences of registry operations *)

Inductive RegistryOp (H : Type) : Type :=
| OpRegister (handler : H)
| OpUnregister (name : string)
| OpClear.
Arguments OpRegister {H} _.
Arguments OpUnregister {H} _.
Arguments OpClear {H}.

Definition applyOp {H : Type} (kind : string) (declaredName : H → option string)
    (r : Registry H) (op : RegistryOp H) : Registry H :=
  match op with
  | OpRegister handler => (Register kind declaredName r handler).1
  | OpUnregister name => (Unregister kind r name).1
  | OpClear => Clear r
  end.

Definition applyOps {H : Type} (kind : string) (declaredName : H → option string)
    (r : Registry H) (ops : list (RegistryOp H)) : Registry H :=
  foldl (applyOp kind declaredName) r ops.

Definition sampleExamples : ExampleTools :=
  {| calculator := constTool "calculator" "4";
     webSearch := constTool "web_search" "no results";
     documentAnalyzer := constTool "document_analyzer" "empty";
     knowledgeGraph := constTool "knowledge_graph" "empty" |}.

(** ** Vocabulary for the validator *)

(** The dynamic types a kind admits. *)
Definition typeMatches (kind : string) (v : Value) : bool :=
  match v with
  | VString _ => String.eqb kind "string"
  | VFloat _ => String.eqb kind "number" || String.eqb kind "integer"
  | VInt _ => String.eqb kind "integer"
  | VBool _ => String.eqb kind "boolean"
  | VArray _ => String.eqb kind "array"
  | VObject _ => String.eqb kind "object"
  | VNil => false
  end.

(** The constraints of a kind whose value must be a float64. *)
Definition numericConstraints (kind : string) : list string :=
  if String.eqb kind "string" then ["minLength"; "maxLength"]
  else if String.eqb kind "number" || String.eqb kind "integer"
  then ["minimum"; "maximum"]
  else if String.eqb kind "array" then ["minItems"; "maxItems"]
  else if String.eqb kind "object" then ["minProperties"; "maxProperties"]
  else [].

Definition isFloat (v : Value) : bool :=
  match v with VFloat _ => true | _ => false end.

(** An optional bound written as a whole float64. *)
Definition wholeBound (b : option Z) : option Value := f64 <$> b.

(** ** SanitizeParameters *)

(** The ceiling on the length of a sanitized string, in bytes. *)
Definition maxStringLength : nat := Z.to_nat 10000.

Section Sanitize.
(** [strings.TrimSpace] of the Go library. *)
Context (TrimSpace : string → string).

Definition sanitizeString (v : string) : string :=
  let trimmed := TrimSpace v in
  if (maxStringLength <? String.length trimmed)%nat
  then String.substring 0 maxStringLength trimmed
  else trimmed.

Fixpoint sanitizeValue (value : Value) : Value :=
  match value with
  | VString v => VString (sanitizeString v)
  | VObject m =>
      VObject ((fix entries (m : list (string * Value)) :=
                  match m with
                  | [] => []
                  | (key, val) :: rest => (key, sanitizeValue val) :: entries rest
                  end) m)
  | VArray l => VArray (map sanitizeValue l)
  | _ => value
  end.

Definition sanitizeEntries (m : list (string * Value)) : list (string * Value) :=
  map (λ kv, (kv.1, sanitizeValue kv.2)) m.

(** A nil map comes back as an empty, non-nil map. *)
Definition SanitizeParameters (params : JMap) : JMap :=
  match params with
  | None => Some []
  | Some m => Some (sanitizeEntries m)
  end.
End Sanitize.

(** Every string inside the value, at any depth, has at most [n] bytes. *)
Fixpoint stringsWithin (n : nat) (v : Value) : Prop :=
  match v with
  | VString s => (String.length s ≤ n)%nat
  | VArray l => (fix all (l : list Value) : Prop :=
                   match l with [] => True | x :: r => stringsWithin n x ∧ all r end) l
  | VObject m => (fix all (m : list (string * Value)) : Prop :=
                    match m with
                    | [] => True
                    | (_, x) :: r => stringsWithin n x ∧ all r
                    end) m
  | _ => True
  end.

(** Every string inside the value is left alone by [trim]. *)
Fixpoint stringsFixedBy (trim : string → string) (v : Value) : Prop :=
  match v with
  | VString s => trim s = s
  | VArray l => (fix all (l : list Value) : Prop :=
                   match l with [] => True | x :: r => stringsFixedBy trim x ∧ all r end) l
  | VObject m => (fix all (m : list (string * Value)) : Prop :=
                    match m with
                    | [] => True
                    | (_, x) :: r => stringsFixedBy trim x ∧ all r
                    end) m
  | _ => True
  end.

(** The same tree of arrays, objects (with the same keys in the same
    places) and scalars; strings may differ. *)
Fixpoint sameShape (a b : Value) : Prop :=
  match a, b with
  | VNil, VNil => True
  | VBool x, VBool y => x = y
  | VFloat x, VFloat y => x = y
  | VInt x, VInt y => x = y
  | VString _, VString _ => True
  | VArray l, VArray l' =>
      (fix all (l l' : list Value) : Prop :=
         match l, l' with
         | [], [] => True
         | x :: r, y :: r' => sameShape x y ∧ all r r'
         | _, _ => False
         end) l l'
  | VObject m, VObject m' =>
      (fix all (m m' : list (string * Value)) : Prop :=
         match m, m' with
         | [], [] => True
         | (k, x) :: r, (k', y) :: r' => k = k' ∧ sameShape x y ∧ all r r'
         | _, _ => False
         end) m m'
  | _, _ => False
  end.

(** A trimmer of the six ASCII white-space bytes, for the examples. *)
Definition isAsciiSpace (c : Ascii.ascii) : bool :=
  let n := Ascii.nat_of_ascii c in
  ((n =? 32) || ((9 <=? n) && (n <=? 13)))%nat.

Fixpoint trimLeft (s : string) : string :=
  match s with
  | String c rest => if isAsciiSpace c then trimLeft rest else s
  | EmptyString => EmptyString
  end.

Fixpoint trimRight (s : string) : string :=
  match s with
  | String c rest =>
      match trimRight rest with
      | EmptyString => if isAsciiSpace c then EmptyString else String c EmptyString
      | kept => String c kept
      end
  | EmptyString => EmptyString
  end.

Definition asciiTrim (s : string) : string := trimRight (trimLeft s).

(** ** Sample sessions and schemas of the further properties *)

Definition notesURI : string := "file:///notes".

(** A Ready session with one tool, one resource and one prompt. *)
Definition sampleFull : BaseHandler :=
  (RegisterPrompt
     (RegisterResource sampleReady (sampleResource notesURI None)).1
     (samplePrompt "research")).1.

(** The same with a resource whose read operation faults. *)
Definition sampleFaulty : BaseHandler :=
  (RegisterResource sampleReady (sampleResource notesURI (Some "disk full"))).1.

Definition readRequest (id uri : string) : Message :=
  NewRequest (VString id) "resources/read" (VObject [("uri", VString uri)]).

Definition promptRequest (id name : string) : Message :=
  NewRequest (VString id) "prompts/get" (VObject [("name", VString name)]).

Definition initializeRequest (id version : string) : Message :=
  NewRequest (VString id) "initialize"
    (VObject [("protocolVersion", VString version)]).

Definition initializeParams (version : string) : InitializeParams :=
  {| ProtocolVersion := version;
     Capabilities := {| ClientExperimental := None; Sampling := None |};
     InitClientInfo := {| ClientName := ""; ClientVersion := "" |};
     Meta := None |}.

(** A schema in the manner of the web search tool: the bounds of
    max_results are Go integer literals. *)
Definition schemaIntLiteral : ToolSchema :=
  {| Type_ := "object";
     Properties := Some [("query", stringProperty);
                         ("max_results", VObject [("type", VString "integer");
                                                  ("minimum", VInt 1);
                                                  ("maximum", VInt 50)])];
     Required := ["query"] |}.

Definition boundedString : list (string * Value) :=
  [("type", VString "string"); ("minLength", f64 2); ("maxLength", f64 5)].

Definition enumString : list (string * Value) :=
  [("type", VString "string");
   ("enum", VArray [VString "add"; VString "divide"])].

Definition boundedArray : list (string * Value) :=
  [("type", VString "array"); ("minItems", f64 1); ("maxItems", f64 3)].

Definition uniqueArray : list (string * Value) :=
  [("type", VString "array"); ("uniqueItems", VBool true)].

(** * Properties *)

(** ** Message classification *)

Lemma nonEmpty_true s : nonEmpty s = true ↔ s ≠ "".
Proof. destruct s; simpl; split; congruence. Qed.

Lemma isNil_true v : isNil v = true ↔ v = VNil.
Proof. destruct v; simpl; split; congruence. Qed.

Lemma isNil_false v : isNil v = false ↔ v ≠ VNil.
Proof. destruct v; simpl; split; congruence. Qed.

Lemma IsRequest_iff m : IsRequest m = true ↔ Method m ≠ "" ∧ ID m ≠ VNil.
Proof.
  unfold IsRequest.
  rewrite andb_true_iff, negb_true_iff, nonEmpty_true, isNil_false. tauto.
Qed.

Lemma IsNotification_iff m :
  IsNotification m = true ↔ Method m ≠ "" ∧ ID m = VNil.
Proof.
  unfold IsNotification. rewrite andb_true_iff, nonEmpty_true, isNil_true. tauto.
Qed.

Lemma IsResponse_iff m : IsResponse m = true ↔ Method m = "" ∧ ID m ≠ VNil.
Proof.
  unfold IsResponse.
  rewrite andb_true_iff, !negb_true_iff, isNil_false.
  destruct (Method m); simpl; intuition congruence.
Qed.

Lemma IsInvalid_iff m : IsInvalid m = true ↔ Method m = "" ∧ ID m = VNil.
Proof.
  unfold IsInvalid, IsRequest, IsNotification, IsResponse.
  destruct (Method m), (ID m); simpl; intuition congruence.
Qed.

(** C4: every message falls in exactly one of the four classes (request,
    notification, response, none of them), and the three predicates of the
    source follow the presence rule: request = method and id present,
    notification = method present and id absent, response = method absent
    and id present. *)
Theorem message_class_exactly_one (m : Message) :
  holding [IsRequest m; IsNotification m; IsResponse m; IsInvalid m] = 1%nat
  ∧ (IsRequest m = true ↔ Method m ≠ "" ∧ ID m ≠ VNil)
  ∧ (IsNotification m = true ↔ Method m ≠ "" ∧ ID m = VNil)
  ∧ (IsResponse m = true ↔ Method m = "" ∧ ID m ≠ VNil)
  ∧ (IsInvalid m = true ↔ Method m = "" ∧ ID m = VNil).
Proof.
  split; [| auto using IsRequest_iff, IsNotification_iff, IsResponse_iff,
                        IsInvalid_iff].
  unfold holding, IsInvalid, IsRequest, IsNotification, IsResponse.
  destruct (nonEmpty (Method m)), (isNil (ID m)); reflexivity.
Qed.

(** ** The dispatcher *)

Section DispatcherFacts.
Context (codec : JSONCodec).

Lemma handleRequest_tools_call h m :
  Method m = "tools/call" →
  handleRequest codec h m =
    match UnmarshalParams (decodeCallToolParams codec) m with
    | inl err =>
        (Some (NewErrorResponse (ID m) InvalidParams "invalid tool call params"
                 (VString err)), None)
    | inr params =>
        match CallTool h params with
        | (_, Some err) =>
            (Some (NewErrorResponse (ID m) InternalError "tool call failed"
                     (VString err)), None)
        | (result, None) =>
            (Some (NewSuccessResponse (ID m) (PCallTool result)), None)
        end
    end.
Proof. intros Hm. unfold handleRequest. rewrite Hm. reflexivity. Qed.

Lemma HandleMessage_request h m :
  IsRequest m = true →
  HandleMessage codec h (Some m) = (h, handleRequest codec h m).
Proof. intros Hr. simpl. by rewrite Hr. Qed.

Lemma IsRequest_not_notification m :
  IsRequest m = true → IsNotification m = false.
Proof.
  unfold IsRequest, IsNotification.
  destruct (nonEmpty (Method m)), (isNil (ID m)); simpl; congruence.
Qed.

Lemma HandleMessage_notification h m :
  IsNotification m = true →
  HandleMessage codec h (Some m) = handleNotification h m.
Proof.
  intros Hn. simpl.
  destruct (IsRequest m) eqn:Hr; [| by rewrite Hn].
  apply IsRequest_not_notification in Hr. congruence.
Qed.

Lemma handleNotification_silent h m :
  (handleNotification h m).2 = (None, None).
Proof.
  unfold handleNotification.
  destruct (String.eqb (Method m) "initialized"); [done |].
  by destruct (String.eqb (Method m) "notifications/cancelled").
Qed.

(** The tables are never written by the dispatcher. *)
Lemma HandleMessage_tools h om :
  tools (HandleMessage codec h om).1 = tools h.
Proof.
  destruct om as [m |]; simpl; [| done].
  destruct (IsRequest m); [done |].
  destruct (IsNotification m); [| done].
  unfold handleNotification.
  destruct (String.eqb (Method m) "initialized"); [done |].
  by destruct (String.eqb (Method m) "notifications/cancelled").
Qed.

(** The session flag is raised by the [initialized] notification and by
    nothing else, and is never lowered. *)
Lemma HandleMessage_initialized h m :
  initialized (HandleMessage codec h (Some m)).1 =
  initialized h || (IsNotification m && String.eqb (Method m) "initialized").
Proof.
  simpl. destruct (IsRequest m) eqn:Hr.
  - rewrite (IsRequest_not_notification _ Hr). simpl. by rewrite orb_false_r.
  - destruct (IsNotification m); simpl; [| by rewrite orb_false_r].
    unfold handleNotification.
    destruct (String.eqb (Method m) "initialized"); simpl.
    + by rewrite orb_true_r.
    + rewrite orb_false_r.
      by destruct (String.eqb (Method m) "notifications/cancelled").
Qed.

Lemma handleAll_tools h ms : tools (handleAll codec h ms).1 = tools h.
Proof.
  revert h. induction ms as [| m ms IH]; intros h; [done |].
  cbn [handleAll].
  pose proof (HandleMessage_tools h (Some m)) as Ht.
  destruct (HandleMessage codec h (Some m)) as [h1 [resp e]].
  specialize (IH h1). destruct (handleAll codec h1 ms) as [h2 out].
  simpl in *. congruence.
Qed.

Lemma handleAll_not_initialized h ms :
  initialized h = false →
  Forall (λ x, IsNotification x && String.eqb (Method x) "initialized" = false) ms →
  initialized (handleAll codec h ms).1 = false.
Proof.
  revert h. induction ms as [| m ms IH]; intros h Hi Hall; [done |].
  inversion Hall as [| ? ? Hm Hms]; subst.
  cbn [handleAll].
  pose proof (HandleMessage_initialized h m) as Hs.
  destruct (HandleMessage codec h (Some m)) as [h1 [resp e]].
  simpl in Hs. rewrite Hi, Hm in Hs. simpl in Hs.
  specialize (IH h1 Hs Hms). destruct (handleAll codec h1 ms) as [h2 out].
  exact IH.
Qed.

(** What [CallTool] returns once the handler for the name is found. *)
Lemma CallTool_found h p th :
  initialized h = true → tools h !! CallName p = Some th →
  CallTool h p =
    match Execute th (Arguments p) with
    | (_, Some err) =>
        (Some {| ResultContent :=
                   [textContent ("Tool execution failed: " +:+ err)];
                 IsError := true |}, None)
    | (result, None) => (result, None)
    end.
Proof. intros Hi Ht. unfold CallTool. by rewrite Hi, Ht. Qed.

Lemma CallTool_found_no_error h p th :
  initialized h = true → tools h !! CallName p = Some th →
  (CallTool h p).2 = None.
Proof.
  intros Hi Ht. rewrite (CallTool_found _ _ _ Hi Ht).
  by destruct (Execute th (Arguments p)) as [r [e |]].
Qed.

(** C1 (as the code has it): in a Ready session, a tools/call request
    naming a tool that is not in the tool table is answered by an error
    response carrying the internal-error code -32603, the message
    "tool call failed" and, as data, the text "tool '<name>' not found";
    the dedicated code -32003 is not used. *)
Theorem tools_call_unknown_tool_internal_error
    (h : BaseHandler) (m : Message) (p : CallToolParams) :
  initialized h = true →
  IsRequest m = true →
  Method m = "tools/call" →
  UnmarshalParams (decodeCallToolParams codec) m = inr p →
  tools h !! CallName p = None →
  HandleMessage codec h (Some m) =
    (h, (Some (NewErrorResponse (ID m) InternalError "tool call failed"
                 (VString ("tool '" +:+ CallName p +:+ "' not found"))),
         None))
  ∧ InternalError = -32603.
Proof.
  intros Hi Hr Hm Hp Ht. split; [| reflexivity].
  rewrite (HandleMessage_request _ _ Hr), (handleRequest_tools_call _ _ Hm), Hp.
  unfold CallTool. by rewrite Hi, Ht.
Qed.

(** C3: while the session has not handled the [initialized] notification
    (whatever other messages it has handled), a tools/call request for a
    registered tool is answered by the error response "tool call failed"
    whose data is "handler not initialized"; the notification itself
    is not answered; once it is handled, the same request is answered by
    a success response. *)
Theorem tools_call_gated_by_initialized
    (h : BaseHandler) (before : list Message) (m note : Message)
    (p : CallToolParams) (th : ToolHandler) :
  initialized h = false →
  Forall (λ x, IsNotification x && String.eqb (Method x) "initialized" = false)
         before →
  IsRequest m = true →
  Method m = "tools/call" →
  UnmarshalParams (decodeCallToolParams codec) m = inr p →
  tools h !! CallName p = Some th →
  IsNotification note = true →
  Method note = "initialized" →
  let h0 := (handleAll codec h before).1 in
  let h1 := (HandleMessage codec h0 (Some note)).1 in
  HandleMessage codec h0 (Some m) =
    (h0, (Some (NewErrorResponse (ID m) InternalError "tool call failed"
                  (VString "handler not initialized")), None))
  ∧ (HandleMessage codec h0 (Some note)).2 = (None, None)
  ∧ ∃ r, HandleMessage codec h1 (Some m) =
           (h1, (Some (NewSuccessResponse (ID m) (PCallTool r)), None)).
Proof.
  intros Hi Hbefore Hr Hm Hp Ht Hn Hnote h0 h1.
  assert (Hi0 : initialized h0 = false)
    by (apply handleAll_not_initialized; assumption).
  assert (Ht0 : tools h0 !! CallName p = Some th)
    by (unfold h0; rewrite handleAll_tools; assumption).
  split; [| split].
  - rewrite (HandleMessage_request _ _ Hr), (handleRequest_tools_call _ _ Hm), Hp.
    unfold CallTool. by rewrite Hi0.
  - rewrite (HandleMessage_notification _ _ Hn). apply handleNotification_silent.
  - assert (Hi1 : initialized h1 = true).
    { unfold h1. rewrite HandleMessage_initialized, Hn, Hnote. simpl.
      apply orb_true_r. }
    assert (Ht1 : tools h1 !! CallName p = Some th)
      by (unfold h1; rewrite HandleMessage_tools; assumption).
    rewrite (HandleMessage_request _ _ Hr), (handleRequest_tools_call _ _ Hm), Hp.
    rewrite (CallTool_found _ _ _ Hi1 Ht1).
    destruct (Execute th (Arguments p)) as [r [e |]]; eauto.
Qed.

(** C7: in a Ready session, when the execute operation of the registered
    tool returns an error, the dispatcher answers with a success response
    (no error object) whose payload has is-error set and whose single
    text content is "Tool execution failed: " followed by the fault
    text. *)
Theorem faulting_tool_yields_success_response
    (h : BaseHandler) (m : Message) (p : CallToolParams) (th : ToolHandler)
    (partial : option CallToolResult) (fault : string) :
  initialized h = true →
  IsRequest m = true →
  Method m = "tools/call" →
  UnmarshalParams (decodeCallToolParams codec) m = inr p →
  tools h !! CallName p = Some th →
  Execute th (Arguments p) = (partial, Some fault) →
  ∃ resp payload,
    HandleMessage codec h (Some m) = (h, (Some resp, None))
    ∧ ID resp = ID m
    ∧ Error resp = None
    ∧ HasError resp = false
    ∧ Result resp = PCallTool (Some payload)
    ∧ IsError payload = true
    ∧ ResultContent payload =
        [textContent ("Tool execution failed: " +:+ fault)].
Proof.
  intros Hi Hr Hm Hp Ht He.
  rewrite (HandleMessage_request _ _ Hr), (handleRequest_tools_call _ _ Hm), Hp.
  rewrite (CallTool_found _ _ _ Hi Ht), He.
  eexists _, _. repeat split; reflexivity.
Qed.

(** C9: handling a notification (a message with a method and no id) never
    yields a response message, whatever the session state and whatever
    the method: [initialized], [notifications/cancelled] or any other. *)
Theorem notification_never_answered (h : BaseHandler) (m : Message) :
  IsNotification m = true →
  (HandleMessage codec h (Some m)).2 = (None, None)
  ∧ (handleNotification h m).2 = (None, None)
  ∧ (handleAll codec h [m]).2 = [].
Proof.
  intros Hn.
  pose proof (handleNotification_silent h m) as Hs.
  split; [| split]; [| exact Hs |].
  - by rewrite (HandleMessage_notification _ _ Hn).
  - cbn [handleAll]. rewrite (HandleMessage_notification _ _ Hn).
    destruct (handleNotification h m) as [h1 [resp e]].
    simpl in Hs. by inversion Hs.
Qed.

(** C10: registering a tool handler under a non-empty name that the
    dispatcher's tool table already holds returns no error and replaces
    the earlier handler, the other entries and the session flag being
    kept; a later tools/call for that name in a Ready session is answered
    from the execute operation of the newly registered handler. *)
Theorem RegisterTool_replaces_handler
    (h : BaseHandler) (old new : ToolHandler) (t : Tool) :
  tools h !! Name t = Some old →
  ToolDefinition new = Some t →
  Name t ≠ "" →
  ∃ h', RegisterTool h new = (h', None)
    ∧ tools h' !! Name t = Some new
    ∧ (∀ k, k ≠ Name t → tools h' !! k = tools h !! k)
    ∧ initialized h' = initialized h
    ∧ ∀ m p, initialized h' = true →
        IsRequest m = true →
        Method m = "tools/call" →
        UnmarshalParams (decodeCallToolParams codec) m = inr p →
        CallName p = Name t →
        HandleMessage codec h' (Some m) =
          (h', (Some (NewSuccessResponse (ID m) (PCallTool
             match Execute new (Arguments p) with
             | (_, Some err) =>
                 Some {| ResultContent :=
                           [textContent ("Tool execution failed: " +:+ err)];
                         IsError := true |}
             | (result, None) => result
             end)), None)).
Proof.
  intros Hold Hdef Hne.
  unfold RegisterTool. rewrite Hdef.
  apply nonEmpty_true in Hne. rewrite Hne.
  set (h' := set_tools h (<[Name t := new]> (tools h))).
  assert (Hnew : tools h' !! Name t = Some new) by apply lookup_insert_eq.
  exists h'. split; [reflexivity |].
  split; [exact Hnew |].
  split; [intros k Hk; by apply lookup_insert_ne |].
  split; [reflexivity |].
  intros m p Hi Hr Hm Hp Hname.
  rewrite (HandleMessage_request _ _ Hr), (handleRequest_tools_call _ _ Hm), Hp.
  rewrite <- Hname in Hnew.
  rewrite (CallTool_found _ p new Hi Hnew).
  by destruct (Execute new (Arguments p)) as [r [e |]].
Qed.
End DispatcherFacts.

(** Scenario D of the specification on the sample session: the unknown tool
    is reported under the internal-error code. *)
Lemma tools_call_unknown_tool_witness :
  initialized sampleReady = true
  ∧ tools sampleReady !! "nonexistent" = None
  ∧ HandleMessage sampleCodec sampleReady (Some (callRequest "3" "nonexistent")) =
      (sampleReady,
       (Some (NewErrorResponse (VString "3") InternalError "tool call failed"
                (VString "tool 'nonexistent' not found")), None)).
Proof.
  split; [vm_compute; reflexivity |].
  split; [vm_compute; reflexivity |].
  apply (tools_call_unknown_tool_internal_error sampleCodec sampleReady
           (callRequest "3" "nonexistent") (callParams "nonexistent"));
    vm_compute; reflexivity.
Defined.

(** C1 as stated fails: the response to the unknown tool does not carry the
    tool-not-found code -32003. *)
Lemma tools_call_unknown_tool_not_32003 :
  initialized sampleReady = true
  ∧ IsRequest (callRequest "3" "nonexistent") = true
  ∧ tools sampleReady !! "nonexistent" = None
  ∧ responseCode
      (HandleMessage sampleCodec sampleReady
         (Some (callRequest "3" "nonexistent"))).2.1 = Some (-32603)
  ∧ responseCode
      (HandleMessage sampleCodec sampleReady
         (Some (callRequest "3" "nonexistent"))).2.1 ≠ Some ToolNotFound.
Proof.
  repeat split; try (vm_compute; reflexivity).
  vm_compute. discriminate.
Qed.

Lemma tools_call_gated_witness :
  let m := callRequest "2" "echo" in
  let note := NewNotification "initialized" VNil in
  let h0 := (handleAll sampleCodec sampleSession
               [NewRequest (VString "1") "tools/list" VNil;
                NewNotification "notifications/cancelled" VNil]).1 in
  let h1 := (HandleMessage sampleCodec h0 (Some note)).1 in
  HandleMessage sampleCodec h0 (Some m) =
    (h0, (Some (NewErrorResponse (ID m) InternalError "tool call failed"
                  (VString "handler not initialized")), None))
  ∧ (HandleMessage sampleCodec h0 (Some note)).2 = (None, None)
  ∧ ∃ r, HandleMessage sampleCodec h1 (Some m) =
           (h1, (Some (NewSuccessResponse (ID m) (PCallTool r)), None)).
Proof.
  apply (tools_call_gated_by_initialized sampleCodec sampleSession
           [NewRequest (VString "1") "tools/list" VNil;
            NewNotification "notifications/cancelled" VNil]
           (callRequest "2" "echo") (NewNotification "initialized" VNil)
           (callParams "echo") (constTool "echo" "first"));
    try (vm_compute; reflexivity).
  repeat constructor.
Defined.

Lemma faulting_tool_witness :
  let h := (RegisterTool sampleReady (faultyTool "broken" "disk full")).1 in
  ∃ resp payload,
    HandleMessage sampleCodec h (Some (callRequest "7" "broken")) =
      (h, (Some resp, None))
    ∧ ID resp = VString "7"
    ∧ Error resp = None
    ∧ HasError resp = false
    ∧ Result resp = PCallTool (Some payload)
    ∧ IsError payload = true
    ∧ ResultContent payload =
        [textContent "Tool execution failed: disk full"].
Proof.
  apply (faulting_tool_yields_success_response sampleCodec
           (RegisterTool sampleReady (faultyTool "broken" "disk full")).1
           (callRequest "7" "broken") (callParams "broken")
           (faultyTool "broken" "disk full") None "disk full");
    vm_compute; reflexivity.
Defined.

Lemma notification_never_answered_witness :
  (HandleMessage sampleCodec sampleSession
     (Some (NewNotification "notifications/progress" VNil))).2 = (None, None)
  ∧ (handleNotification sampleSession
       (NewNotification "notifications/progress" VNil)).2 = (None, None)
  ∧ (handleAll sampleCodec sampleSession
       [NewNotification "notifications/progress" VNil]).2 = [].
Proof.
  apply (notification_never_answered sampleCodec sampleSession
           (NewNotification "notifications/progress" VNil)).
  reflexivity.
Defined.

Lemma RegisterTool_replaces_witness :
  tools sampleReady !! "echo" = Some (constTool "echo" "first")
  ∧ ∃ h', RegisterTool sampleReady (constTool "echo" "second") = (h', None)
      ∧ tools h' !! "echo" = Some (constTool "echo" "second").
Proof.
  split; [vm_compute; reflexivity |].
  destruct (RegisterTool_replaces_handler sampleCodec sampleReady
              (constTool "echo" "first") (constTool "echo" "second")
              (sampleTool "echo"))
    as (h' & Hreg & Hnew & _).
  - vm_compute; reflexivity.
  - reflexivity.
  - discriminate.
  - exists h'. split; [exact Hreg | exact Hnew].
Defined.

(** ** The registries *)

Section RegistryFacts.
Context {H : Type} (kind : string) (declaredName : H → option string).

Lemma GetNames_NoDup (r : Registry H) : NoDup (GetNames r).
Proof. unfold GetNames. apply NoDup_fst_map_to_list. Qed.

Lemma GetNames_length (r : Registry H) : length (GetNames r) = Count r.
Proof.
  unfold GetNames, Count. by rewrite length_fmap, length_map_to_list.
Qed.

Lemma Register_fresh (r : Registry H) (handler : H) (name : string) :
  declaredName handler = Some name → name ≠ "" → entries r !! name = None →
  Register kind declaredName r handler =
    ({| entries := <[name := handler]> (entries r) |}, None).
Proof.
  intros Hd Hne Hfree. unfold Register. rewrite Hd.
  apply nonEmpty_true in Hne. by rewrite Hne, Hfree.
Qed.

Lemma Register_then_Get (r : Registry H) (handler : H) (name : string) :
  declaredName handler = Some name → name ≠ "" → entries r !! name = None →
  Get kind (Register kind declaredName r handler).1 name = (Some handler, None)
  ∧ Count (Register kind declaredName r handler).1 = S (Count r).
Proof.
  intros Hd Hne Hfree. rewrite (Register_fresh _ _ _ Hd Hne Hfree).
  unfold Get, Count. simpl. rewrite lookup_insert_eq.
  split; [done |]. by apply map_size_insert_None.
Qed.

Lemma Unregister_then_Get (r : Registry H) (name : string) :
  is_Some (entries r !! name) →
  (Unregister kind r name).2 = None
  ∧ (Get kind (Unregister kind r name).1 name).1 = None.
Proof.
  intros [handler Hh]. unfold Unregister, Get. rewrite Hh. simpl.
  by rewrite lookup_delete_eq.
Qed.

Lemma Register_keyedByName (r : Registry H) (handler : H) :
  keyedByName declaredName r →
  keyedByName declaredName (Register kind declaredName r handler).1.
Proof.
  intros Hinv. unfold Register.
  destruct (declaredName handler) as [name |] eqn:Hd; [| exact Hinv].
  destruct (nonEmpty name) eqn:Hne; simpl; [| exact Hinv].
  destruct (entries r !! name) eqn:Hl; [exact Hinv |].
  intros k h0. simpl. rewrite lookup_insert.
  case_decide as Hk.
  - subst k. intros [= <-]. split; [done |]. by apply nonEmpty_true.
  - apply Hinv.
Qed.

Lemma registerAll_keyedByName (hs : list H) (r : Registry H) :
  keyedByName declaredName r →
  keyedByName declaredName (registerAll kind declaredName r hs).
Proof.
  revert r. induction hs as [| handler hs IH]; intros r Hinv; [exact Hinv |].
  simpl. apply IH. by apply Register_keyedByName.
Qed.

(** C2: registering a handler whose declared name is already in the
    registry, or is empty, returns an error (naming the reason) and leaves
    the registry as it was; and the names of a registry, before and after
    any registration, are pairwise distinct. *)
Theorem Register_rejects_taken_or_empty
    (r : Registry H) (handler : H) (name : string) :
  declaredName handler = Some name →
  name = "" ∨ is_Some (entries r !! name) →
  Register kind declaredName r handler =
    (r, Some (if nonEmpty name
              then kind +:+ " '" +:+ name +:+ "' is already registered"
              else kind +:+ " name cannot be empty"))
  ∧ NoDup (GetNames r)
  ∧ ∀ other, NoDup (GetNames (Register kind declaredName r other).1).
Proof.
  intros Hd Hcase.
  split; [| split; [apply GetNames_NoDup | intros; apply GetNames_NoDup]].
  unfold Register. rewrite Hd.
  destruct Hcase as [-> | [old Hold]]; [reflexivity |].
  destruct (nonEmpty name); simpl; [| reflexivity].
  by rewrite Hold.
Qed.
End RegistryFacts.

Lemma Register_rejects_witness :
  is_Some (entries sampleRegistry !! "research")
  ∧ RegisterPromptHandler sampleRegistry (samplePrompt "research") =
      (sampleRegistry, Some "prompt 'research' is already registered")
  ∧ RegisterPromptHandler sampleRegistry (samplePrompt "") =
      (sampleRegistry, Some "prompt name cannot be empty").
Proof.
  assert (Hin : is_Some (entries sampleRegistry !! "research"))
    by (vm_compute; eauto).
  split; [exact Hin |]. split.
  - apply (Register_rejects_taken_or_empty "prompt" promptName sampleRegistry
             (samplePrompt "research") "research");
      [reflexivity | right; exact Hin].
  - apply (Register_rejects_taken_or_empty "prompt" promptName sampleRegistry
             (samplePrompt "") "");
      [reflexivity | left; reflexivity].
Defined.

(** ** Well-formedness of schemas *)

Lemma validTypes_iff kind : validTypes kind = true ↔ kind ∈ propertyKinds.
Proof.
  unfold validTypes, propertyKinds. rewrite existsb_exists. split.
  - intros (x & Hin & Heq). apply String.eqb_eq in Heq. subst x.
    by apply list_elem_of_In.
  - intros Hin. exists kind. split; [by apply list_elem_of_In |].
    apply String.eqb_refl.
Qed.

Lemma jget_elem_of k m v : jget k m = Some v → (k, v) ∈ m.
Proof.
  induction m as [| [k' v'] m IH]; simpl; [done |].
  destruct (String.eqb k' k) eqn:Hk.
  - apply String.eqb_eq in Hk. intros [= ->]. subst. left.
  - intros Hm. right. by apply IH.
Qed.

Lemma jget_None_iff k m : jget k m = None ↔ ∀ v, (k, v) ∉ m.
Proof.
  induction m as [| [k' v'] m IH]; simpl.
  - split; [intros _ v Hin; inversion Hin | done].
  - destruct (String.eqb k' k) eqn:Hk.
    + apply String.eqb_eq in Hk. subst. split; [done |].
      intros Hno. destruct (Hno v'). left.
    + apply String.eqb_neq in Hk. rewrite IH. split.
      * intros Hno v Hin. apply elem_of_cons in Hin as [[= -> ->] | Hin];
          [done | by apply (Hno v)].
      * intros Hno v Hin. apply (Hno v). by right.
Qed.

Lemma validateProperty_undeclared name def :
  ¬ declaresKind def → is_Some (validateProperty name def).
Proof.
  intros Hno. destruct def as [| | | | | | pm]; simpl; eauto.
  destruct (jget "type" pm) as [[| | | | kind | |] |] eqn:Ht; eauto.
  destruct (validTypes kind) eqn:Hv; simpl; eauto.
  destruct Hno. exists pm, kind. by rewrite <- validTypes_iff.
Qed.

Lemma validateNumericProperty_min_gt_max pm lo hi :
  jget "minimum" pm = Some (VFloat lo) →
  jget "maximum" pm = Some (VFloat hi) →
  fgt lo hi = true →
  validateNumericProperty pm =
    Some (Errorf "minimum (%f) cannot be greater than maximum (%f)"
            [VFloat lo; VFloat hi] None).
Proof.
  intros Hlo Hhi Hgt. unfold validateNumericProperty, numberField.
  by rewrite Hlo, Hhi, Hgt.
Qed.

Lemma validateProperty_min_gt_max name pm kind lo hi :
  jget "type" pm = Some (VString kind) →
  kind = "number" ∨ kind = "integer" →
  jget "minimum" pm = Some (VFloat lo) →
  jget "maximum" pm = Some (VFloat hi) →
  fgt lo hi = true →
  is_Some (validateProperty name (VObject pm)).
Proof.
  intros Ht Hk Hlo Hhi Hgt. simpl. rewrite Ht.
  rewrite (validateNumericProperty_min_gt_max _ _ _ Hlo Hhi Hgt).
  destruct Hk as [-> | ->]; simpl; eauto.
Qed.

Lemma requiredDeclared_missing props required r :
  r ∈ required → mapGet r props = None →
  is_Some (requiredDeclared props required).
Proof.
  induction required as [| r' required IH]; intros Hin Hm; [inversion Hin |].
  simpl. destruct (mapGet r' props) eqn:Hr'; [| eauto].
  apply elem_of_cons in Hin as [-> | Hin]; [congruence | by apply IH].
Qed.

Lemma requiredDeclared_None props required :
  requiredDeclared props required = None ↔
  ∀ r, r ∈ required → is_Some (mapGet r props).
Proof.
  induction required as [| r' required IH]; simpl.
  - split; [intros _ r Hin; inversion Hin | done].
  - destruct (mapGet r' props) eqn:Hr'.
    + rewrite IH. split.
      * intros Hall r Hin. apply elem_of_cons in Hin as [-> | Hin]; eauto.
      * intros Hall r Hin. apply Hall. by right.
    + split; [done |]. intros Hall.
      destruct (Hall r') as [v Hv]; [left | congruence].
Qed.

Lemma propertiesValid_invalid props name def :
  (name, def) ∈ props → is_Some (validateProperty name def) →
  is_Some (propertiesValid props).
Proof.
  induction props as [| [k v] props IH]; intros Hin Hbad; [inversion Hin |].
  simpl. destruct (validateProperty k v) eqn:Hkv; [eauto |].
  apply elem_of_cons in Hin as [[= -> ->] | Hin].
  - rewrite Hkv in Hbad. by destruct Hbad.
  - by apply IH.
Qed.

Lemma propertiesValid_None props :
  propertiesValid props = None ↔
  ∀ name def, (name, def) ∈ props → validateProperty name def = None.
Proof.
  induction props as [| [k v] props IH]; simpl.
  - split; [intros _ n d Hin; inversion Hin | done].
  - destruct (validateProperty k v) eqn:Hkv.
    + split; [done |]. intros Hall.
      rewrite (Hall k v) in Hkv; [done | left].
    + rewrite IH. split.
      * intros Hall n d Hin.
        apply elem_of_cons in Hin as [[= -> ->] | Hin]; auto.
      * intros Hall n d Hin. apply Hall. by right.
Qed.

(** When [ValidateToolSchema] returns nil. *)
Lemma ValidateToolSchema_None schema :
  ValidateToolSchema schema = None ↔
  Type_ schema = "object"
  ∧ ∃ props, Properties schema = Some props ∧ props ≠ []
      ∧ requiredDeclared (Some props) (Required schema) = None
      ∧ propertiesValid props = None.
Proof.
  unfold ValidateToolSchema.
  destruct (nonEmpty (Type_ schema)) eqn:Hne; simpl.
  - destruct (String.eqb (Type_ schema) "object") eqn:Hobj; simpl.
    + apply String.eqb_eq in Hobj.
      destruct (Properties schema) as [[| kv props] |] eqn:Hp.
      * split; [done |]. intros (_ & ps & [= <-] & Hnil & _). done.
      * unfold andAlso.
        destruct (requiredDeclared (Some (kv :: props)) (Required schema)) eqn:Hr.
        -- split; [done |]. intros (_ & ps & [= <-] & _ & Hr' & _). congruence.
        -- split.
           ++ intros Hv. split; [done |]. exists (kv :: props). done.
           ++ intros (_ & ps & [= <-] & _ & _ & Hv). done.
      * split; [done |]. intros (_ & ps & [=] & _).
    + apply String.eqb_neq in Hobj. split; [done |]. intros [? _]. done.
  - split; [done |]. intros [Hobj _]. rewrite Hobj in Hne. done.
Qed.

(** C6: [ValidateToolSchema] returns an error when the type literal is not
    "object", when the property map is nil or empty, when a required name is
    not a key of the property map, when a property does not declare one of
    the six kinds, and when a number or integer property declares a minimum
    greater than its maximum. *)
Theorem ValidateToolSchema_rejects (schema : ToolSchema) :
  (Type_ schema ≠ "object" → is_Some (ValidateToolSchema schema))
  ∧ (Properties schema = None ∨ Properties schema = Some [] →
     is_Some (ValidateToolSchema schema))
  ∧ (∀ r, r ∈ Required schema → mapGet r (Properties schema) = None →
     is_Some (ValidateToolSchema schema))
  ∧ (∀ props name def,
       Properties schema = Some props → (name, def) ∈ props →
       ¬ declaresKind def →
       is_Some (ValidateToolSchema schema))
  ∧ (∀ props name pm kind lo hi,
       Properties schema = Some props → (name, VObject pm) ∈ props →
       jget "type" pm = Some (VString kind) →
       kind = "number" ∨ kind = "integer" →
       jget "minimum" pm = Some (VFloat lo) →
       jget "maximum" pm = Some (VFloat hi) →
       fgt lo hi = true →
       is_Some (ValidateToolSchema schema)).
Proof.
  assert (Hcase : ∀ P : Prop,
            (ValidateToolSchema schema = None → ¬ P) →
            P → is_Some (ValidateToolSchema schema)).
  { intros P Hno HP. destruct (ValidateToolSchema schema) eqn:Hv; [eauto |].
    by destruct (Hno eq_refl). }
  repeat split.
  - apply Hcase. intros Hv%ValidateToolSchema_None. tauto.
  - apply Hcase. intros (_ & ps & Hp & Hnil & _)%ValidateToolSchema_None.
    intros [Hn | He]; congruence.
  - intros r Hin Hmiss. generalize (conj Hin Hmiss). apply Hcase.
    intros (_ & ps & Hp & _ & Hreq & _)%ValidateToolSchema_None [Hr Hm].
    rewrite Hp in Hm. rewrite requiredDeclared_None in Hreq.
    destruct (Hreq r Hr) as [v Hv]. congruence.
  - intros props name def Hp Hin Hkind. generalize (conj Hin Hkind).
    apply Hcase.
    intros (_ & ps & Hp' & _ & _ & Hv)%ValidateToolSchema_None [Hi Hk].
    assert (ps = props) as -> by congruence.
    rewrite propertiesValid_None in Hv.
    destruct (validateProperty_undeclared name def Hk) as [e He].
    rewrite (Hv name def Hi) in He. done.
  - intros props name pm kind lo hi Hp Hin Ht Hk Hlo Hhi Hgt.
    generalize (conj Hin Hgt). apply Hcase.
    intros (_ & ps & Hp' & _ & _ & Hv)%ValidateToolSchema_None [Hi _].
    assert (ps = props) as -> by congruence.
    rewrite propertiesValid_None in Hv.
    destruct (validateProperty_min_gt_max name pm kind lo hi Ht Hk Hlo Hhi Hgt)
      as [e He].
    rewrite (Hv name _ Hi) in He. done.
Qed.

Example sampleSchema_well_formed : ValidateToolSchema sampleSchema = None.
Proof. reflexivity. Qed.

Lemma ValidateToolSchema_rejects_witness :
  is_Some (ValidateToolSchema schemaBadType)
  ∧ is_Some (ValidateToolSchema schemaNoProperties)
  ∧ is_Some (ValidateToolSchema schemaUndeclaredRequired)
  ∧ is_Some (ValidateToolSchema schemaUnknownKind)
  ∧ is_Some (ValidateToolSchema schemaMinAboveMax).
Proof.
  split; [| split; [| split; [| split]]].
  - apply (proj1 (ValidateToolSchema_rejects schemaBadType)). discriminate.
  - apply (proj1 (proj2 (ValidateToolSchema_rejects schemaNoProperties))).
    right. reflexivity.
  - apply (proj1 (proj2 (proj2
             (ValidateToolSchema_rejects schemaUndeclaredRequired))) "limit").
    + right. left.
    + reflexivity.
  - apply (proj1 (proj2 (proj2 (proj2
             (ValidateToolSchema_rejects schemaUnknownKind))))
             [("query", VObject [("type", VString "text")])] "query"
             (VObject [("type", VString "text")])).
    + reflexivity.
    + left.
    + intros (pm & kind & Hdef & Ht & Hin).
      injection Hdef as <-. injection Ht as <-.
      apply validTypes_iff in Hin. vm_compute in Hin. discriminate.
  - apply (proj2 (proj2 (proj2 (proj2
             (ValidateToolSchema_rejects schemaMinAboveMax))))
             [("query", stringProperty);
              ("limit", VObject [("type", VString "integer");
                                 ("minimum", f64 5); ("maximum", f64 3)])]
             "limit"
             [("type", VString "integer"); ("minimum", f64 5);
              ("maximum", f64 3)]
             "integer" (float64_of_int 5) (float64_of_int 3)).
    + reflexivity.
    + right. left.
    + reflexivity.
    + right. reflexivity.
    + reflexivity.
    + reflexivity.
    + vm_compute. reflexivity.
Defined.

(** ** Validation of arguments *)

Lemma noPanic_benign o : noPanic o → benign o.
Proof. by destruct o. Qed.

Lemma andThen_benign o1 o2 : benign o1 → benign o2 → benign (andThen o1 o2).
Proof. by destruct o1. Qed.

Lemma andThen_noPanic o1 o2 : noPanic o1 → noPanic o2 → noPanic (andThen o1 o2).
Proof. by destruct o1. Qed.

Lemma andThen_Accept o1 o2 : andThen o1 o2 = Accept ↔ o1 = Accept ∧ o2 = Accept.
Proof. destruct o1; simpl; intuition congruence. Qed.

Lemma checkNonNegative_None key prop :
  checkNonNegative key prop = None →
  jget key prop = None ∨ ∃ x, jget key prop = Some (VFloat x).
Proof.
  unfold checkNonNegative.
  destruct (jget key prop) as [[| | x | | | |] |]; try done; eauto.
Qed.

Lemma checkLength_noPanic upper key format name len prop :
  jget key prop = None ∨ (∃ x, jget key prop = Some (VFloat x)) →
  noPanic (checkLength upper key format name len prop).
Proof.
  unfold checkLength. intros [-> | [x ->]]; [done |].
  by destruct (if upper then _ else _).
Qed.

Lemma firstNonString_None i l :
  firstNonString i l = None → is_Some (assertStrings l).
Proof.
  revert i. induction l as [| v l IH]; intros i; simpl; [eauto |].
  destruct v; try done. intros Hl. destruct (IH _ Hl) as [ss ->]. simpl. eauto.
Qed.

Lemma andAlso_None c1 c2 : andAlso c1 c2 = None ↔ c1 = None ∧ c2 = None.
Proof. destruct c1; simpl; intuition congruence. Qed.

Lemma validateStringValue_noPanic name value prop :
  validateStringProperty prop = None →
  noPanic (validateStringValue name value prop).
Proof.
  unfold validateStringProperty, validateStringValue.
  rewrite !andAlso_None. intros (Henum & Hmin & Hmax & _).
  apply andThen_noPanic; [| apply andThen_noPanic].
  - destruct (jget "enum" prop) as [[| | | | | enumSlice |] |]; try done.
    destruct (enumContains value enumSlice); [done |].
    destruct enumSlice as [| v l]; [done |].
    by destruct (firstNonString_None _ _ Henum) as [ss ->].
  - by apply checkLength_noPanic, checkNonNegative_None.
  - by apply checkLength_noPanic, checkNonNegative_None.
Qed.

Lemma validateNumberValue_noPanic name value prop :
  validateNumericProperty prop = None →
  noPanic (validateNumberValue name value prop).
Proof.
  unfold validateNumericProperty, validateNumberValue, numberField.
  intros Hv. apply andThen_noPanic.
  - destruct (jget "minimum" prop) as [[| | x | | | |] |]; try done.
    by destruct (flt value x).
  - destruct (jget "minimum" prop) as [[| | x | | | |] |]; try done;
      destruct (jget "maximum" prop) as [[| | y | | | |] |]; try done;
      by destruct (fgt value y).
Qed.

Lemma uniqueScan_benign name seen i items : benign (uniqueScan name seen i items).
Proof.
  revert seen i. induction items as [| item items IH]; intros seen i; [done |].
  simpl. destruct (hashable item) eqn:Hh; simpl; [| by exists item].
  destruct (existsb (keyEq item) seen); [done | apply IH].
Qed.

Lemma validateArrayValue_benign name value prop :
  validateArrayProperty prop = None →
  benign (validateArrayValue name value prop).
Proof.
  unfold validateArrayProperty, validateArrayValue.
  rewrite !andAlso_None. intros (Hmin & Hmax & Huniq).
  apply andThen_benign; [| apply andThen_benign].
  - by apply noPanic_benign, checkLength_noPanic, checkNonNegative_None.
  - by apply noPanic_benign, checkLength_noPanic, checkNonNegative_None.
  - destruct (jget "uniqueItems" prop) as [[| b | | | | |] |]; try done.
    destruct b; [apply uniqueScan_benign | done].
Qed.

Section ArgumentFacts.
Context (overflowInt64 : float64 → Z).

(** Against a well-formed property no unchecked type assertion fails. *)
Lemma validateParameterValue_benign name value pname def :
  validateProperty pname def = None →
  benign (validateParameterValue overflowInt64 name value def).
Proof.
  destruct def as [| | | | | | pm]; try done. simpl.
  destruct (jget "type" pm) as [[| | | | kind | |] |]; try done.
  destruct (validTypes kind); simpl; [| done].
  destruct (String.eqb kind "string").
  { intros Hv. destruct value; try done.
    by apply noPanic_benign, validateStringValue_noPanic. }
  destruct (String.eqb kind "number"); simpl.
  { intros Hv. destruct value; try done.
    by apply noPanic_benign, validateNumberValue_noPanic. }
  destruct (String.eqb kind "integer"); simpl.
  { intros Hv. destruct value; try done.
    - destruct (fne _ _); [done |].
      by apply noPanic_benign, validateNumberValue_noPanic.
    - by apply noPanic_benign, validateNumberValue_noPanic. }
  destruct (String.eqb kind "boolean"); [by destruct value |].
  destruct (String.eqb kind "array").
  { intros Hv. destruct value; try done. by apply validateArrayValue_benign. }
  destruct (String.eqb kind "object"); by destruct value.
Qed.

Lemma requiredPresent_noPanic params required :
  noPanic (requiredPresent params required).
Proof.
  induction required as [| r required IH]; simpl; [done |].
  by destruct (jget r params).
Qed.

Lemma requiredPresent_missing params required r :
  r ∈ required → jget r params = None →
  ∃ r0, r0 ∈ required ∧ jget r0 params = None
    ∧ requiredPresent params required =
        Reject (Errorf "required parameter '%s' is missing" [VString r0] None).
Proof.
  induction required as [| r' required IH]; intros Hin Hm; [inversion Hin |].
  simpl. destruct (jget r' params) eqn:Hr'.
  - apply elem_of_cons in Hin as [-> | Hin]; [congruence |].
    destruct (IH Hin Hm) as (r0 & Hr0 & Hm0 & Heq).
    exists r0. split; [by right | done].
  - exists r'. split; [left | done].
Qed.

Lemma parametersValid_unknown props params k v :
  (k, v) ∈ params → mapGet k props = None →
  parametersValid overflowInt64 props params ≠ Accept.
Proof.
  induction params as [| [k' v'] params IH]; intros Hin Hm; [inversion Hin |].
  simpl. destruct (mapGet k' props) eqn:Hk'; [| done].
  apply elem_of_cons in Hin as [[= -> ->] | Hin]; [congruence |].
  rewrite andThen_Accept. intros [_ Hrest]. by apply IH.
Qed.

Lemma parametersValid_benign props params :
  propertiesValid props = None →
  benign (parametersValid overflowInt64 (Some props) params).
Proof.
  intros Hv. rewrite propertiesValid_None in Hv.
  induction params as [| [k v] params IH]; [done |].
  simpl. destruct (jget k props) as [def |] eqn:Hk; [| done].
  apply andThen_benign; [| exact IH].
  apply (validateParameterValue_benign _ _ k).
  apply Hv. by apply jget_elem_of.
Qed.

Lemma ValidateToolParameters_well_formed params schema :
  ValidateToolSchema schema = None →
  ValidateToolParameters overflowInt64 params schema =
    andThen (requiredPresent (arguments params) (Required schema))
            (parametersValid overflowInt64 (Properties schema) (arguments params)).
Proof. intros Hv. unfold ValidateToolParameters. by rewrite Hv. Qed.

(** What holds on every input: against a well-formed schema,
    [ValidateToolParameters] returns the error "required parameter '<name>'
    is missing" when a required name is absent from the arguments, and never
    accepts arguments that hold a name the schema does not declare. In the
    second case the call either returns an error or does not return at all:
    the uniqueItems scan of an argument visited earlier has panicked on an
    element that cannot be hashed. *)
Lemma ValidateToolParameters_closed_world (params : JMap) (schema : ToolSchema) :
  ValidateToolSchema schema = None →
  (∀ r, r ∈ Required schema → mapGet r params = None →
     ∃ r0, r0 ∈ Required schema ∧ mapGet r0 params = None
       ∧ ValidateToolParameters overflowInt64 params schema =
           Reject (Errorf "required parameter '%s' is missing"
                     [VString r0] None))
  ∧ (∀ k v, (k, v) ∈ arguments params →
       mapGet k (Properties schema) = None →
       ValidateToolParameters overflowInt64 params schema ≠ Accept
       ∧ ((∃ e, ValidateToolParameters overflowInt64 params schema = Reject e)
          ∨ ∃ item, hashable item = false
              ∧ ValidateToolParameters overflowInt64 params schema =
                  Panic (unhashablePanic item))).
Proof.
  intros Hwf. rewrite (ValidateToolParameters_well_formed _ _ Hwf).
  assert (Hget : ∀ r, mapGet r params = jget r (arguments params))
    by (intros r; by destruct params).
  split.
  - intros r Hin Hm. rewrite Hget in Hm.
    destruct (requiredPresent_missing _ _ _ Hin Hm) as (r0 & Hr0 & Hm0 & ->).
    exists r0. by rewrite Hget.
  - intros k v Hin Hm.
    pose proof (parametersValid_unknown _ _ _ _ Hin Hm) as Hno.
    assert (Hacc : andThen (requiredPresent (arguments params) (Required schema))
              (parametersValid overflowInt64 (Properties schema)
                 (arguments params)) ≠ Accept)
      by (rewrite andThen_Accept; tauto).
    split; [exact Hacc |].
    apply ValidateToolSchema_None in Hwf as (_ & props & Hp & _ & _ & Hv).
    rewrite Hp in *.
    pose proof (parametersValid_benign props (arguments params) Hv) as Hb.
    pose proof (requiredPresent_noPanic (arguments params) (Required schema)) as Hr.
    destruct (requiredPresent _ _); simpl in *; [| eauto | done].
    destruct (parametersValid _ _ _); simpl in *; [done | eauto |].
    right. destruct Hb as (item & Hh & ->). by exists item.
Qed.
End ArgumentFacts.

(** Scenario E of the specification, and an undeclared name. *)
Lemma ValidateToolParameters_closed_world_witness :
  ValidateToolParameters amd64Overflow (Some []) sampleSchema =
    Reject (Errorf "required parameter '%s' is missing" [VString "query"] None)
  ∧ ValidateToolParameters amd64Overflow
      (Some [("query", VString "go"); ("bogus", VBool true)]) sampleSchema
    ≠ Accept.
Proof.
  split.
  - destruct (proj1 (ValidateToolParameters_closed_world amd64Overflow
                       (Some []) sampleSchema eq_refl) "query")
      as (r0 & Hin & _ & Hr).
    + left.
    + reflexivity.
    + rewrite Hr. apply list_elem_of_singleton in Hin. by rewrite Hin.
  - apply (proj2 (ValidateToolParameters_closed_world amd64Overflow
                    (Some [("query", VString "go"); ("bogus", VBool true)])
                    sampleSchema eq_refl) "bogus" (VBool true)).
    + right. left.
    + reflexivity.
Defined.

Example conforming_arguments_accepted :
  ValidateToolParameters amd64Overflow (Some [("query", VString "go")])
    sampleSchema = Accept.
Proof. reflexivity. Qed.

(** C5: a defect of the code. The schema [schemaTags] is well-formed and
    does not declare "bogus", so the arguments {"tags": [[]], "bogus": null}
    hold an unknown name. When the map is visited with "tags" first,
    [ValidateToolParameters] does not return the error "unknown parameter
    'bogus'", nor any error: the uniqueItems scan of "tags" uses the element
    [[]] as a map key and the runtime panics before "bogus" is looked at.
    Visited in the other order, the same arguments are rejected as the
    claim says; so the order of the map decides between the error and the
    panic, on every platform. *)
Theorem unknown_argument_panics_before_rejection (overflowInt64 : float64 → Z) :
  ValidateToolSchema schemaTags = None
  ∧ mapGet "bogus" (Properties schemaTags) = None
  ∧ ValidateToolParameters overflowInt64
      (Some [("tags", VArray [VArray []]); ("bogus", VNil)]) schemaTags
    = Panic "runtime error: hash of unhashable type []interface {}"
  ∧ ValidateToolParameters overflowInt64
      (Some [("bogus", VNil); ("tags", VArray [VArray []])]) schemaTags
    = Reject (Errorf "unknown parameter '%s'" [VString "bogus"] None).
Proof. split_and!; reflexivity. Qed.

(** ** Conversions between int64 and float64 *)

Lemma fexp64 x : fexp 53 1024 x = Z.max (x - 53) (-1074).
Proof. reflexivity. Qed.

Lemma bitlen_pos p : 1 ≤ bitlen p.
Proof. unfold bitlen. lia. Qed.

Lemma bitlen_xO p : bitlen p~0 = bitlen p + 1.
Proof. unfold bitlen. simpl. lia. Qed.

Lemma bitlen_xI p : bitlen p~1 = bitlen p + 1.
Proof. unfold bitlen. simpl. lia. Qed.

Lemma bitlen_bounds p : 2 ^ (bitlen p - 1) ≤ Zpos p < 2 ^ bitlen p.
Proof.
  induction p as [p IH | p IH |].
  - rewrite bitlen_xI. replace (bitlen p + 1 - 1) with (Z.succ (bitlen p - 1)) by lia.
    pose proof (bitlen_pos p).
    rewrite Z.pow_succ_r by lia. rewrite Z.pow_add_r by lia. lia.
  - rewrite bitlen_xO. replace (bitlen p + 1 - 1) with (Z.succ (bitlen p - 1)) by lia.
    pose proof (bitlen_pos p).
    rewrite Z.pow_succ_r by lia. rewrite Z.pow_add_r by lia. lia.
  - unfold bitlen. simpl. lia.
Qed.

Lemma bitlen_unique p d : 2 ^ (d - 1) ≤ Zpos p < 2 ^ d → bitlen p = d.
Proof.
  intros [Hlo Hhi]. pose proof (bitlen_bounds p) as [Hlo' Hhi'].
  pose proof (bitlen_pos p).
  assert (0 < d).
  { destruct (Z_lt_le_dec 0 d) as [|Hd]; [done |].
    destruct (Z.eq_dec d 0) as [-> | Hne]; [simpl in Hhi; lia |].
    rewrite Z.pow_neg_r in Hhi by lia. lia. }
  destruct (Z_lt_le_dec (bitlen p) d) as [Hlt | Hge].
  - assert (2 ^ bitlen p ≤ 2 ^ (d - 1)) by (apply Z.pow_le_mono_r; lia). lia.
  - destruct (Z_lt_le_dec d (bitlen p)) as [Hlt | Hge']; [| lia].
    assert (2 ^ d ≤ 2 ^ (bitlen p - 1)) by (apply Z.pow_le_mono_r; lia). lia.
Qed.

Lemma doubled_value k p : Zpos (doubled k p) = Zpos p * 2 ^ Z.of_nat k.
Proof.
  induction k as [| k IH]; [simpl; lia |].
  change (doubled (S k) p) with (xO (doubled k p)).
  rewrite Pos2Z.inj_xO, IH, Nat2Z.inj_succ, Z.pow_succ_r by lia. lia.
Qed.

Lemma doubled_bitlen k p : bitlen (doubled k p) = bitlen p + Z.of_nat k.
Proof.
  induction k as [| k IH]; [simpl; lia |].
  change (doubled (S k) p) with (xO (doubled k p)). rewrite bitlen_xO, IH. lia.
Qed.

Lemma iter_pos_nat {A} (f : A → A) p x :
  SpecFloat.iter_pos f p x = Nat.iter (Pos.to_nat p) f x.
Proof.
  revert x. induction p as [p IH | p IH |]; intros x;
    cbn [SpecFloat.iter_pos].
  - rewrite !IH, Pos2Nat.inj_xI.
    replace (S (2 * Pos.to_nat p)) with (Pos.to_nat p + (Pos.to_nat p + 1))%nat
      by lia.
    by rewrite !Nat.iter_add.
  - rewrite !IH, Pos2Nat.inj_xO.
    replace (2 * Pos.to_nat p)%nat with (Pos.to_nat p + Pos.to_nat p)%nat by lia.
    by rewrite Nat.iter_add.
  - reflexivity.
Qed.

Lemma pos_iter_doubled p k : Pos.iter xO p k = doubled (Pos.to_nat k) p.
Proof. by rewrite Pos2Nat.inj_iter. Qed.

(** Shifting out zeros is exact. *)
Lemma shr_doubled k p :
  Nat.iter k shr_1 (Build_shr_record (Zpos (doubled k p)) false false) =
  Build_shr_record (Zpos p) false false.
Proof.
  induction k as [| k IH]; [done |].
  rewrite Nat.iter_succ_r. change (doubled (S k) p) with (xO (doubled k p)).
  simpl shr_1. exact IH.
Qed.

(** Shifting fewer times than there are bitlen leaves a positive mantissa
    with as many bitlen less. *)
Lemma shr_bitlen k p r s :
  Z.of_nat k < bitlen p →
  ∃ q r' s', Nat.iter k shr_1 (Build_shr_record (Zpos p) r s) =
             Build_shr_record (Zpos q) r' s'
             ∧ bitlen q = bitlen p - Z.of_nat k.
Proof.
  revert p r s. induction k as [| k IH]; intros p r s Hk.
  - exists p, r, s. split; [done | simpl; lia].
  - rewrite Nat.iter_succ_r.
    destruct p as [p | p |].
    + rewrite bitlen_xI in Hk. simpl shr_1.
      destruct (IH p true (r || s)) as (q & r' & s' & Hq & Hd); [lia |].
      exists q, r', s'. split; [done |]. rewrite bitlen_xI. lia.
    + rewrite bitlen_xO in Hk. simpl shr_1.
      destruct (IH p false (r || s)) as (q & r' & s' & Hq & Hd); [lia |].
      exists q, r', s'. split; [done |]. rewrite bitlen_xO. lia.
    + unfold bitlen in Hk. simpl in Hk. lia.
Qed.

Lemma shr_fexp_canonical m e l :
  fexp 53 1024 (bitlen m + e) = e →
  shr_fexp 53 1024 (Zpos m) e l = (shr_record_of_loc (Zpos m) l, e).
Proof.
  intros Hc. unfold shr_fexp.
  change (Zdigits2 (Zpos m)) with (bitlen m). by rewrite Hc, Z.sub_diag.
Qed.

Lemma shr_fexp_shift N k l :
  bitlen N = 53 + Z.of_nat k → (0 < k)%nat →
  shr_fexp 53 1024 (Zpos N) 0 l =
    (Nat.iter k shr_1 (shr_record_of_loc (Zpos N) l), Z.of_nat k).
Proof.
  intros Hd Hk. unfold shr_fexp.
  change (Zdigits2 (Zpos N)) with (bitlen N).
  rewrite Z.add_0_r, Z.sub_0_r, Hd, fexp64, Z.max_l by lia.
  replace (53 + Z.of_nat k - 53) with (Z.of_nat k) by lia.
  unfold shr. destruct (Z.of_nat k) as [| q | q] eqn:Hq; [lia | | lia].
  rewrite iter_pos_nat. replace (Pos.to_nat q) with k by lia. done.
Qed.

Lemma finite_if_bounded s m e :
  e ≤ 971 →
  (if e <=? 1024 - 53 then S754_finite s m e else S754_infinity s) =
  S754_finite s m e.
Proof.
  intros He. change (1024 - 53) with 971.
  destruct (Z.leb_spec e 971); [done | lia].
Qed.

(** A canonical mantissa passes through the rounding unchanged. *)
Lemma binary_round_aux_canonical s m e :
  fexp 53 1024 (bitlen m + e) = e → e ≤ 971 →
  binary_round_aux 53 1024 s (Zpos m) e loc_Exact = S754_finite s m e.
Proof.
  intros Hc He. unfold binary_round_aux.
  rewrite (shr_fexp_canonical _ _ _ Hc).
  cbn [shr_record_of_loc shr_m loc_of_shr_record round_nearest_even].
  rewrite (shr_fexp_canonical _ _ _ Hc).
  cbn [shr_record_of_loc shr_m]. by apply finite_if_bounded.
Qed.

Lemma shl_align_none N e : 0 ≤ e → shl_align N 0 e = (N, 0).
Proof.
  intros He. unfold shl_align. rewrite Z.sub_0_r. destruct e; [done | done | lia].
Qed.

(** An integer of at most 53 bits is represented exactly, with its
    mantissa shifted up to 53 bits. *)
Lemma binary_round_small s N :
  bitlen N ≤ 53 →
  binary_round 53 1024 s N 0 =
    S754_finite s (doubled (Z.to_nat (53 - bitlen N)) N) (bitlen N - 53).
Proof.
  intros Hd. pose proof (bitlen_pos N) as Hp.
  unfold binary_round.
  change (Zpos (digits2_pos N)) with (bitlen N).
  rewrite Z.add_0_r, fexp64, Z.max_l by lia.
  assert (Hal : shl_align N 0 (bitlen N - 53) =
                (doubled (Z.to_nat (53 - bitlen N)) N, bitlen N - 53)).
  { unfold shl_align. rewrite Z.sub_0_r.
    destruct (bitlen N - 53) as [| q | q] eqn:Hq; [| lia |].
    - replace (53 - bitlen N) with 0 by lia. done.
    - rewrite pos_iter_doubled. do 2 f_equal. lia. }
  rewrite Hal. apply binary_round_aux_canonical; [| lia].
  rewrite doubled_bitlen, fexp64, Z2Nat.id by lia. lia.
Qed.

(** A 53-bit mantissa followed by [k] zeros comes back as that mantissa
    with exponent [k]. *)
Lemma binary_round_shifted s m k :
  bitlen m = 53 → (0 < k)%nat → Z.of_nat k ≤ 971 →
  binary_round 53 1024 s (doubled k m) 0 = S754_finite s m (Z.of_nat k).
Proof.
  intros Hd Hk Hle. unfold binary_round.
  change (Zpos (digits2_pos (doubled k m))) with (bitlen (doubled k m)).
  rewrite Z.add_0_r, doubled_bitlen, Hd, fexp64, Z.max_l by lia.
  rewrite shl_align_none by lia.
  unfold binary_round_aux.
  rewrite (shr_fexp_shift _ k) by (rewrite ?doubled_bitlen; lia).
  cbn [shr_record_of_loc]. rewrite shr_doubled.
  cbn [shr_m loc_of_shr_record round_nearest_even].
  rewrite shr_fexp_canonical by (rewrite Hd, fexp64; lia).
  cbn [shr_record_of_loc shr_m]. by apply finite_if_bounded.
Qed.

(** Rounding a positive mantissa keeps it or adds one. *)
Lemma round_nearest_even_pos q l :
  round_nearest_even (Zpos q) l = Zpos q
  ∨ round_nearest_even (Zpos q) l = Zpos (q + 1).
Proof.
  destruct l as [| []]; simpl; auto. destruct q; simpl; auto.
Qed.

Lemma loc_of_shr_record_of_loc m l :
  loc_of_shr_record (shr_record_of_loc m l) = l.
Proof. by destruct l as [| []]. Qed.

(** An integer of 54 bits or more is rounded to 53 bits; the exponent is
    the number of bits dropped, or one more when the rounding carries into
    a 54th bit. *)
Lemma binary_round_large s N k :
  bitlen N = 53 + Z.of_nat k → (0 < k)%nat → Z.of_nat k ≤ 970 →
  (∃ m, binary_round 53 1024 s N 0 = S754_finite s m (Z.of_nat k))
  ∨ binary_round 53 1024 s N 0 = S754_finite s (2 ^ 52) (Z.of_nat k + 1).
Proof.
  intros Hd Hk Hle. unfold binary_round.
  change (Zpos (digits2_pos N)) with (bitlen N).
  rewrite Z.add_0_r, Hd, fexp64, Z.max_l by lia.
  rewrite shl_align_none by lia.
  unfold binary_round_aux.
  rewrite (shr_fexp_shift _ k) by lia.
  cbn [shr_record_of_loc].
  destruct (shr_bitlen k N false false) as (q & r' & s' & -> & Hq); [lia |].
  cbn [shr_m]. rewrite Hd in Hq.
  assert (Hq53 : bitlen q = 53) by lia.
  pose proof (bitlen_bounds q) as Hb. rewrite Hq53 in Hb.
  destruct (round_nearest_even_pos q
              (loc_of_shr_record {| shr_m := Zpos q; shr_r := r'; shr_s := s' |}))
    as [-> | ->].
  - left. exists q.
    rewrite shr_fexp_canonical by (rewrite Hq53, fexp64; lia).
    cbn [shr_record_of_loc shr_m]. apply finite_if_bounded. lia.
  - destruct (Z.eq_dec (Zpos (q + 1)) (2 ^ 53)) as [Heq | Hne].
    + right. assert (q + 1 = 2 ^ 53)%positive as -> by lia.
      unfold shr_fexp. change (Zdigits2 (Zpos (2 ^ 53))) with 54.
      rewrite fexp64, Z.max_l by lia.
      replace (54 + Z.of_nat k - 53 - Z.of_nat k) with 1 by lia.
      cbn [shr shr_record_of_loc SpecFloat.iter_pos].
      change (shr_m (shr_1 {| shr_m := Zpos (2 ^ 53); shr_r := false; shr_s := false |}))
        with (Zpos (2 ^ 52)).
      apply finite_if_bounded. lia.
    + left. exists (q + 1)%positive.
      assert (Hq1 : bitlen (q + 1) = 53) by (apply bitlen_unique; lia).
      rewrite shr_fexp_canonical by (rewrite Hq1, fexp64; lia).
      cbn [shr_record_of_loc shr_m]. apply finite_if_bounded. lia.
Qed.

Lemma SFeqb_finite_inv s m e s' m' e' :
  SFeqb (S754_finite s m e) (S754_finite s' m' e') = true →
  s = s' ∧ m = m' ∧ e = e'.
Proof.
  unfold SFeqb, SFcompare.
  destruct s, s'; try done;
    destruct (Z.compare_spec e e') as [-> | |]; try done;
    destruct (Pos.compare_cont Eq m m') eqn:Hm; try done;
    apply Pcompare_Eq_eq in Hm; by subst.
Qed.

Lemma SFeqb_finite_refl s m e :
  SFeqb (S754_finite s m e) (S754_finite s m e) = true.
Proof.
  unfold SFeqb, SFcompare. rewrite Z.compare_refl, Pos.compare_cont_refl.
  by destruct s.
Qed.

Lemma float64_of_int_sign s N :
  float64_of_int (cond_Zopp s (Zpos N)) = binary_round 53 1024 s N 0.
Proof. by destruct s. Qed.

(** The floats that [float64(n)] can be for an int64 [n]: never above
    [2^63] in magnitude. *)
Lemma float64_of_int_shape n :
  min_int64 ≤ n ≤ max_int64 →
  float64_of_int n = S754_zero false
  ∨ ∃ s m e, float64_of_int n = S754_finite s m e
             ∧ (e ≤ 10 ∨ (e = 11 ∧ m = (2 ^ 52)%positive)).
Proof.
  intros Hn. unfold min_int64, max_int64 in Hn.
  destruct (Z.eq_dec n 0) as [-> | Hn0]; [by left |]. right.
  assert (∃ s N, n = cond_Zopp s (Zpos N)) as (s & N & ->).
  { destruct n as [| N | N]; [done | by exists false, N | by exists true, N]. }
  rewrite float64_of_int_sign.
  assert (HN : Zpos N ≤ 2 ^ 63) by (destruct s; simpl in Hn; lia).
  pose proof (bitlen_bounds N) as [Hlo Hhi]. pose proof (bitlen_pos N) as Hp.
  assert (Hd : bitlen N ≤ 64).
  { destruct (Z_lt_le_dec 64 (bitlen N)); [| done].
    assert (2 ^ 64 ≤ 2 ^ (bitlen N - 1)) by (apply Z.pow_le_mono_r; lia). lia. }
  destruct (Z_lt_le_dec 53 (bitlen N)) as [Hbig | Hsmall].
  - destruct (Z.eq_dec (bitlen N) 64) as [H64 | H64].
    + rewrite H64 in Hlo. change (64 - 1) with 63 in Hlo.
      assert (N = (2 ^ 63)%positive) as -> by lia.
      exists s, (2 ^ 52)%positive, 11. split; [| right; done].
      destruct s; vm_compute; reflexivity.
    + destruct (binary_round_large s N (Z.to_nat (bitlen N - 53)))
        as [[m Hm] | Hm]; [lia | lia | lia | |].
      * exists s, m, (Z.of_nat (Z.to_nat (bitlen N - 53))).
        split; [done | left; lia].
      * exists s, (2 ^ 52)%positive, (Z.of_nat (Z.to_nat (bitlen N - 53)) + 1).
        split; [done |].
        destruct (Z.eq_dec (bitlen N) 63); [right; split; [lia | done] | left; lia].
  - rewrite binary_round_small by done.
    eexists s, _, _. split; [done | left; lia].
Qed.

Lemma cond_Zopp_0 s : cond_Zopp s 0 = 0.
Proof. by destruct s. Qed.

Section IntegerCheck.
Context (overflowInt64 : float64 → Z).
Hypothesis overflow_in_range :
  ∀ f, min_int64 ≤ overflowInt64 f ≤ max_int64.

Lemma integer_check_zero s :
  fne (S754_zero s) (float64_of_int (int64_of_float overflowInt64 (S754_zero s)))
  = false.
Proof. by destruct s. Qed.

Lemma integer_check_special f :
  truncate f = None →
  fne f (float64_of_int (int64_of_float overflowInt64 f)) = true.
Proof.
  intros Ht. unfold int64_of_float. rewrite Ht.
  destruct (float64_of_int_shape _ (overflow_in_range f))
    as [-> | (s & m & e & -> & _)];
    by destruct f as [| [] | |].
Qed.

Lemma valid64_finite s m e :
  valid64 (S754_finite s m e) →
  Z.max (bitlen m + e - 53) (-1074) = e ∧ e ≤ 971.
Proof.
  unfold valid64. simpl. intros Hv.
  apply andb_true_iff in Hv as [Hc He].
  unfold canonical_mantissa in Hc. apply Z.eqb_eq in Hc. apply Z.leb_le in He.
  change (Zpos (digits2_pos m)) with (bitlen m) in Hc.
  rewrite fexp64 in Hc. change (1024 - 53) with 971 in He. done.
Qed.

Lemma in_range_iff z :
  (min_int64 <=? z) && (z <=? max_int64) = true ↔ - 2 ^ 63 ≤ z ≤ 2 ^ 63 - 1.
Proof.
  unfold min_int64, max_int64. rewrite andb_true_iff, !Z.leb_le. done.
Qed.

(** Floats with a non-negative exponent. *)
Lemma integer_check_whole s m e :
  valid64 (S754_finite s m e) → S754_finite s m e ≠ two63 → 0 ≤ e →
  SFeqb (S754_finite s m e)
        (float64_of_int (int64_of_float overflowInt64 (S754_finite s m e))) =
  inInt64Range (S754_finite s m e).
Proof.
  intros [Hc He]%valid64_finite Hne Hpos.
  assert (Hd : bitlen m = 53) by lia.
  pose proof (bitlen_bounds m) as [Hlo Hhi]. rewrite Hd in Hlo, Hhi.
  unfold int64_of_float, inInt64Range. cbn [truncate].
  rewrite Z.shiftl_mul_pow2 by done.
  assert (Hpow : 0 < 2 ^ e) by (apply Z.pow_pos_nonneg; lia).
  destruct ((min_int64 <=? cond_Zopp s (Zpos m * 2 ^ e))
            && (cond_Zopp s (Zpos m * 2 ^ e) <=? max_int64)) eqn:Hr.
  - replace (Zpos m * 2 ^ e) with (Zpos (doubled (Z.to_nat e) m))
      by (rewrite doubled_value, Z2Nat.id; done).
    rewrite float64_of_int_sign.
    destruct (Z.eq_dec e 0) as [-> | He0].
    + change (doubled (Z.to_nat 0) m) with m.
      rewrite binary_round_small, Hd by lia. apply SFeqb_finite_refl.
    + rewrite binary_round_shifted, Z2Nat.id by lia.
      apply SFeqb_finite_refl.
  - destruct (float64_of_int_shape _ (overflow_in_range (S754_finite s m e)))
      as [-> | (s' & m' & e' & -> & Hshape)]; [by destruct s |].
    destruct (SFeqb (S754_finite s m e) (S754_finite s' m' e')) eqn:Heq; [| done].
    apply SFeqb_finite_inv in Heq as (<- & <- & <-).
    exfalso. apply not_true_iff_false in Hr. apply Hr, in_range_iff.
    destruct Hshape as [Hle | [-> ->]].
    + assert (2 ^ e ≤ 2 ^ 10) by (apply Z.pow_le_mono_r; lia).
      assert (Zpos m * 2 ^ e < 2 ^ 53 * 2 ^ 10) by nia.
      destruct s; simpl; lia.
    + destruct s; [simpl; lia | done].
Qed.

(** Floats with a negative exponent: the magnitude is below [2^53]. *)
Lemma integer_check_fraction s m e :
  valid64 (S754_finite s m e) → e < 0 →
  SFeqb (S754_finite s m e)
        (float64_of_int (int64_of_float overflowInt64 (S754_finite s m e))) =
  (Zpos m mod 2 ^ (- e) =? 0)
  ∧ inInt64Range (S754_finite s m e) = true.
Proof.
  intros [Hc He]%valid64_finite Hneg.
  pose proof (bitlen_bounds m) as [Hlo Hhi]. pose proof (bitlen_pos m) as Hp.
  assert (Hd : bitlen m ≤ 53) by lia.
  assert (Hm : Zpos m < 2 ^ 53).
  { assert (2 ^ bitlen m ≤ 2 ^ 53) by (apply Z.pow_le_mono_r; lia). lia. }
  assert (Hpow : 0 < 2 ^ (- e)) by (apply Z.pow_pos_nonneg; lia).
  unfold int64_of_float, inInt64Range. cbn [truncate].
  rewrite Z.shiftl_div_pow2 by lia.
  set (V := Zpos m / 2 ^ (- e)).
  assert (HV : 0 ≤ V ≤ Zpos m).
  { split; [apply Z.div_pos; lia |].
    apply Z.div_le_upper_bound; [lia |]. nia. }
  assert (Hr : (min_int64 <=? cond_Zopp s V) && (cond_Zopp s V <=? max_int64) = true).
  { apply in_range_iff. destruct s; simpl; lia. }
  rewrite Hr. split; [| done].
  pose proof (Z.div_mod (Zpos m) (2 ^ (- e)) ltac:(lia)) as Hdm. fold V in Hdm.
  pose proof (Z.mod_pos_bound (Zpos m) (2 ^ (- e)) Hpow) as Hmod.
  destruct (Z.eq_dec V 0) as [HV0 | HV0].
  - rewrite HV0, cond_Zopp_0.
    destruct (Z.eqb_spec (Zpos m mod 2 ^ (- e)) 0) as [H0 | H0]; [lia |].
    by destruct s.
  - assert (∃ N, V = Zpos N) as [N HN] by (exists (Z.to_pos V); lia).
    rewrite HN, float64_of_int_sign.
    pose proof (bitlen_bounds N) as [HNlo HNhi]. pose proof (bitlen_pos N) as HNp.
    assert (HdN : bitlen N ≤ 53).
    { destruct (Z_lt_le_dec 53 (bitlen N)); [| done].
      assert (2 ^ 53 ≤ 2 ^ (bitlen N - 1)) by (apply Z.pow_le_mono_r; lia). lia. }
    rewrite binary_round_small by done.
    destruct (Z.eqb_spec (Zpos m mod 2 ^ (- e)) 0) as [H0 | H0].
    + assert (Heq : m = doubled (Z.to_nat (- e)) N).
      { apply Pos2Z.inj. rewrite doubled_value, Z2Nat.id by lia. lia. }
      assert (Hdig : bitlen m = bitlen N + - e)
        by (rewrite Heq, doubled_bitlen, Z2Nat.id; lia).
      replace (53 - bitlen N) with (- e) by lia.
      replace (bitlen N - 53) with e by lia.
      rewrite <- Heq. apply SFeqb_finite_refl.
    + destruct (SFeqb _ _) eqn:Heq; [| done].
      apply SFeqb_finite_inv in Heq as (_ & Hmm & Hee).
      exfalso. apply H0.
      replace (- e) with (53 - bitlen N) by lia.
      rewrite Hmm, doubled_value, Z2Nat.id by lia.
      apply Z.mod_mul. lia.
Qed.
End IntegerCheck.

(** ** Integer arguments *)

Lemma SFcompare_antisym a b :
  SFcompare b a = CompOpp <$> SFcompare a b.
Proof.
  destruct a as [sa | sa | | sa ma ea], b as [sb | sb | | sb mb eb];
    simpl; try done; try (by destruct sa); try (by destruct sb);
    try (by destruct sa, sb).
  destruct sa, sb; try done; simpl; f_equal;
    rewrite (Z.compare_antisym ea eb);
    destruct (ea ?= eb); simpl; try done;
    rewrite (Pos.compare_cont_antisym ma mb Eq); simpl;
    by destruct (Pos.compare_cont Eq ma mb).
Qed.

Lemma SFcompare_notNaN a b :
  isNaN a = false → isNaN b = false → is_Some (SFcompare a b).
Proof.
  destruct a as [| | | sa ma ea], b as [| | | sb mb eb]; simpl; eauto; done.
Qed.

(** [v < lo] fails exactly when [lo <= v], for numbers. *)
Lemma flt_false_iff v lo :
  isNaN v = false → isNaN lo = false →
  flt v lo = false ↔ SFleb lo v = true.
Proof.
  intros Hv Hlo. unfold flt, SFltb, SFleb. rewrite (SFcompare_antisym v lo).
  destruct (SFcompare_notNaN v lo Hv Hlo) as [c ->]. by destruct c.
Qed.

(** [v > hi] fails exactly when [v <= hi], for numbers. *)
Lemma fgt_false_iff v hi :
  isNaN v = false → isNaN hi = false →
  fgt v hi = false ↔ SFleb v hi = true.
Proof.
  intros Hv Hhi. unfold fgt, SFleb.
  destruct (SFcompare_notNaN v hi Hv Hhi) as [c ->]. by destruct c.
Qed.

Lemma SFleb_refl v : isNaN v = false → SFleb v v = true.
Proof.
  destruct v as [| s | | s m e]; try done; [by destruct s |].
  intros _. unfold SFleb, SFcompare.
  rewrite Z.compare_refl, Pos.compare_cont_refl. by destruct s.
Qed.

Lemma validateNumberValue_Accept name v pm lo hi :
  jget "minimum" pm = Some (VFloat lo) →
  jget "maximum" pm = Some (VFloat hi) →
  validateNumberValue name v pm = Accept ↔ flt v lo = false ∧ fgt v hi = false.
Proof.
  intros Hlo Hhi. unfold validateNumberValue. rewrite Hlo, Hhi.
  destruct (flt v lo), (fgt v hi); simpl; intuition congruence.
Qed.

Lemma validateNumberValue_unbounded name v pm :
  jget "minimum" pm = None → jget "maximum" pm = None →
  validateNumberValue name v pm = Accept.
Proof. intros Hlo Hhi. unfold validateNumberValue. by rewrite Hlo, Hhi. Qed.

Lemma amd64Overflow_in_range f : min_int64 ≤ amd64Overflow f ≤ max_int64.
Proof. unfold amd64Overflow, min_int64, max_int64. lia. Qed.

Lemma arm64Overflow_in_range f : min_int64 ≤ arm64Overflow f ≤ max_int64.
Proof.
  unfold arm64Overflow, min_int64, max_int64.
  destruct f as [| [] | | [] ? ?]; lia.
Qed.

Section IntegerArguments.
Context (overflowInt64 : float64 → Z).
Hypothesis overflow_in_range :
  ∀ f, min_int64 ≤ overflowInt64 f ≤ max_int64.

(** The test [floatVal != float64(int64(floatVal))] on the floats of the
    format, [2^63] apart. *)
Lemma integer_check_iff f :
  valid64 f → f ≠ two63 →
  fne f (float64_of_int (int64_of_float overflowInt64 f)) =
  negb (integral f && inInt64Range f).
Proof.
  intros Hv Hne. destruct f as [s | s | | s m e].
  - by rewrite integer_check_zero.
  - by rewrite integer_check_special.
  - by rewrite integer_check_special.
  - unfold fne. f_equal. destruct (Z_lt_le_dec e 0) as [Hneg | Hpos].
    + destruct (integer_check_fraction overflowInt64 s m e Hv Hneg) as [-> ->].
      unfold integral. destruct (Z.leb_spec 0 e); [lia |].
      simpl. by rewrite andb_true_r.
    + rewrite (integer_check_whole overflowInt64 overflow_in_range s m e Hv Hne Hpos).
      unfold integral. destruct (Z.leb_spec 0 e); [done | lia].
Qed.

(** C8 (as the code has it): for a property of kind "integer", an int
    value always passes the type check; a float of the binary64 format
    passes it if and only if it has no fractional part and its value lies
    in the int64 range (NaN, the infinities and the whole floats beyond
    the range are rejected; [2^63] itself is left to the platform); the
    value that passed is then checked against minimum and maximum, both
    inclusive. *)
Theorem integer_argument_check (name : string) (pm : list (string * Value)) :
  jget "type" pm = Some (VString "integer") →
  (∀ n, validateParameterValue overflowInt64 name (VInt n) (VObject pm) =
        validateNumberValue name (float64_of_int n) pm)
  ∧ (∀ f, valid64 f → f ≠ two63 →
       validateParameterValue overflowInt64 name (VFloat f) (VObject pm) =
         if integral f && inInt64Range f
         then validateNumberValue name f pm
         else Reject (Errorf "parameter '%s' must be an integer, got %f"
                        [VString name; VFloat f] None))
  ∧ (∀ v lo hi,
       jget "minimum" pm = Some (VFloat lo) →
       jget "maximum" pm = Some (VFloat hi) →
       isNaN v = false → isNaN lo = false → isNaN hi = false →
       (validateNumberValue name v pm = Accept ↔
        SFleb lo v = true ∧ SFleb v hi = true)
       ∧ SFleb v v = true).
Proof.
  intros Ht. split; [| split].
  - intros n. simpl. by rewrite Ht.
  - intros f Hv Hne. simpl. rewrite Ht. simpl.
    rewrite (integer_check_iff f Hv Hne).
    by destruct (integral f && inInt64Range f).
  - intros v lo hi Hlo Hhi Hnv Hnlo Hnhi.
    split; [| by apply SFleb_refl].
    rewrite (validateNumberValue_Accept name v pm lo hi Hlo Hhi).
    by rewrite flt_false_iff, fgt_false_iff.
Qed.
End IntegerArguments.

(** C8 as stated fails: [2^64] has no fractional part and the integer check
    rejects it, whatever the platform does with the conversion. *)
Lemma whole_float_beyond_int64_rejected :
  valid64 two64
  ∧ integral two64 = true
  ∧ validateParameterValue amd64Overflow "limit" (VFloat two64)
      (VObject [("type", VString "integer")]) =
    Reject (Errorf "parameter '%s' must be an integer, got %f"
              [VString "limit"; VFloat two64] None)
  ∧ validateParameterValue arm64Overflow "limit" (VFloat two64)
      (VObject [("type", VString "integer")]) =
    Reject (Errorf "parameter '%s' must be an integer, got %f"
              [VString "limit"; VFloat two64] None).
Proof. repeat split; vm_compute; reflexivity. Qed.

Lemma integer_argument_witness :
  validateParameterValue amd64Overflow "limit" (VInt 7) (VObject integerProperty)
    = Accept
  ∧ validateParameterValue amd64Overflow "limit" (f64 50) (VObject integerProperty)
    = Accept
  ∧ validateParameterValue amd64Overflow "limit" (VFloat two64)
      (VObject integerProperty)
    = Reject (Errorf "parameter '%s' must be an integer, got %f"
                [VString "limit"; VFloat two64] None).
Proof.
  destruct (integer_argument_check amd64Overflow amd64Overflow_in_range
              "limit" integerProperty eq_refl) as (Hint & Hfloat & Hbounds).
  split; [| split].
  - rewrite Hint. vm_compute. reflexivity.
  - unfold f64. rewrite Hfloat; [| vm_compute; reflexivity | discriminate].
    replace (integral (float64_of_int 50) && inInt64Range (float64_of_int 50))
      with true by (vm_compute; reflexivity).
    apply (Hbounds (float64_of_int 50) (float64_of_int 1) (float64_of_int 50));
      vm_compute; auto.
  - rewrite Hfloat; [reflexivity | vm_compute; reflexivity | discriminate].
Defined.

(** * Further properties of the dispatcher *)

Lemma replyTo_error m code msg data :
  replyTo m (NewErrorResponse (ID m) code msg data).
Proof. repeat split; simpl; congruence. Qed.

Lemma replyTo_success m payload :
  payload ≠ PNone → replyTo m (NewSuccessResponse (ID m) payload).
Proof. intros Hp. repeat split; simpl; congruence. Qed.

Lemma replyTo_IsResponse m r :
  IsRequest m = true → replyTo m r → IsResponse r = true.
Proof.
  intros Hr (Hid & Hmeth & _). unfold IsRequest in Hr. unfold IsResponse.
  rewrite Hid, Hmeth. apply andb_true_iff in Hr as [_ ->]. done.
Qed.

Section DispatcherCoverage.
Context (codec : JSONCodec).

Lemma handleRequest_replies (h : BaseHandler) (m : Message) :
  ∃ r, handleRequest codec h m = (Some r, None) ∧ replyTo m r.
Proof.
  unfold handleRequest, ListTools, ListResources, ListPrompts.
  repeat case_match; simplify_eq;
    eexists; (split; [reflexivity |]);
    first [apply replyTo_error | by apply replyTo_success].
Qed.

(** X1: every request, whatever its method and whatever the session state,
    is answered by exactly one message and no Go error; the answer echoes
    the id, is itself classified as a response, carries an error object or
    a result but never both nor neither, and the handler (tables and
    session flag) is left exactly as it was. *)
Theorem request_gets_one_reply (h : BaseHandler) (m : Message) :
  IsRequest m = true →
  ∃ r, HandleMessage codec h (Some m) = (h, (Some r, None))
       ∧ replyTo m r ∧ IsResponse r = true.
Proof.
  intros Hr. rewrite (HandleMessage_request codec h m Hr).
  destruct (handleRequest_replies h m) as (r & -> & Hreply).
  exists r. split; [done |]. split; [done |].
  by apply (replyTo_IsResponse m).
Qed.

(** X2: a message that is neither a request nor a notification (a response
    shape, or one with neither method nor id) is answered with the
    invalid-request code -32600 under its own id, and the nil message with
    the same code under a nil id; the handler is unchanged. *)
Theorem malformed_message_invalid_request (h : BaseHandler) :
  HandleMessage codec h None =
    (h, (Some (NewErrorResponse VNil InvalidRequest "message cannot be nil"
                 VNil), None))
  ∧ ∀ m, Method m = "" →
      HandleMessage codec h (Some m) =
        (h, (Some (NewErrorResponse (ID m) InvalidRequest
                     "invalid message format" VNil), None))
      ∧ InvalidRequest = -32600.
Proof.
  split; [reflexivity |]. intros m Hm. split; [| reflexivity].
  simpl. unfold IsRequest, IsNotification. by rewrite Hm.
Qed.

(** X3: a request whose method is not one of the seven known methods is
    answered with the method-not-found code -32601 and a message naming the
    method. *)
Theorem unknown_method_not_found (h : BaseHandler) (m : Message) :
  IsRequest m = true →
  Method m ∉ requestMethods →
  HandleMessage codec h (Some m) =
    (h, (Some (NewErrorResponse (ID m) MethodNotFound
                 ("method '" +:+ Method m +:+ "' not found") VNil), None))
  ∧ MethodNotFound = -32601.
Proof.
  intros Hr Hnot. split; [| reflexivity].
  rewrite (HandleMessage_request codec h m Hr). f_equal.
  unfold handleRequest.
  assert (Hne : ∀ k, k ∈ requestMethods → String.eqb (Method m) k = false).
  { intros k Hk. apply String.eqb_neq. intros Heq. apply Hnot. by rewrite Heq. }
  unfold requestMethods in Hne.
  rewrite !Hne by (repeat first [by left | right]). done.
Qed.
(** X4: an initialize request whose protocol version is the supported one
    is answered with that version and the handler's own capabilities and
    server info; any other version is answered with the internal-error code
    -32603 (not the invalid-version code) and the text "unsupported
    protocol version: <v>"; in both cases the session flag is not touched,
    so initialize alone never makes the session Ready. *)
Theorem initialize_reply (h : BaseHandler) (m : Message) (p : InitializeParams) :
  IsRequest m = true →
  Method m = "initialize" →
  UnmarshalParams (decodeInitializeParams codec) m = inr p →
  HandleMessage codec h (Some m) =
    (h, (Some (if String.eqb (ProtocolVersion p) MCPVersion
               then NewSuccessResponse (ID m)
                      (PInitialize (Some {| ResProtocolVersion := MCPVersion;
                                            ResCapabilities := capabilities h;
                                            ResServerInfo := serverInfo h;
                                            Instructions := "" |}))
               else NewErrorResponse (ID m) InternalError "initialization failed"
                      (VString ("unsupported protocol version: "
                                +:+ ProtocolVersion p))), None))
  ∧ initialized (HandleMessage codec h (Some m)).1 = initialized h
  ∧ InternalError ≠ InvalidMCPVersion.
Proof.
  intros Hr Hm Hp.
  assert (Heq : HandleMessage codec h (Some m) = (h, handleRequest codec h m))
    by apply (HandleMessage_request codec h m Hr).
  split; [| split; [by rewrite Heq | done]].
  rewrite Heq. f_equal. unfold handleRequest. rewrite Hm. simpl.
  rewrite Hp. unfold Initialize.
  by destruct (String.eqb (ProtocolVersion p) MCPVersion).
Qed.

(** X5: the parameters of a tools/call request are decoded before anything
    else is looked at: when decoding fails the answer is the invalid-params
    code -32602 with the decoder's text, whether or not the session is
    Ready and whatever the tool table holds; absent parameters are such a
    failure for every decoder. *)
Theorem tools_call_bad_params (h : BaseHandler) (m : Message) :
  IsRequest m = true →
  Method m = "tools/call" →
  (∀ err, UnmarshalParams (decodeCallToolParams codec) m = inl err →
     HandleMessage codec h (Some m) =
       (h, (Some (NewErrorResponse (ID m) InvalidParams
                    "invalid tool call params" (VString err)), None)))
  ∧ (Params m = VNil →
     HandleMessage codec h (Some m) =
       (h, (Some (NewErrorResponse (ID m) InvalidParams
                    "invalid tool call params"
                    (VString "no params to unmarshal")), None)))
  ∧ InvalidParams = -32602.
Proof.
  intros Hr Hm.
  assert (Hbad : ∀ err, UnmarshalParams (decodeCallToolParams codec) m = inl err →
     HandleMessage codec h (Some m) =
       (h, (Some (NewErrorResponse (ID m) InvalidParams
                    "invalid tool call params" (VString err)), None))).
  { intros err He.
    by rewrite (HandleMessage_request codec h m Hr),
               (handleRequest_tools_call codec h m Hm), He. }
  split; [exact Hbad |]. split; [| reflexivity].
  intros Hnil. apply Hbad. unfold UnmarshalParams. by rewrite Hnil.
Qed.

(** X6: tools/list is not gated by the handshake: in every session state
    the answer is a success response listing one definition per registered
    tool, the definition of every registered handler among them. *)
Theorem tools_list_any_state (h : BaseHandler) (m : Message) :
  IsRequest m = true →
  Method m = "tools/list" →
  ∃ l, HandleMessage codec h (Some m) =
         (h, (Some (NewSuccessResponse (ID m) (PToolList l)), None))
       ∧ length l = size (tools h)
       ∧ ∀ name th, tools h !! name = Some th → ToolDefinition th ∈ l.
Proof.
  intros Hr Hm. exists (ListTools h).1.
  split; [| split].
  - rewrite (HandleMessage_request codec h m Hr). f_equal.
    unfold handleRequest. by rewrite Hm.
  - unfold ListTools. simpl. by rewrite length_fmap, length_map_to_list.
  - intros name th Hth. unfold ListTools. simpl.
    apply list_elem_of_fmap. exists (name, th).
    split; [done |]. by apply elem_of_map_to_list.
Qed.

(** X7: resources/read is gated like tools/call and reports a missing URI
    the same way; but a fault of the resource's read operation is passed on
    as an error response (code -32603, "resource read failed"), where a
    tool's fault is wrapped into a success response; a successful read is
    passed on unchanged. *)
Theorem resources_read_reply
    (h : BaseHandler) (m : Message) (p : ReadResourceParams) :
  IsRequest m = true →
  Method m = "resources/read" →
  UnmarshalParams (decodeReadResourceParams codec) m = inr p →
  let failed text :=
    (h, (Some (NewErrorResponse (ID m) InternalError "resource read failed"
                 (VString text)), None)) in
  (initialized h = false →
     HandleMessage codec h (Some m) = failed "handler not initialized")
  ∧ (initialized h = true → resources h !! ReadURI p = None →
     HandleMessage codec h (Some m) =
       failed ("resource '" +:+ ReadURI p +:+ "' not found"))
  ∧ (∀ rh res fault,
       initialized h = true → resources h !! ReadURI p = Some rh →
       Read rh (ReadURI p) = (res, Some fault) →
       HandleMessage codec h (Some m) = failed fault)
  ∧ (∀ rh res,
       initialized h = true → resources h !! ReadURI p = Some rh →
       Read rh (ReadURI p) = (res, None) →
       HandleMessage codec h (Some m) =
         (h, (Some (NewSuccessResponse (ID m) (PReadResource res)), None))).
Proof.
  intros Hr Hm Hp failed.
  assert (Heq : HandleMessage codec h (Some m) =
      (h, match ReadResource h p with
          | (_, Some err) =>
              (Some (NewErrorResponse (ID m) InternalError
                       "resource read failed" (VString err)), None)
          | (result, None) =>
              (Some (NewSuccessResponse (ID m) (PReadResource result)), None)
          end)).
  { rewrite (HandleMessage_request codec h m Hr). f_equal.
    unfold handleRequest. rewrite Hm. simpl. by rewrite Hp. }
  rewrite Heq. unfold failed, ReadResource.
  repeat split.
  - by intros ->.
  - by intros -> ->.
  - by intros rh res fault -> -> ->.
  - by intros rh res -> -> ->.
Qed.

(** X8: prompts/get behaves like resources/read: gated by the handshake,
    a missing name and a fault of the generate operation both come back as
    error responses with code -32603 and message "prompt get failed", a
    generated prompt is passed on unchanged. *)
Theorem prompts_get_reply
    (h : BaseHandler) (m : Message) (p : GetPromptParams) :
  IsRequest m = true →
  Method m = "prompts/get" →
  UnmarshalParams (decodeGetPromptParams codec) m = inr p →
  let failed text :=
    (h, (Some (NewErrorResponse (ID m) InternalError "prompt get failed"
                 (VString text)), None)) in
  (initialized h = false →
     HandleMessage codec h (Some m) = failed "handler not initialized")
  ∧ (initialized h = true → prompts h !! GetName p = None →
     HandleMessage codec h (Some m) =
       failed ("prompt '" +:+ GetName p +:+ "' not found"))
  ∧ (∀ ph res fault,
       initialized h = true → prompts h !! GetName p = Some ph →
       Generate ph (GetArguments p) = (res, Some fault) →
       HandleMessage codec h (Some m) = failed fault)
  ∧ (∀ ph res,
       initialized h = true → prompts h !! GetName p = Some ph →
       Generate ph (GetArguments p) = (res, None) →
       HandleMessage codec h (Some m) =
         (h, (Some (NewSuccessResponse (ID m) (PGetPrompt res)), None))).
Proof.
  intros Hr Hm Hp failed.
  assert (Heq : HandleMessage codec h (Some m) =
      (h, match GetPrompt h p with
          | (_, Some err) =>
              (Some (NewErrorResponse (ID m) InternalError
                       "prompt get failed" (VString err)), None)
          | (result, None) =>
              (Some (NewSuccessResponse (ID m) (PGetPrompt result)), None)
          end)).
  { rewrite (HandleMessage_request codec h m Hr). f_equal.
    unfold handleRequest. rewrite Hm. simpl. by rewrite Hp. }
  rewrite Heq. unfold failed, GetPrompt.
  repeat split.
  - by intros ->.
  - by intros -> ->.
  - by intros ph res fault -> -> ->.
  - by intros ph res -> -> ->.
Qed.

Lemma HandleMessage_keeps_tables h om :
  let h' := (HandleMessage codec h om).1 in
  tools h' = tools h ∧ resources h' = resources h ∧ prompts h' = prompts h
  ∧ serverInfo h' = serverInfo h ∧ capabilities h' = capabilities h.
Proof.
  destruct om as [m |]; simpl; [| done].
  destruct (IsRequest m); [done |].
  destruct (IsNotification m); [| done].
  unfold handleNotification.
  destruct (String.eqb (Method m) "initialized"); [done |].
  by destruct (String.eqb (Method m) "notifications/cancelled").
Qed.

(** X9: over any sequence of messages the session flag is never lowered,
    and it is raised by the [initialized] notification only: after the
    sequence the session is Ready exactly when it was Ready before or the
    sequence holds that notification.  The tables, the server info and the
    capabilities are what they were. *)
Theorem session_flag_after (ms : list Message) (h : BaseHandler) :
  let h' := (handleAll codec h ms).1 in
  initialized h' = initialized h || existsb isInitializedNote ms
  ∧ tools h' = tools h ∧ resources h' = resources h ∧ prompts h' = prompts h
  ∧ serverInfo h' = serverInfo h ∧ capabilities h' = capabilities h.
Proof.
  revert h. induction ms as [| m ms IH]; intros h.
  - simpl. by rewrite orb_false_r.
  - cbn [handleAll existsb].
    pose proof (HandleMessage_initialized codec h m) as Hi.
    pose proof (HandleMessage_keeps_tables h (Some m)) as Hk.
    destruct (HandleMessage codec h (Some m)) as [h1 [resp e]].
    specialize (IH h1). destruct (handleAll codec h1 ms) as [h2 out].
    simpl in *. destruct IH as (-> & -> & -> & -> & -> & ->).
    destruct Hk as (-> & -> & -> & -> & ->). rewrite Hi.
    unfold isInitializedNote. by rewrite orb_assoc.
Qed.

(** X10: over any sequence of messages the dispatcher emits exactly one
    message for each message that is not a notification, and none for the
    notifications. *)
Theorem one_response_per_non_notification (ms : list Message) (h : BaseHandler) :
  length (handleAll codec h ms).2 =
  length (filter (λ m, IsNotification m = false) ms).
Proof.
  revert h. induction ms as [| m ms IH]; intros h; [done |].
  cbn [handleAll].
  destruct (IsNotification m) eqn:Hn.
  - rewrite filter_cons_False by congruence.
    pose proof (HandleMessage_notification codec h m Hn) as Heq.
    pose proof (handleNotification_silent h m) as Hs.
    destruct (HandleMessage codec h (Some m)) as [h1 [resp e]].
    rewrite <- Heq in Hs. simpl in Hs. injection Hs as -> ->.
    specialize (IH h1). by destruct (handleAll codec h1 ms).
  - rewrite filter_cons_True by done.
    assert (Hone : ∃ r, (HandleMessage codec h (Some m)).2 = (Some r, None)).
    { simpl. rewrite Hn. destruct (IsRequest m) eqn:Hr; [| eauto].
      destruct (handleRequest_replies h m) as (r & Heq & _). eauto. }
    destruct Hone as [r Hone].
    destruct (HandleMessage codec h (Some m)) as [h1 [resp e]].
    simpl in Hone. injection Hone as -> ->.
    specialize (IH h1). destruct (handleAll codec h1 ms). simpl in *. lia.
Qed.
End DispatcherCoverage.

(** * Further properties of the registries *)

Section RegistryCoverage.
Context {H : Type} (kind : string) (declaredName : H → option string).

(** X11: registering a handler under a non-empty name the registry does not
    hold succeeds; afterwards the name is looked up to that very handler,
    the count has grown by one and every other name is looked up as
    before. *)
Theorem Register_fresh_name (r : Registry H) (handler : H) (name : string) :
  declaredName handler = Some name → name ≠ "" → entries r !! name = None →
  let r' := (Register kind declaredName r handler).1 in
  (Register kind declaredName r handler).2 = None
  ∧ Get kind r' name = (Some handler, None)
  ∧ Has r' name = true
  ∧ Count r' = S (Count r)
  ∧ ∀ other, other ≠ name → Get kind r' other = Get kind r other.
Proof.
  intros Hd Hne Hfree. rewrite (Register_fresh kind declaredName r handler name Hd Hne Hfree).
  simpl. unfold Get, Has, Count. simpl. rewrite lookup_insert_eq.
  split; [done |]. split; [done |].
  split; [apply bool_decide_eq_true; eauto |].
  split; [by apply map_size_insert_None |].
  intros other Hother. by rewrite lookup_insert_ne.
Qed.

(** X12: unregistering a name the registry does not hold returns an error
    and changes nothing; unregistering a name it holds succeeds, after
    which the lookup of that name fails with "not found", the count has
    dropped by one, the other names are looked up as before, and a handler
    declaring the name can be registered again. *)
Theorem Unregister_behaviour (r : Registry H) (name : string) :
  (entries r !! name = None →
     Unregister kind r name =
       (r, Some (kind +:+ " '" +:+ name +:+ "' is not registered")))
  ∧ (is_Some (entries r !! name) →
     let r' := (Unregister kind r name).1 in
     (Unregister kind r name).2 = None
     ∧ Get kind r' name =
         (None, Some (kind +:+ " '" +:+ name +:+ "' not found"))
     ∧ Has r' name = false
     ∧ S (Count r') = Count r
     ∧ (∀ other, other ≠ name → Get kind r' other = Get kind r other)
     ∧ ∀ handler, declaredName handler = Some name → name ≠ "" →
         Register kind declaredName r' handler =
           ({| entries := <[name := handler]> (entries r') |}, None)).
Proof.
  split.
  - intros Hnone. unfold Unregister. by rewrite Hnone.
  - intros [old Hold]. unfold Unregister. rewrite Hold. simpl.
    unfold Get, Has, Count. simpl. rewrite lookup_delete_eq.
    split; [done |]. split; [done |].
    split; [| split; [| split]].
    + apply bool_decide_eq_false. by intros [? ?].
    + pose proof (map_size_delete name (entries r)) as Hsz.
      rewrite Hold in Hsz.
      assert (size (entries r) ≠ 0%nat).
      { intros Hz. apply map_size_empty_iff in Hz. rewrite Hz in Hold. done. }
      lia.
    + intros other Hother. by rewrite lookup_delete_ne.
    + intros handler Hd Hne. apply Register_fresh; [done | done |].
      simpl. apply lookup_delete_eq.
Qed.

(** X13: the queries of a registry agree with one another: there are as
    many names as the count says, a name is listed exactly when the
    membership test holds, the membership test holds exactly when the
    lookup succeeds, and after clearing nothing is held. *)
Theorem registry_queries_agree (r : Registry H) (name : string) :
  length (GetNames r) = Count r
  ∧ (name ∈ GetNames r ↔ Has r name = true)
  ∧ (Has r name = true ↔ ∃ handler, Get kind r name = (Some handler, None))
  ∧ (Has r name = false ↔ (Get kind r name).1 = None)
  ∧ Count (Clear r) = 0%nat ∧ Has (Clear r) name = false.
Proof.
  unfold GetNames, Count, Has, Get, Clear. simpl.
  split; [by rewrite length_fmap, length_map_to_list |].
  split.
  { rewrite bool_decide_eq_true. rewrite list_elem_of_fmap. split.
    - intros ([k v] & -> & Hin). apply elem_of_map_to_list in Hin. eauto.
    - intros [v Hv]. exists (name, v). split; [done |].
      by apply elem_of_map_to_list. }
  split.
  { rewrite bool_decide_eq_true.
    destruct (entries r !! name) as [v |]; split; eauto;
      intros [? ?]; done. }
  split.
  { rewrite bool_decide_eq_false.
    destruct (entries r !! name) as [v |]; simpl; split; try done.
    intros Hn. destruct Hn. eauto. }
  split; [apply map_size_empty |].
  apply bool_decide_eq_false. rewrite lookup_empty. by intros [? ?].
Qed.

Lemma applyOp_keyedByName (r : Registry H) (op : RegistryOp H) :
  keyedByName declaredName r →
  keyedByName declaredName (applyOp kind declaredName r op).
Proof.
  intros Hinv. destruct op as [handler | name |]; simpl.
  - by apply Register_keyedByName.
  - unfold Unregister. destruct (entries r !! name); [| done].
    intros k h0. simpl. rewrite lookup_delete. case_decide; [done | apply Hinv].
  - intros k h0. simpl. by rewrite lookup_empty.
Qed.

(** X14: in a registry built from the empty one by any sequence of
    register, unregister and clear operations, a handler is found only
    under the name it declares, and that name is not empty. *)
Theorem handlers_found_under_declared_name
    (ops : list (RegistryOp H)) (name : string) (handler : H) :
  Get kind (applyOps kind declaredName NewRegistry ops) name = (Some handler, None) →
  declaredName handler = Some name ∧ name ≠ "".
Proof.
  assert (Hinv : keyedByName declaredName (applyOps kind declaredName NewRegistry ops)).
  { unfold applyOps.
    assert (Hgen : ∀ r, keyedByName declaredName r →
              keyedByName declaredName (foldl (applyOp kind declaredName) r ops)).
    { induction ops as [| op ops IH]; intros r Hr; [done |].
      simpl. apply IH. by apply applyOp_keyedByName. }
    apply Hgen. intros k h0. simpl. by rewrite lookup_empty. }
  unfold Get.
  destruct (entries (applyOps kind declaredName NewRegistry ops) !! name)
    as [h0 |] eqn:Hl; [| done].
  intros [= <-]. by apply Hinv.
Qed.
End RegistryCoverage.

(** * Further properties of the start-up code *)

Lemma RegisterToolHandler_fresh r th name :
  toolName th = Some name → name ≠ "" → entries r !! name = None →
  RegisterToolHandler r th = ({| entries := <[name := th]> (entries r) |}, None).
Proof. apply Register_fresh. Qed.

Lemma RegisterToolHandler_taken r th name :
  toolName th = Some name → name ≠ "" → is_Some (entries r !! name) →
  RegisterToolHandler r th =
    (r, Some ("tool '" +:+ name +:+ "' is already registered")).
Proof.
  intros Hd Hne [old Hold]. unfold RegisterToolHandler, Register.
  rewrite Hd. apply nonEmpty_true in Hne. by rewrite Hne, Hold.
Qed.

Lemma RegisterTool_named h th name :
  toolName th = Some name → name ≠ "" →
  RegisterTool h th = (set_tools h (<[name := th]> (tools h)), None).
Proof.
  unfold toolName, RegisterTool. destruct (ToolDefinition th) as [t |]; [| done].
  simpl. intros [= <-] Hne. apply nonEmpty_true in Hne. by rewrite Hne.
Qed.

(** X15: [RegisterDefaultTools] on a registry that holds none of the four
    example names registers all four and adds four to the count, leaving
    the other names alone; a second call then fails on the first tool with
    "failed to register calculator tool: tool 'calculator' is already
    registered".  The call is not atomic: when only a later name is taken,
    the tools before it stay registered although an error is returned. *)
Theorem RegisterDefaultTools_behaviour (ts : ExampleTools) (r : Registry ToolHandler) :
  declaresExampleNames ts →
  ((∀ n, n ∈ exampleNames → entries r !! n = None) →
     ∃ r', RegisterDefaultTools ts r = (r', None)
       ∧ Count r' = (Count r + 4)%nat
       ∧ entries r' !! "calculator" = Some (calculator ts)
       ∧ entries r' !! "web_search" = Some (webSearch ts)
       ∧ entries r' !! "document_analyzer" = Some (documentAnalyzer ts)
       ∧ entries r' !! "knowledge_graph" = Some (knowledgeGraph ts)
       ∧ (∀ other, other ∉ exampleNames → entries r' !! other = entries r !! other)
       ∧ RegisterDefaultTools ts r' =
           (r', Some ("failed to register calculator tool: "
                      +:+ "tool 'calculator' is already registered")))
  ∧ (entries r !! "calculator" = None → is_Some (entries r !! "web_search") →
     ∃ r', RegisterDefaultTools ts r =
             (r', Some ("failed to register web search tool: "
                        +:+ "tool 'web_search' is already registered"))
       ∧ entries r' !! "calculator" = Some (calculator ts)
       ∧ Count r' = S (Count r)).
Proof.
  intros (Hc & Hw & Hd & Hk). split.
  - intros Hfree.
    assert (H1 : entries r !! "calculator" = None)
      by (apply Hfree; unfold exampleNames; set_solver).
    assert (H2 : entries r !! "web_search" = None)
      by (apply Hfree; unfold exampleNames; set_solver).
    assert (H3 : entries r !! "document_analyzer" = None)
      by (apply Hfree; unfold exampleNames; set_solver).
    assert (H4 : entries r !! "knowledge_graph" = None)
      by (apply Hfree; unfold exampleNames; set_solver).
    unfold RegisterDefaultTools.
    rewrite (RegisterToolHandler_fresh r _ _ Hc) by done.
    rewrite (RegisterToolHandler_fresh _ _ _ Hw)
      by (try done; simpl; by rewrite ?lookup_insert_ne by done).
    rewrite (RegisterToolHandler_fresh _ _ _ Hd)
      by (try done; simpl; by rewrite ?lookup_insert_ne by done).
    rewrite (RegisterToolHandler_fresh _ _ _ Hk)
      by (try done; simpl; by rewrite ?lookup_insert_ne by done).
    eexists. split; [reflexivity |]. unfold Count. simpl.
    split.
    { rewrite !map_size_insert_None; [lia | ..];
        by rewrite ?lookup_insert_ne by done. }
    split; [by rewrite ?lookup_insert_ne, lookup_insert_eq by done |].
    split; [by rewrite ?lookup_insert_ne, lookup_insert_eq by done |].
    split; [by rewrite ?lookup_insert_ne, lookup_insert_eq by done |].
    split; [by rewrite lookup_insert_eq |].
    split.
    { intros other Hother. unfold exampleNames in Hother.
      rewrite !lookup_insert_ne; [done | set_solver ..]. }
    rewrite (RegisterToolHandler_taken _ _ _ Hc); [done | done |].
    simpl. rewrite ?lookup_insert_ne, lookup_insert_eq by done. eauto.
  - intros H1 H2. unfold RegisterDefaultTools.
    rewrite (RegisterToolHandler_fresh r _ _ Hc) by done.
    rewrite (RegisterToolHandler_taken _ _ _ Hw); [| done |].
    + eexists. split; [reflexivity |]. unfold Count. simpl.
      split; [apply lookup_insert_eq | by apply map_size_insert_None].
    + simpl. by rewrite lookup_insert_ne.
Qed.

(** X16: the handler [main] builds never fails to be built when the
    example tools declare their names; it is not Ready, carries the
    configured name and version, advertises a capability block exactly for
    each enabled feature, and holds exactly the four example tools when
    tools are enabled and none otherwise; no resource and no prompt is
    registered, whether or not those capabilities are advertised. *)
Theorem startupHandler_contents (cfg : Config) (ts : ExampleTools) :
  declaresExampleNames ts →
  ∃ h, startupHandler cfg ts = (h, None)
    ∧ initialized h = false
    ∧ serverInfo h = {| ServerName := MCPName (MCP cfg);
                        ServerVersion := MCPVersionString (MCP cfg) |}
    ∧ (is_Some (Tools (capabilities h)) ↔ IsToolsEnabled cfg = true)
    ∧ (is_Some (Resources (capabilities h)) ↔ IsResourcesEnabled cfg = true)
    ∧ (is_Some (Prompts (capabilities h)) ↔ IsPromptsEnabled cfg = true)
    ∧ (is_Some (Logging (capabilities h)) ↔ IsLoggingEnabled cfg = true)
    ∧ resources h = ∅ ∧ prompts h = ∅
    ∧ (IsToolsEnabled cfg = false → tools h = ∅)
    ∧ (IsToolsEnabled cfg = true →
       size (tools h) = 4%nat
       ∧ tools h !! "calculator" = Some (calculator ts)
       ∧ tools h !! "web_search" = Some (webSearch ts)
       ∧ tools h !! "document_analyzer" = Some (documentAnalyzer ts)
       ∧ tools h !! "knowledge_graph" = Some (knowledgeGraph ts)).
Proof.
  intros (Hc & Hw & Hd & Hk).
  assert (Hflag : ∀ (A : Type) (b : bool) (x : A),
            is_Some (if b then Some x else None) ↔ b = true).
  { intros A [] x; split; eauto; try done; by intros [? ?]. }
  unfold startupHandler. destruct (IsToolsEnabled cfg) eqn:Het.
  - unfold registerTools.
    rewrite (RegisterTool_named _ _ _ Hc) by done.
    rewrite (RegisterTool_named _ _ _ Hw) by done.
    rewrite (RegisterTool_named _ _ _ Hd) by done.
    rewrite (RegisterTool_named _ _ _ Hk) by done.
    eexists. split; [reflexivity |]. simpl.
    unfold createServerCapabilities. simpl. rewrite Het, !Hflag.
    split_and!; try done; by eauto.
  - eexists. split; [reflexivity |]. simpl.
    unfold createServerCapabilities. simpl. rewrite Het, !Hflag.
    split_and!; try done; by intros [? ?].
Qed.

(** X17: the registration operations of the dispatcher fail exactly when
    the definition is nil or its key is empty (the name of a tool or a
    prompt, the URI of a resource), and then leave the handler as it was;
    when they succeed they write one entry of their own table and touch
    neither the other two tables nor the session flag. *)
Theorem dispatcher_registration_frame (h : BaseHandler) :
  (∀ th, let r := RegisterTool h th in
     (r.2 = None ↔ ∃ t, ToolDefinition th = Some t ∧ Name t ≠ "")
     ∧ (r.2 ≠ None → r.1 = h)
     ∧ (∀ t, ToolDefinition th = Some t → Name t ≠ "" →
          tools r.1 = <[Name t := th]> (tools h))
     ∧ resources r.1 = resources h ∧ prompts r.1 = prompts h
     ∧ initialized r.1 = initialized h)
  ∧ (∀ rh, let r := RegisterResource h rh in
     (r.2 = None ↔ ∃ d, ResourceDefinition rh = Some d ∧ URI d ≠ "")
     ∧ (r.2 ≠ None → r.1 = h)
     ∧ (∀ d, ResourceDefinition rh = Some d → URI d ≠ "" →
          resources r.1 = <[URI d := rh]> (resources h))
     ∧ tools r.1 = tools h ∧ prompts r.1 = prompts h
     ∧ initialized r.1 = initialized h)
  ∧ (∀ ph, let r := RegisterPrompt h ph in
     (r.2 = None ↔ ∃ d, PromptDefinition ph = Some d ∧ PromptName d ≠ "")
     ∧ (r.2 ≠ None → r.1 = h)
     ∧ (∀ d, PromptDefinition ph = Some d → PromptName d ≠ "" →
          prompts r.1 = <[PromptName d := ph]> (prompts h))
     ∧ tools r.1 = tools h ∧ resources r.1 = resources h
     ∧ initialized r.1 = initialized h).
Proof.
  split; [| split].
  - intros th. unfold RegisterTool.
    destruct (ToolDefinition th) as [t |]; simpl.
    + destruct (nonEmpty (Name t)) eqn:Hn; simpl.
      * apply nonEmpty_true in Hn. repeat split; eauto; try done.
        by intros t' [= <-] _.
      * assert (Name t = "") by (by destruct (Name t)).
        repeat split; try done.
        -- intros (t' & [= <-] & Hne). done.
        -- intros t' [= <-] Hne. done.
    + repeat split; try done. intros (t' & Ht & _). done.
  - intros rh. unfold RegisterResource.
    destruct (ResourceDefinition rh) as [d |]; simpl.
    + destruct (nonEmpty (URI d)) eqn:Hn; simpl.
      * apply nonEmpty_true in Hn. repeat split; eauto; try done.
        by intros d' [= <-] _.
      * assert (URI d = "") by (by destruct (URI d)).
        repeat split; try done.
        -- intros (d' & [= <-] & Hne). done.
        -- intros d' [= <-] Hne. done.
    + repeat split; try done. intros (d' & Hd & _). done.
  - intros ph. unfold RegisterPrompt.
    destruct (PromptDefinition ph) as [d |]; simpl.
    + destruct (nonEmpty (PromptName d)) eqn:Hn; simpl.
      * apply nonEmpty_true in Hn. repeat split; eauto; try done.
        by intros d' [= <-] _.
      * assert (PromptName d = "") by (by destruct (PromptName d)).
        repeat split; try done.
        -- intros (d' & [= <-] & Hne). done.
        -- intros d' [= <-] Hne. done.
    + repeat split; try done. intros (d' & Hd & _). done.
Qed.

(** * Further properties of the validator *)

(** ** Whole numbers as floats keep their order *)

Lemma float64_of_int_small_pos (A : positive) :
  Zpos A < 2 ^ 53 →
  bitlen A ≤ 53
  ∧ float64_of_int (Zpos A) =
      S754_finite false (doubled (Z.to_nat (53 - bitlen A)) A) (bitlen A - 53).
Proof.
  intros HA. pose proof (bitlen_bounds A) as [Hlo Hhi].
  pose proof (bitlen_pos A) as Hp.
  assert (Hd : bitlen A ≤ 53).
  { destruct (Z_lt_le_dec 53 (bitlen A)); [| done].
    assert (2 ^ 53 ≤ 2 ^ (bitlen A - 1)) by (apply Z.pow_le_mono_r; lia). lia. }
  split; [done |].
  change (float64_of_int (Zpos A)) with (binary_round 53 1024 false A 0).
  by apply binary_round_small.
Qed.

Lemma SFcompare_float64_of_int (a b : Z) :
  0 ≤ a < 2 ^ 53 → 0 ≤ b < 2 ^ 53 →
  SFcompare (float64_of_int a) (float64_of_int b) = Some (a ?= b).
Proof.
  intros Ha Hb.
  destruct a as [| A | A]; [| | lia]; destruct b as [| B | B]; try lia.
  - reflexivity.
  - destruct (float64_of_int_small_pos B) as [_ ->]; [lia | reflexivity].
  - destruct (float64_of_int_small_pos A) as [_ ->]; [lia | reflexivity].
  - destruct (float64_of_int_small_pos A) as [HdA ->]; [lia |].
    destruct (float64_of_int_small_pos B) as [HdB ->]; [lia |].
    pose proof (bitlen_bounds A) as [HAlo HAhi].
    pose proof (bitlen_bounds B) as [HBlo HBhi].
    pose proof (bitlen_pos A). pose proof (bitlen_pos B).
    cbn [SFcompare]. f_equal.
    destruct (Z.compare_spec (bitlen A - 53) (bitlen B - 53)) as [Heq | Hlt | Hgt].
    + assert (Hd : bitlen A = bitlen B) by lia. rewrite Hd.
      change (Pos.compare_cont Eq ?x ?y) with (Zpos x ?= Zpos y).
      rewrite !doubled_value.
      symmetry. apply Zmult_compare_compat_r.
      apply Z.lt_gt, Z.pow_pos_nonneg; lia.
    + symmetry. apply Z.compare_lt_iff.
      assert (2 ^ bitlen A ≤ 2 ^ (bitlen B - 1)) by (apply Z.pow_le_mono_r; lia).
      lia.
    + symmetry. apply Z.compare_gt_iff.
      assert (2 ^ bitlen B ≤ 2 ^ (bitlen A - 1)) by (apply Z.pow_le_mono_r; lia).
      lia.
Qed.

Lemma flt_float64_of_int a b :
  0 ≤ a < 2 ^ 53 → 0 ≤ b < 2 ^ 53 →
  flt (float64_of_int a) (float64_of_int b) = (a <? b).
Proof.
  intros Ha Hb. unfold flt, SFltb, Z.ltb.
  rewrite (SFcompare_float64_of_int a b Ha Hb). by destruct (a ?= b).
Qed.

Lemma fgt_float64_of_int a b :
  0 ≤ a < 2 ^ 53 → 0 ≤ b < 2 ^ 53 →
  fgt (float64_of_int a) (float64_of_int b) = (b <? a).
Proof.
  intros Ha Hb. unfold fgt. rewrite (Z.ltb_antisym a b), Z.leb_compare.
  rewrite (SFcompare_float64_of_int a b Ha Hb). by destruct (a ?= b).
Qed.

(** A length against an optional whole bound. *)
Lemma checkLength_whole upper key format name len prop (bound : option Z) :
  jget key prop = wholeBound bound →
  (∀ b, bound = Some b → 0 ≤ b < 2 ^ 53) →
  Z.of_nat len < 2 ^ 53 →
  checkLength upper key format name len prop = Accept ↔
  ∀ b, bound = Some b → if upper then Z.of_nat len ≤ b else b ≤ Z.of_nat len.
Proof.
  intros Hget Hb Hlen. unfold checkLength. rewrite Hget.
  destruct bound as [b |]; simpl; [| done].
  specialize (Hb b eq_refl). unfold float64_of_len.
  destruct upper.
  - rewrite fgt_float64_of_int by lia.
    destruct (Z.ltb_spec b (Z.of_nat len)); split; try done.
    + intros Hall. specialize (Hall b eq_refl). lia.
    + intros _ b' [= <-]. lia.
  - rewrite flt_float64_of_int by lia.
    destruct (Z.ltb_spec (Z.of_nat len) b); split; try done.
    + intros Hall. specialize (Hall b eq_refl). lia.
    + intros _ b' [= <-]. lia.
Qed.

(** ** Acceptance *)

Lemma requiredPresent_Accept params required :
  requiredPresent params required = Accept ↔
  ∀ r, r ∈ required → is_Some (jget r params).
Proof.
  induction required as [| r' required IH]; simpl.
  - split; [intros _ r Hin; inversion Hin | done].
  - destruct (jget r' params) eqn:Hr'.
    + rewrite IH. split.
      * intros Hall r Hin. apply elem_of_cons in Hin as [-> | Hin]; eauto.
      * intros Hall r Hin. apply Hall. by right.
    + split; [done |]. intros Hall.
      destruct (Hall r') as [v Hv]; [left | congruence].
Qed.

Lemma is_Some_ValidateToolSchema_property schema props name def :
  Properties schema = Some props → (name, def) ∈ props →
  is_Some (validateProperty name def) →
  is_Some (ValidateToolSchema schema).
Proof.
  intros Hp Hin Hbad.
  destruct (ValidateToolSchema schema) eqn:Hv; [eauto |].
  apply ValidateToolSchema_None in Hv as (_ & ps & Hp' & _ & _ & Hv).
  assert (ps = props) as -> by congruence.
  rewrite propertiesValid_None in Hv.
  rewrite (Hv name def Hin) in Hbad. by destruct Hbad.
Qed.

Lemma is_Some_andAlso_l c1 c2 : is_Some c1 → is_Some (andAlso c1 c2).
Proof. by intros [e ->]. Qed.

Lemma is_Some_andAlso_r c1 c2 : is_Some c2 → is_Some (andAlso c1 c2).
Proof. intros [e ->]. destruct c1; simpl; eauto. Qed.

Lemma is_Some_checkNonNegative key prop v :
  jget key prop = Some v → isFloat v = false →
  is_Some (checkNonNegative key prop).
Proof.
  intros Hk Hv. unfold checkNonNegative. rewrite Hk. destruct v; eauto; done.
Qed.

Lemma validateProperty_constraint_not_float name pm kind key v :
  jget "type" pm = Some (VString kind) →
  key ∈ numericConstraints kind →
  jget key pm = Some v → isFloat v = false →
  is_Some (validateProperty name (VObject pm)).
Proof.
  intros Ht Hkey Hv Hnf. simpl. rewrite Ht. unfold numericConstraints in Hkey.
  destruct (validTypes kind); simpl; [| eauto].
  destruct (String.eqb kind "string").
  { unfold validateStringProperty.
    apply is_Some_andAlso_r.
    apply elem_of_cons in Hkey as [-> | Hkey].
    - by apply is_Some_andAlso_l, (is_Some_checkNonNegative _ _ v).
    - apply list_elem_of_singleton in Hkey as ->.
      by apply is_Some_andAlso_r, is_Some_andAlso_l,
               (is_Some_checkNonNegative _ _ v). }
  destruct (String.eqb kind "number" || String.eqb kind "integer").
  { unfold validateNumericProperty, numberField.
    apply elem_of_cons in Hkey as [-> | Hkey].
    - rewrite Hv. destruct v; eauto; done.
    - apply list_elem_of_singleton in Hkey as ->.
      destruct (jget "minimum" pm) as [[] |]; eauto;
        rewrite Hv; destruct v; eauto; done. }
  destruct (String.eqb kind "array").
  { unfold validateArrayProperty.
    apply elem_of_cons in Hkey as [-> | Hkey].
    - by apply is_Some_andAlso_l, (is_Some_checkNonNegative _ _ v).
    - apply list_elem_of_singleton in Hkey as ->.
      by apply is_Some_andAlso_r, is_Some_andAlso_l,
               (is_Some_checkNonNegative _ _ v). }
  destruct (String.eqb kind "object").
  { unfold validateObjectProperty.
    apply elem_of_cons in Hkey as [-> | Hkey].
    - by apply is_Some_andAlso_l, (is_Some_checkNonNegative _ _ v).
    - apply list_elem_of_singleton in Hkey as ->.
      by apply is_Some_andAlso_r, (is_Some_checkNonNegative _ _ v). }
  inversion Hkey.
Qed.

Section ValidatorCoverage.
Context (overflowInt64 : float64 → Z).

Lemma parametersValid_Accept props params :
  parametersValid overflowInt64 props params = Accept ↔
  ∀ k v, (k, v) ∈ params →
    ∃ def, mapGet k props = Some def
           ∧ validateParameterValue overflowInt64 k v def = Accept.
Proof.
  induction params as [| [k' v'] params IH]; simpl.
  - split; [intros _ k v Hin; inversion Hin | done].
  - destruct (mapGet k' props) as [def |] eqn:Hk'.
    + rewrite andThen_Accept, IH. split.
      * intros [Hhere Hrest] k v Hin.
        apply elem_of_cons in Hin as [[= -> ->] | Hin]; eauto.
      * intros Hall. split.
        -- destruct (Hall k' v') as (def' & Hd & Hacc); [left |]. congruence.
        -- intros k v Hin. apply Hall. by right.
    + split; [done |]. intros Hall.
      destruct (Hall k' v') as (def' & Hd & _); [left | congruence].
Qed.

(** X18: [ValidateToolParameters] accepts exactly when the schema is
    well-formed, every required name is among the arguments, and every
    argument is declared by the schema and its value is accepted against
    the property declared under its name. *)
Theorem ValidateToolParameters_accepts_iff (params : JMap) (schema : ToolSchema) :
  ValidateToolParameters overflowInt64 params schema = Accept ↔
  ValidateToolSchema schema = None
  ∧ (∀ r, r ∈ Required schema → is_Some (mapGet r params))
  ∧ ∀ k v, (k, v) ∈ arguments params →
      ∃ def, mapGet k (Properties schema) = Some def
             ∧ validateParameterValue overflowInt64 k v def = Accept.
Proof.
  unfold ValidateToolParameters.
  assert (Hget : ∀ r, mapGet r params = jget r (arguments params))
    by (intros r; by destruct params).
  destruct (ValidateToolSchema schema) as [e |] eqn:Hv.
  - split; [done | by intros [? _]].
  - fold (arguments params).
    rewrite andThen_Accept, requiredPresent_Accept, parametersValid_Accept.
    split.
    + intros [Hreq Hall]. split; [done |]. split; [| done].
      intros r Hr. rewrite Hget. by apply Hreq.
    + intros (_ & Hreq & Hall). split; [| done].
      intros r Hr. rewrite <- Hget. by apply Hreq.
Qed.

(** X19: the nil argument map is treated as the empty one; an ill-formed
    schema rejects every argument set with the error "invalid schema"
    wrapping the schema error; and against a well-formed schema the empty
    argument set is accepted exactly when nothing is required. *)
Theorem ValidateToolParameters_edge_cases (schema : ToolSchema) :
  ValidateToolParameters overflowInt64 None schema =
    ValidateToolParameters overflowInt64 (Some []) schema
  ∧ (∀ e params, ValidateToolSchema schema = Some e →
       ValidateToolParameters overflowInt64 params schema =
         Reject (Errorf "invalid schema: %w" [] (Some e)))
  ∧ (ValidateToolSchema schema = None →
       (ValidateToolParameters overflowInt64 (Some []) schema = Accept ↔
        Required schema = [])).
Proof.
  split; [reflexivity |]. split.
  - intros e params He. unfold ValidateToolParameters. by rewrite He.
  - intros Hv. unfold ValidateToolParameters. rewrite Hv. simpl.
    rewrite andThen_Accept, requiredPresent_Accept. split.
    + intros [Hreq _]. destruct (Required schema) as [| r rs]; [done |].
      destruct (Hreq r) as [v Hv']; [left | done].
    + intros Hnil. split; [| done]. rewrite Hnil.
      intros r Hin. inversion Hin.
Qed.

(** X20: a length, item, property or value bound that is not a float64 (an
    integer literal such as ["minimum": 1] in a schema written in Go) makes
    the schema ill-formed, so that every argument set is rejected. *)
Theorem bound_must_be_float64
    (schema : ToolSchema) (props : list (string * Value)) (name : string)
    (pm : list (string * Value)) (kind key : string) (v : Value) :
  Properties schema = Some props →
  (name, VObject pm) ∈ props →
  jget "type" pm = Some (VString kind) →
  key ∈ numericConstraints kind →
  jget key pm = Some v →
  isFloat v = false →
  is_Some (ValidateToolSchema schema)
  ∧ ∀ params, ∃ e,
      ValidateToolParameters overflowInt64 params schema =
        Reject (Errorf "invalid schema: %w" [] (Some e)).
Proof.
  intros Hp Hin Ht Hkey Hv Hnf.
  assert (Hbad : is_Some (ValidateToolSchema schema)).
  { apply (is_Some_ValidateToolSchema_property schema props name (VObject pm));
      [done | done |].
    by apply (validateProperty_constraint_not_float name pm kind key v). }
  split; [done |]. intros params. destruct Hbad as [e He]. exists e.
  unfold ValidateToolParameters. by rewrite He.
Qed.

(** X21: a value is accepted against a property only if its dynamic type
    is the one the kind admits: string, float64 for "number", float64 or
    int for "integer", bool, slice, map; for the kinds "boolean" and
    "object" the type is all that is checked, whatever else the property
    declares. *)
Theorem accepted_value_has_kind_type
    (name : string) (v : Value) (pm : list (string * Value)) (kind : string) :
  jget "type" pm = Some (VString kind) →
  (validateParameterValue overflowInt64 name v (VObject pm) = Accept →
   typeMatches kind v = true)
  ∧ (kind = "boolean" ∨ kind = "object" →
     (validateParameterValue overflowInt64 name v (VObject pm) = Accept ↔
      typeMatches kind v = true)).
Proof.
  intros Ht. simpl. rewrite Ht. split.
  - unfold typeMatches.
    destruct (String.eqb kind "string") eqn:H1.
    { apply String.eqb_eq in H1 as ->. by destruct v. }
    destruct (String.eqb kind "number") eqn:H2.
    { apply String.eqb_eq in H2 as ->. by destruct v. }
    destruct (String.eqb kind "integer") eqn:H3.
    { apply String.eqb_eq in H3 as ->. by destruct v. }
    destruct (String.eqb kind "boolean") eqn:H4.
    { apply String.eqb_eq in H4 as ->. by destruct v. }
    destruct (String.eqb kind "array") eqn:H5.
    { apply String.eqb_eq in H5 as ->. by destruct v. }
    destruct (String.eqb kind "object") eqn:H6.
    { apply String.eqb_eq in H6 as ->. by destruct v. }
    done.
  - intros [-> | ->]; by destruct v.
Qed.
End ValidatorCoverage.

(** ** Strings and arrays *)

Lemma enumContains_iff value enumSlice :
  enumContains value enumSlice = true ↔ VString value ∈ enumSlice.
Proof.
  unfold enumContains. rewrite existsb_exists. split.
  - intros (x & Hin & Hx). destruct x; try done.
    apply String.eqb_eq in Hx as ->. by apply list_elem_of_In.
  - intros Hin. exists (VString value). split; [by apply list_elem_of_In |].
    apply String.eqb_refl.
Qed.

Lemma existsb_keyEq_false item seen :
  existsb (keyEq item) seen = false ↔ ∀ x, x ∈ seen → keyEq item x = false.
Proof.
  induction seen as [| y seen IH]; simpl.
  - split; [intros _ x Hin; inversion Hin | done].
  - rewrite orb_false_iff, IH. split.
    + intros [Hy Hrest] x Hin. apply elem_of_cons in Hin as [-> | Hin]; auto.
    + intros Hall. split; [apply Hall; left | intros x Hin; apply Hall; by right].
Qed.

(** When the scan for duplicates finds none. *)
Lemma uniqueScan_Accept name seen i items :
  uniqueScan name seen i items = Accept ↔
  (∀ v, v ∈ items → hashable v = true)
  ∧ ∀ k vk, items !! k = Some vk →
      (∀ x, x ∈ seen → keyEq vk x = false)
      ∧ ∀ j vj, (j < k)%nat → items !! j = Some vj → keyEq vk vj = false.
Proof.
  revert seen i. induction items as [| item items IH]; intros seen i.
  - simpl. split; [| done]. intros _. split; [intros v Hin; inversion Hin | done].
  - cbn [uniqueScan]. destruct (hashable item) eqn:Hh; simpl.
    + destruct (existsb (keyEq item) seen) eqn:Hex.
      * split; [done |]. intros [_ Hall].
        destruct (Hall 0%nat item eq_refl) as [Hseen _].
        apply existsb_keyEq_false in Hseen. congruence.
      * rewrite IH. rewrite existsb_keyEq_false in Hex. split.
        -- intros [Hhash Hall]. split.
           { intros v Hin. apply elem_of_cons in Hin as [-> | Hin]; auto. }
           intros [| k] vk Hk; simpl in Hk.
           { injection Hk as <-. split; [done | intros j vj Hj; lia]. }
           destruct (Hall k vk Hk) as [Hseen Hearlier]. split.
           { intros x Hx. apply Hseen. by right. }
           intros [| j] vj Hj Hvj; simpl in Hvj.
           { injection Hvj as <-. apply Hseen. left. }
           apply (Hearlier j vj); [lia | done].
        -- intros [Hhash Hall]. split.
           { intros v Hin. apply Hhash. by right. }
           intros k vk Hk. destruct (Hall (S k) vk Hk) as [Hseen Hearlier].
           split.
           { intros x Hx. apply elem_of_cons in Hx as [-> | Hx]; [| auto].
             apply (Hearlier 0%nat item); [lia | done]. }
           intros j vj Hj Hvj. apply (Hearlier (S j) vj); [lia | done].
    + split; [done |]. intros [Hhash _].
      rewrite Hhash in Hh; [done | left].
Qed.

(** When the scan reports a duplicate: where, and that nothing before it
    was one. *)
Lemma uniqueScan_Reject name seen i items e :
  uniqueScan name seen i items = Reject e →
  ∃ k vk,
    items !! k = Some vk
    ∧ e = Errorf
            "parameter '%s' must have unique items, duplicate found at index %d"
            [VString name; VInt (i + Z.of_nat k)] None
    ∧ existsb (keyEq vk) (rev (take k items) ++ seen) = true
    ∧ uniqueScan name seen i (take k items) = Accept.
Proof.
  revert seen i. induction items as [| item items IH]; intros seen i; [done |].
  cbn [uniqueScan]. destruct (hashable item) eqn:Hh; simpl; [| done].
  destruct (existsb (keyEq item) seen) eqn:Hex.
  - intros [= <-]. exists 0%nat, item. simpl.
    rewrite Z.add_0_r. done.
  - intros Hrest. destruct (IH _ _ Hrest) as (k & vk & Hk & -> & Hdup & Hpre).
    exists (S k), vk. split; [done |]. split.
    { by replace (i + Z.of_nat (S k)) with (i + 1 + Z.of_nat k) by lia. }
    split.
    { simpl. by rewrite <- app_assoc. }
    cbn [take uniqueScan]. by rewrite Hh, Hex.
Qed.

Section ContainerCoverage.
Context (overflowInt64 : float64 → Z).

(** X22: for a string property without enum whose length bounds are whole
    numbers, a string is accepted exactly when its length in bytes lies
    between them, both ends included; an absent bound does not
    constrain. *)
Theorem string_length_bounds
    (name s : string) (pm : list (string * Value)) (lo hi : option Z) :
  jget "type" pm = Some (VString "string") →
  jget "enum" pm = None →
  jget "minLength" pm = wholeBound lo →
  jget "maxLength" pm = wholeBound hi →
  (∀ b, lo = Some b ∨ hi = Some b → 0 ≤ b < 2 ^ 53) →
  Z.of_nat (String.length s) < 2 ^ 53 →
  validateParameterValue overflowInt64 name (VString s) (VObject pm) = Accept ↔
  (∀ b, lo = Some b → b ≤ Z.of_nat (String.length s))
  ∧ (∀ b, hi = Some b → Z.of_nat (String.length s) ≤ b).
Proof.
  intros Ht Henum Hlo Hhi Hb Hlen. simpl. rewrite Ht. simpl.
  unfold validateStringValue. rewrite Henum. simpl.
  rewrite andThen_Accept.
  rewrite (checkLength_whole false _ _ _ _ _ lo Hlo) by (auto || done).
  rewrite (checkLength_whole true _ _ _ _ _ hi Hhi) by (auto || done).
  done.
Qed.

(** X23: for a well-formed string property that declares an enum, a string
    is accepted only if it is a member, and a string that is not a member
    is rejected with the error that lists the members joined by ", ". *)
Theorem string_enum_membership
    (name s : string) (pm : list (string * Value)) (members : list Value) :
  jget "type" pm = Some (VString "string") →
  validateStringProperty pm = None →
  jget "enum" pm = Some (VArray members) →
  (validateParameterValue overflowInt64 name (VString s) (VObject pm) = Accept →
   VString s ∈ members)
  ∧ (VString s ∉ members →
     ∃ names, assertStrings members = Some names
       ∧ validateParameterValue overflowInt64 name (VString s) (VObject pm) =
           Reject (Errorf "parameter '%s' must be one of [%s], got '%s'"
                     [VString name; VString (String.concat ", " names);
                      VString s] None)).
Proof.
  intros Ht Hwf Henum. simpl. rewrite Ht. simpl.
  unfold validateStringValue. rewrite Henum.
  assert (Hstr : is_Some (assertStrings members)).
  { unfold validateStringProperty in Hwf. rewrite Henum in Hwf.
    apply andAlso_None in Hwf as [Hwf _].
    destruct members as [| m ms]; [done |]. by apply (firstNonString_None 0). }
  destruct Hstr as [names Hnames]. rewrite Hnames.
  destruct (enumContains s members) eqn:Hc.
  - apply enumContains_iff in Hc. split; [done |]. intros Hno. done.
  - split; [done |]. intros _. exists names. done.
Qed.

(** X24: for an array property whose item bounds are whole numbers and
    that does not ask for unique items, an array is accepted exactly when
    its number of elements lies between the bounds, both ends included;
    the elements themselves are not looked at. *)
Theorem array_item_bounds
    (name : string) (items : list Value) (pm : list (string * Value))
    (lo hi : option Z) :
  jget "type" pm = Some (VString "array") →
  jget "minItems" pm = wholeBound lo →
  jget "maxItems" pm = wholeBound hi →
  jget "uniqueItems" pm = None ∨ jget "uniqueItems" pm = Some (VBool false) →
  (∀ b, lo = Some b ∨ hi = Some b → 0 ≤ b < 2 ^ 53) →
  Z.of_nat (length items) < 2 ^ 53 →
  validateParameterValue overflowInt64 name (VArray items) (VObject pm) = Accept ↔
  (∀ b, lo = Some b → b ≤ Z.of_nat (length items))
  ∧ (∀ b, hi = Some b → Z.of_nat (length items) ≤ b).
Proof.
  intros Ht Hlo Hhi Huniq Hb Hlen. simpl. rewrite Ht. simpl.
  unfold validateArrayValue. rewrite !andThen_Accept.
  rewrite (checkLength_whole false _ _ _ _ _ lo Hlo) by (auto || done).
  rewrite (checkLength_whole true _ _ _ _ _ hi Hhi) by (auto || done).
  destruct Huniq as [-> | ->]; tauto.
Qed.

(** X25: for an array property that asks for unique items (and bounds no
    count), an array is accepted exactly when none of its elements is
    itself an array or an object and no element equals an earlier one;
    when it is rejected, the index reported is that of the first element
    that equals an earlier one. *)
Theorem array_unique_items
    (name : string) (items : list Value) (pm : list (string * Value)) :
  jget "type" pm = Some (VString "array") →
  jget "minItems" pm = None →
  jget "maxItems" pm = None →
  jget "uniqueItems" pm = Some (VBool true) →
  (validateParameterValue overflowInt64 name (VArray items) (VObject pm) = Accept ↔
   (∀ v, v ∈ items → hashable v = true)
   ∧ ∀ j k vj vk, (j < k)%nat → items !! j = Some vj → items !! k = Some vk →
       keyEq vk vj = false)
  ∧ (∀ e, validateParameterValue overflowInt64 name (VArray items) (VObject pm)
          = Reject e →
      ∃ k vk, items !! k = Some vk
        ∧ e = Errorf
            "parameter '%s' must have unique items, duplicate found at index %d"
            [VString name; VInt (Z.of_nat k)] None
        ∧ (∃ j vj, (j < k)%nat ∧ items !! j = Some vj ∧ keyEq vk vj = true)
        ∧ ∀ j' k' vj' vk', (j' < k')%nat → (k' < k)%nat →
            items !! j' = Some vj' → items !! k' = Some vk' →
            keyEq vk' vj' = false).
Proof.
  intros Ht Hlo Hhi Huniq.
  assert (Heq : validateParameterValue overflowInt64 name (VArray items) (VObject pm)
                = uniqueScan name [] 0 items).
  { simpl. rewrite Ht. simpl. unfold validateArrayValue, checkLength.
    by rewrite Hlo, Hhi, Huniq. }
  rewrite Heq. split.
  - rewrite uniqueScan_Accept. split.
    + intros [Hhash Hall]. split; [done |].
      intros j k vj vk Hjk Hj Hk. destruct (Hall k vk Hk) as [_ Hearlier].
      by apply (Hearlier j vj).
    + intros [Hhash Hall]. split; [done |].
      intros k vk Hk. split; [intros x Hx; inversion Hx |].
      intros j vj Hjk Hj. by apply (Hall j k vj vk).
  - intros e He.
    destruct (uniqueScan_Reject _ _ _ _ _ He) as (k & vk & Hk & -> & Hdup & Hpre).
    exists k, vk. split; [done |]. split; [done |]. split.
    + rewrite app_nil_r in Hdup. apply existsb_exists in Hdup as (x & Hin & Hx).
      apply (proj2 (in_rev _ _)), list_elem_of_In, list_elem_of_lookup in Hin
        as [j Hj].
      apply lookup_take_Some in Hj as [Hj Hlt]. eauto.
    + apply uniqueScan_Accept in Hpre as [_ Hall].
      intros j' k' vj' vk' Hjk Hk' Hj' Hvk'.
      destruct (Hall k' vk') as [_ Hearlier].
      { rewrite lookup_take_lt by lia. done. }
      apply (Hearlier j' vj'); [done |]. rewrite lookup_take_lt by lia. done.
Qed.
End ContainerCoverage.

(** * Properties of SanitizeParameters *)

(** Induction on values that reaches into arrays and objects. *)
Lemma Value_nested_ind (P : Value → Prop) :
  P VNil →
  (∀ b, P (VBool b)) →
  (∀ f, P (VFloat f)) →
  (∀ n, P (VInt n)) →
  (∀ s, P (VString s)) →
  (∀ l, Forall P l → P (VArray l)) →
  (∀ m, Forall (λ kv, P kv.2) m → P (VObject m)) →
  ∀ v, P v.
Proof.
  intros Hnil Hbool Hfloat Hint Hstr Harr Hobj.
  fix IH 1.
  intros [| b | f | n | s | l | m];
    [apply Hnil | apply Hbool | apply Hfloat | apply Hint | apply Hstr | |].
  - apply Harr. induction l as [| x l IHl]; constructor; [apply IH | exact IHl].
  - apply Hobj. induction m as [| [k x] m IHm]; constructor; [apply IH | exact IHm].
Qed.

Lemma substring_prefix_length n s :
  (String.length (String.substring 0 n s) ≤ n)%nat.
Proof.
  revert s. induction n as [| n IH]; intros [| c s]; simpl; try lia.
  specialize (IH s). lia.
Qed.

Section SanitizeFacts.
Context (TrimSpace : string → string).

Lemma sanitizeString_length s :
  (String.length (sanitizeString TrimSpace s) ≤ maxStringLength)%nat.
Proof.
  unfold sanitizeString.
  destruct (Nat.ltb_spec maxStringLength (String.length (TrimSpace s)));
    [apply substring_prefix_length | done].
Qed.

Lemma sanitizeString_clean s :
  TrimSpace s = s → (String.length s ≤ maxStringLength)%nat →
  sanitizeString TrimSpace s = s.
Proof.
  intros Ht Hl. unfold sanitizeString. rewrite Ht.
  destruct (Nat.ltb_spec maxStringLength (String.length s)); [lia | done].
Qed.

Lemma sanitizeValue_object m :
  sanitizeValue TrimSpace (VObject m) = VObject (sanitizeEntries TrimSpace m).
Proof.
  simpl. f_equal. unfold sanitizeEntries.
  induction m as [| [k v] m IH]; [done |]. simpl. by rewrite IH.
Qed.

Lemma sanitizeValue_shape v :
  sameShape v (sanitizeValue TrimSpace v)
  ∧ stringsWithin maxStringLength (sanitizeValue TrimSpace v).
Proof.
  induction v as [| b | f | n | s | l IHl | m IHm] using Value_nested_ind;
    try done.
  - split; [done | apply sanitizeString_length].
  - cbn [sanitizeValue]. induction IHl as [| x l [Hx1 Hx2] _ [IH1 IH2]]; [done |].
    split; simpl; split; done.
  - rewrite sanitizeValue_object. unfold sanitizeEntries.
    induction IHm as [| [k x] m [Hx1 Hx2] _ [IH1 IH2]]; [done |].
    split; simpl; repeat split; done.
Qed.

Lemma sanitizeValue_clean v :
  stringsFixedBy TrimSpace v → stringsWithin maxStringLength v →
  sanitizeValue TrimSpace v = v.
Proof.
  induction v as [| b | f | n | s | l IHl | m IHm] using Value_nested_ind;
    try done.
  - simpl. intros Hf Hw. f_equal. by apply sanitizeString_clean.
  - cbn [sanitizeValue]. intros Hf Hw. f_equal.
    induction IHl as [| x l Hx _ IH]; [done |].
    simpl in Hf, Hw. destruct Hf as [Hf1 Hf2], Hw as [Hw1 Hw2].
    simpl. rewrite (Hx Hf1 Hw1). f_equal. by apply IH.
  - rewrite sanitizeValue_object. intros Hf Hw. f_equal.
    unfold sanitizeEntries.
    induction IHm as [| [k x] m Hx _ IH]; [done |].
    simpl in Hf, Hw. destruct Hf as [Hf1 Hf2], Hw as [Hw1 Hw2].
    simpl in *. rewrite (Hx Hf1 Hw1). f_equal. by apply IH.
Qed.

(** X26: whatever the argument map, [SanitizeParameters] returns a map
    that is not nil and has the same tree as the argument (the same keys
    in the same objects, arrays of the same lengths, the same numbers,
    booleans and nils), in which every string, at any depth, has at most
    10000 bytes. *)
Theorem SanitizeParameters_shape (params : JMap) :
  ∃ m', SanitizeParameters TrimSpace params = Some m'
    ∧ sameShape (VObject (arguments params)) (VObject m')
    ∧ stringsWithin maxStringLength (VObject m')
    ∧ m'.*1 = (arguments params).*1
    ∧ Z.of_nat maxStringLength = 10000.
Proof.
  exists (sanitizeEntries TrimSpace (arguments params)).
  split; [by destruct params |].
  rewrite <- sanitizeValue_object.
  destruct (sanitizeValue_shape (VObject (arguments params))) as [Hs Hw].
  split; [done |]. split; [done |]. split; [| done].
  unfold sanitizeEntries. generalize (arguments params). intros m.
  induction m as [| [k v] m IH]; [done |].
  csimpl. f_equal. exact IH.
Qed.

(** X27: arguments in which every string is already trimmed and at most
    10000 bytes long come back from [SanitizeParameters] unchanged. *)
Theorem SanitizeParameters_clean (m : list (string * Value)) :
  stringsFixedBy TrimSpace (VObject m) →
  stringsWithin maxStringLength (VObject m) →
  SanitizeParameters TrimSpace (Some m) = Some m.
Proof.
  intros Hf Hw. simpl. f_equal.
  pose proof (sanitizeValue_clean (VObject m) Hf Hw) as Heq.
  rewrite sanitizeValue_object in Heq. by injection Heq.
Qed.
End SanitizeFacts.

(** * Messages built by the constructors *)

(** X28: a message built by [NewRequest] is a request exactly when its
    method is not empty and its id not nil, and one built by
    [NewNotification] is a notification exactly when its method is not
    empty; the two response constructors yield a response exactly when the
    id is not nil, so the error reply under a nil id (to a nil message) is
    in none of the three classes; only [NewErrorResponse] sets the error
    object. *)
Theorem constructed_messages_classified
    (id : RequestID) (method : string) (params : Value) (result : Payload)
    (code : Z) (text : string) (data : Value) :
  (IsRequest (NewRequest id method params) = true ↔ method ≠ "" ∧ id ≠ VNil)
  ∧ (IsNotification (NewNotification method params) = true ↔ method ≠ "")
  ∧ IsRequest (NewNotification method params) = false
  ∧ (IsResponse (NewSuccessResponse id result) = true ↔ id ≠ VNil)
  ∧ (IsResponse (NewErrorResponse id code text data) = true ↔ id ≠ VNil)
  ∧ IsInvalid (NewErrorResponse VNil code text data) = true
  ∧ HasError (NewErrorResponse id code text data) = true
  ∧ HasError (NewSuccessResponse id result) = false
  ∧ HasError (NewRequest id method params) = false.
Proof.
  rewrite IsRequest_iff, IsNotification_iff, !IsResponse_iff. simpl.
  split_and!; try done; try tauto.
  unfold IsRequest. simpl. by rewrite andb_false_r.
Qed.

(** * The further properties on the sample sessions *)

Lemma request_gets_one_reply_witness :
  ∃ r, HandleMessage sampleCodec sampleSession (Some (callRequest "2" "echo")) =
         (sampleSession, (Some r, None))
       ∧ replyTo (callRequest "2" "echo") r ∧ IsResponse r = true.
Proof.
  apply (request_gets_one_reply sampleCodec sampleSession (callRequest "2" "echo")).
  reflexivity.
Defined.

Lemma malformed_message_witness :
  HandleMessage sampleCodec sampleSession
    (Some (NewSuccessResponse (VString "9") PNone)) =
    (sampleSession,
     (Some (NewErrorResponse (VString "9") InvalidRequest
              "invalid message format" VNil), None))
  ∧ InvalidRequest = -32600.
Proof.
  apply (proj2 (malformed_message_invalid_request sampleCodec sampleSession)
           (NewSuccessResponse (VString "9") PNone)).
  reflexivity.
Defined.

Lemma unknown_method_witness :
  HandleMessage sampleCodec sampleSession
    (Some (NewRequest (VString "4") "tools/remove" VNil)) =
    (sampleSession,
     (Some (NewErrorResponse (VString "4") MethodNotFound
              "method 'tools/remove' not found" VNil), None))
  ∧ MethodNotFound = -32601.
Proof.
  apply (unknown_method_not_found sampleCodec sampleSession
           (NewRequest (VString "4") "tools/remove" VNil)).
  - reflexivity.
  - unfold requestMethods. simpl. intros Hin.
    repeat (apply elem_of_cons in Hin as [Hin | Hin]; [discriminate |]).
    inversion Hin.
Defined.

Lemma initialize_reply_witness :
  responseCode
    (HandleMessage sampleCodec sampleSession
       (Some (initializeRequest "1" "1999-01-01"))).2.1 = Some InternalError
  ∧ responseCode
      (HandleMessage sampleCodec sampleSession
         (Some (initializeRequest "1" MCPVersion))).2.1 = None
  ∧ initialized
      (HandleMessage sampleCodec sampleSession
         (Some (initializeRequest "1" MCPVersion))).1 = false.
Proof.
  destruct (initialize_reply sampleCodec sampleSession
              (initializeRequest "1" "1999-01-01") (initializeParams "1999-01-01"))
    as (Hbad & _ & _); [reflexivity | reflexivity | reflexivity |].
  destruct (initialize_reply sampleCodec sampleSession
              (initializeRequest "1" MCPVersion) (initializeParams MCPVersion))
    as (Hgood & Hflag & _); [reflexivity | reflexivity | reflexivity |].
  rewrite Hbad, Hgood. split; [reflexivity |]. split; reflexivity.
Defined.

Lemma tools_call_bad_params_witness :
  HandleMessage sampleCodec sampleSession
    (Some (NewRequest (VString "6") "tools/call" VNil)) =
    (sampleSession,
     (Some (NewErrorResponse (VString "6") InvalidParams
              "invalid tool call params"
              (VString "no params to unmarshal")), None)).
Proof.
  apply (proj1 (proj2 (tools_call_bad_params sampleCodec sampleSession
                         (NewRequest (VString "6") "tools/call" VNil)
                         eq_refl eq_refl))).
  reflexivity.
Defined.

Lemma tools_list_witness :
  initialized sampleSession = false
  ∧ ∃ l, HandleMessage sampleCodec sampleSession
           (Some (NewRequest (VString "1") "tools/list" VNil)) =
           (sampleSession,
            (Some (NewSuccessResponse (VString "1") (PToolList l)), None))
         ∧ length l = 1%nat.
Proof.
  split; [reflexivity |].
  destruct (tools_list_any_state sampleCodec sampleSession
              (NewRequest (VString "1") "tools/list" VNil))
    as (l & Heq & Hlen & _); [reflexivity | reflexivity |].
  exists l. split; [exact Heq |]. rewrite Hlen. vm_compute. reflexivity.
Defined.

Lemma resources_read_witness :
  responseCode
    (HandleMessage sampleCodec sampleFaulty (Some (readRequest "5" notesURI))).2.1
  = Some InternalError
  ∧ responseCode
      (HandleMessage sampleCodec sampleFull (Some (readRequest "5" notesURI))).2.1
    = None.
Proof.
  destruct (resources_read_reply sampleCodec sampleFaulty
              (readRequest "5" notesURI) {| ReadURI := notesURI |})
    as (_ & _ & Hfault & _); [reflexivity | reflexivity | reflexivity |].
  destruct (resources_read_reply sampleCodec sampleFull
              (readRequest "5" notesURI) {| ReadURI := notesURI |})
    as (_ & _ & _ & Hok); [reflexivity | reflexivity | reflexivity |].
  split.
  - rewrite (Hfault (sampleResource notesURI (Some "disk full")) None "disk full");
      [reflexivity | reflexivity | vm_compute; reflexivity | reflexivity].
  - erewrite (Hok (sampleResource notesURI None));
      [reflexivity | reflexivity | vm_compute; reflexivity | reflexivity].
Defined.

Lemma prompts_get_witness :
  responseCode
    (HandleMessage sampleCodec sampleFull (Some (promptRequest "8" "missing"))).2.1
  = Some InternalError
  ∧ responseCode
      (HandleMessage sampleCodec sampleFull (Some (promptRequest "8" "research"))).2.1
    = None.
Proof.
  destruct (prompts_get_reply sampleCodec sampleFull
              (promptRequest "8" "missing")
              {| GetName := "missing"; GetArguments := None |})
    as (_ & Hmissing & _ & _); [reflexivity | reflexivity | reflexivity |].
  destruct (prompts_get_reply sampleCodec sampleFull
              (promptRequest "8" "research")
              {| GetName := "research"; GetArguments := None |})
    as (_ & _ & _ & Hok); [reflexivity | reflexivity | reflexivity |].
  split.
  - rewrite Hmissing; [reflexivity | reflexivity | vm_compute; reflexivity].
  - erewrite (Hok (samplePrompt "research"));
      [reflexivity | reflexivity | vm_compute; reflexivity | reflexivity].
Defined.

Lemma Register_fresh_name_witness :
  (RegisterPromptHandler NewRegistry (samplePrompt "research")).2 = None
  ∧ Count (RegisterPromptHandler NewRegistry (samplePrompt "research")).1 = 1%nat.
Proof.
  destruct (Register_fresh_name "prompt" promptName NewRegistry
              (samplePrompt "research") "research")
    as (Hok & _ & _ & Hcount & _); [reflexivity | discriminate | reflexivity |].
  split; [exact Hok | exact Hcount].
Defined.

Lemma Unregister_behaviour_witness :
  Unregister "prompt" sampleRegistry "summary" =
    (sampleRegistry, Some "prompt 'summary' is not registered")
  ∧ Get "prompt" (Unregister "prompt" sampleRegistry "research").1 "research" =
      (None, Some "prompt 'research' not found").
Proof.
  destruct (Unregister_behaviour "prompt" promptName sampleRegistry "summary")
    as [Habsent _].
  destruct (Unregister_behaviour "prompt" promptName sampleRegistry "research")
    as [_ Hheld].
  split.
  - apply Habsent. vm_compute. reflexivity.
  - apply Hheld. vm_compute. eauto.
Defined.

Lemma handlers_found_witness :
  promptName (samplePrompt "summary") = Some "summary" ∧ "summary" ≠ "".
Proof.
  apply (handlers_found_under_declared_name "prompt" promptName
           [OpRegister (samplePrompt "research");
            OpRegister (samplePrompt "summary");
            OpUnregister "research"]
           "summary" (samplePrompt "summary")).
  vm_compute. reflexivity.
Defined.

Lemma sampleExamples_names : declaresExampleNames sampleExamples.
Proof. repeat split. Qed.

Lemma RegisterDefaultTools_witness :
  ∃ r', RegisterDefaultTools sampleExamples NewRegistry = (r', None)
    ∧ Count r' = 4%nat
    ∧ RegisterDefaultTools sampleExamples r' =
        (r', Some "failed to register calculator tool: tool 'calculator' is already registered").
Proof.
  destruct (proj1 (RegisterDefaultTools_behaviour sampleExamples NewRegistry
                     sampleExamples_names))
    as (r' & Hok & Hcount & _ & _ & _ & _ & _ & Hagain).
  - intros n _. apply lookup_empty.
  - exists r'. split; [exact Hok |]. split; [exact Hcount | exact Hagain].
Defined.

Lemma startupHandler_witness :
  ∃ h, startupHandler DefaultConfig sampleExamples = (h, None)
    ∧ size (tools h) = 4%nat ∧ resources h = ∅ ∧ prompts h = ∅
    ∧ is_Some (Resources (capabilities h)).
Proof.
  destruct (startupHandler_contents DefaultConfig sampleExamples
              sampleExamples_names)
    as (h & Hok & _ & _ & _ & Hres & _ & _ & Hr & Hp & _ & Htools).
  exists h. split; [exact Hok |].
  split; [apply Htools; reflexivity |].
  split; [exact Hr |]. split; [exact Hp |]. apply Hres. reflexivity.
Defined.

Lemma dispatcher_registration_witness :
  (RegisterTool sampleSession
     {| ToolDefinition := None; Execute := λ _, (None, None) |}).1 = sampleSession
  ∧ (RegisterTool sampleSession (constTool "" "nameless")).1 = sampleSession
  ∧ resources (RegisterTool sampleSession (constTool "add" "3")).1 =
      resources sampleSession.
Proof.
  destruct (dispatcher_registration_frame sampleSession) as (Htool & _ & _).
  split; [| split].
  - apply (Htool {| ToolDefinition := None; Execute := λ _, (None, None) |}).
    discriminate.
  - apply (Htool (constTool "" "nameless")). discriminate.
  - apply (Htool (constTool "add" "3")).
Defined.

Lemma ValidateToolParameters_edge_witness :
  ValidateToolParameters amd64Overflow (Some [("query", VString "go")])
    schemaNoProperties =
    Reject (Errorf "invalid schema: %w" []
              (Some (Errorf "schema must have at least one property" [] None)))
  ∧ ValidateToolParameters amd64Overflow (Some []) sampleSchema ≠ Accept.
Proof.
  destruct (ValidateToolParameters_edge_cases amd64Overflow schemaNoProperties)
    as (_ & Hbad & _).
  destruct (ValidateToolParameters_edge_cases amd64Overflow sampleSchema)
    as (_ & _ & Hempty).
  split.
  - apply Hbad. reflexivity.
  - intros Hacc. apply (Hempty eq_refl) in Hacc. discriminate.
Defined.

Lemma bound_must_be_float64_witness :
  is_Some (ValidateToolSchema schemaIntLiteral)
  ∧ ∃ e, ValidateToolParameters amd64Overflow
           (Some [("query", VString "go"); ("max_results", f64 10)])
           schemaIntLiteral =
         Reject (Errorf "invalid schema: %w" [] (Some e)).
Proof.
  destruct (bound_must_be_float64 amd64Overflow schemaIntLiteral
              [("query", stringProperty);
               ("max_results", VObject [("type", VString "integer");
                                        ("minimum", VInt 1);
                                        ("maximum", VInt 50)])]
              "max_results"
              [("type", VString "integer"); ("minimum", VInt 1);
               ("maximum", VInt 50)]
              "integer" "minimum" (VInt 1))
    as [Hschema Hparams].
  - reflexivity.
  - right. left.
  - reflexivity.
  - left.
  - reflexivity.
  - reflexivity.
  - split; [exact Hschema | apply Hparams].
Defined.

Lemma accepted_value_kind_witness :
  validateParameterValue amd64Overflow "flag" (VBool true)
    (VObject [("type", VString "boolean")]) = Accept
  ∧ validateParameterValue amd64Overflow "total" (VInt 3)
      (VObject [("type", VString "number")]) ≠ Accept.
Proof.
  split.
  - apply (proj2 (accepted_value_has_kind_type amd64Overflow "flag" (VBool true)
                    [("type", VString "boolean")] "boolean" eq_refl)).
    + left. reflexivity.
    + reflexivity.
  - intros Hacc.
    apply (proj1 (accepted_value_has_kind_type amd64Overflow "total" (VInt 3)
                    [("type", VString "number")] "number" eq_refl)) in Hacc.
    discriminate.
Defined.

Lemma string_length_bounds_witness :
  validateParameterValue amd64Overflow "code" (VString "abc") (VObject boundedString)
    = Accept
  ∧ validateParameterValue amd64Overflow "code" (VString "abcdef")
      (VObject boundedString) ≠ Accept.
Proof.
  assert (Hb : ∀ b, Some 2 = Some b ∨ Some 5 = Some b → 0 ≤ b < 2 ^ 53)
    by (intros b [[= <-] | [= <-]]; lia).
  split.
  - apply (string_length_bounds amd64Overflow "code" "abc" boundedString
             (Some 2) (Some 5)); try reflexivity; try exact Hb.
    split; intros b [= <-]; simpl; lia.
  - intros Hacc.
    apply (string_length_bounds amd64Overflow "code" "abcdef" boundedString
             (Some 2) (Some 5)) in Hacc; try reflexivity; try exact Hb.
    destruct Hacc as [_ Hhi]. specialize (Hhi 5 eq_refl). simpl in Hhi. lia.
Defined.

Lemma string_enum_witness :
  ∃ names, assertStrings [VString "add"; VString "divide"] = Some names
    ∧ validateParameterValue amd64Overflow "operation" (VString "sqrt")
        (VObject enumString) =
      Reject (Errorf "parameter '%s' must be one of [%s], got '%s'"
                [VString "operation"; VString (String.concat ", " names);
                 VString "sqrt"] None).
Proof.
  apply (string_enum_membership amd64Overflow "operation" "sqrt" enumString
           [VString "add"; VString "divide"]); try reflexivity.
  intros Hin.
  repeat (apply elem_of_cons in Hin as [Hin | Hin]; [discriminate |]).
  inversion Hin.
Defined.

Lemma array_item_bounds_witness :
  validateParameterValue amd64Overflow "tags" (VArray [VInt 1; VArray []])
    (VObject boundedArray) = Accept
  ∧ validateParameterValue amd64Overflow "tags" (VArray []) (VObject boundedArray)
    ≠ Accept.
Proof.
  assert (Hb : ∀ b, Some 1 = Some b ∨ Some 3 = Some b → 0 ≤ b < 2 ^ 53)
    by (intros b [[= <-] | [= <-]]; lia).
  split.
  - apply (array_item_bounds amd64Overflow "tags" [VInt 1; VArray []] boundedArray
             (Some 1) (Some 3)); try reflexivity; try exact Hb.
    + left. reflexivity.
    + split; intros b [= <-]; simpl; lia.
  - intros Hacc.
    apply (array_item_bounds amd64Overflow "tags" [] boundedArray
             (Some 1) (Some 3)) in Hacc; try reflexivity; try exact Hb.
    + destruct Hacc as [Hlo _]. specialize (Hlo 1 eq_refl). simpl in Hlo. lia.
    + left. reflexivity.
Defined.

Lemma array_unique_items_witness :
  validateParameterValue amd64Overflow "tags"
    (VArray [VString "a"; VString "b"; VString "a"]) (VObject uniqueArray)
  ≠ Accept
  ∧ ∀ e, validateParameterValue amd64Overflow "tags"
           (VArray [VString "a"; VString "b"; VString "a"]) (VObject uniqueArray)
         = Reject e →
      ∃ k, e = Errorf
            "parameter '%s' must have unique items, duplicate found at index %d"
            [VString "tags"; VInt (Z.of_nat k)] None.
Proof.
  destruct (array_unique_items amd64Overflow "tags"
              [VString "a"; VString "b"; VString "a"] uniqueArray)
    as [Hacc Hrej]; try reflexivity.
  split.
  - intros Ha. apply Hacc in Ha as [_ Hdistinct].
    specialize (Hdistinct 0%nat 2%nat (VString "a") (VString "a")).
    assert (keyEq (VString "a") (VString "a") = false) as Hk
      by (apply Hdistinct; [lia | reflexivity | reflexivity]).
    discriminate.
  - intros e He. destruct (Hrej e He) as (k & vk & _ & -> & _). by exists k.
Defined.

Lemma SanitizeParameters_clean_witness :
  SanitizeParameters asciiTrim
    (Some [("query", VString "go"); ("tags", VArray [VString "a"; VInt 1])]) =
  Some [("query", VString "go"); ("tags", VArray [VString "a"; VInt 1])].
Proof.
  apply (SanitizeParameters_clean asciiTrim
           [("query", VString "go"); ("tags", VArray [VString "a"; VInt 1])]).
  - simpl. repeat split; reflexivity.
  - simpl. unfold maxStringLength. repeat split; lia.
Defined.

Example sanitize_trims_and_keeps_numbers :
  SanitizeParameters asciiTrim
    (Some [("query", VString "  go  "); ("limit", VInt 3)]) =
  Some [("query", VString "go"); ("limit", VInt 3)].
Proof. vm_compute. reflexivity. Qed.

Example string_length_counts_bytes :
  validateParameterValue amd64Overflow "code" (VString "é")
    (VObject [("type", VString "string"); ("maxLength", f64 1)]) ≠ Accept.
Proof. vm_compute. discriminate. Qed.

Example NaN_is_never_a_duplicate :
  validateParameterValue amd64Overflow "xs"
    (VArray [VFloat S754_nan; VFloat S754_nan]) (VObject uniqueArray) = Accept.
Proof. reflexivity. Qed.
